(** * Sales Order controller (erpnext/selling/doctype/sales_order/sales_order.py)

    A shallow embedding of the rental status flow, the payment
    classification and the document derivations of the Sales Order
    controller, together with the properties of the specification that
    concern them.

    Conventions of the embedding:
    - A number that the code only copies or compares, and the quantities
      of the derivations, are rationals ([Q]), the values of finite floats;
      [flt] is the identity on them.
    - The amounts that the payment and deposit recomputation adds and
      subtracts are IEEE binary64 numbers ([pyfloat]), and these
      operations round as Python's do.
    - A document field that the code only ever compares with non-empty
      literals is a [string], the empty string standing for an unset value.
    - The database is a record of tables; child tables are lists of rows in
      the order in which a query returns them.
    - A handler runs in a transaction: [frappe.db.commit()] makes the
      working state durable, an exception that leaves the handler discards
      whatever was written since the last commit.
    - [save()] of a document is the write of its row; what the controllers
      of other doctypes validate on save, permissions, [msgprint] and the
      error log are left out. *)

From Stdlib Require Import QArith Qabs Qminmax Lqa.
From Stdlib Require Import Floats.SpecFloat.
From stdpp Require Import gmap strings list.

Local Open Scope string_scope.

(** ** Python values and exceptions *)

(** The exceptions the modelled code can raise; all derive from
    [Exception], so a bare [except Exception] catches each of them. *)
Inductive exn : Type :=
  | ValidationError (msg : string)      (* frappe.throw *)
  | DoesNotExistError (doctype name : string)  (* frappe.get_doc on a missing name *)
  | TypeError
  | ValueError
  | ZeroDivisionError
  | KeyError (key : string).

Inductive result (A : Type) : Type :=
  | Ok (a : A)
  | Raise (e : exn).
Arguments Ok {A} a.
Arguments Raise {A} e.

(** [datetime.date]: compared as the tuple (year, month, day). *)
Record date : Type := mkdate { year : Z; month : Z; day : Z }.

Definition date_leb (a b : date) : bool :=
  (year a <? year b)%Z
  || ((year a =? year b)%Z
      && ((month a <? month b)%Z
          || ((month a =? month b)%Z && (day a <=? day b)%Z))).

Definition date_geb (a b : date) : bool := date_leb b a.

(** A Date field holds nothing, a string (a document that came from the
    client) or a date object (a document loaded from the database). *)
Inductive datefield : Type :=
  | NoDate
  | DateStr (s : string)
  | DateObj (d : date).

Definition truthy_str (s : string) : bool := negb (String.eqb s "").

Definition truthy_date (f : datefield) : bool :=
  match f with
  | NoDate => false
  | DateStr s => truthy_str s
  | DateObj _ => true
  end.

(** A value handed to [float()]: [None], a number or a string. *)
Inductive pynum : Type :=
  | PNone
  | PNum (x : Q)
  | PStr (s : string).

Definition truthy_num (v : pynum) : bool :=
  match v with
  | PNone => false
  | PNum x => negb (Qeq_bool x 0)
  | PStr s => truthy_str s
  end.

(** ** Python floats

    A Python [float] is an IEEE binary64 number: 53 bits of precision,
    infinities at exponent 1024.  Addition, subtraction and [==] are those
    of the standard, rounding to nearest, ties to even. *)

Definition pyfloat : Type := spec_float.

Definition fzero : pyfloat := S754_zero false.

Definition fadd (x y : pyfloat) : pyfloat := SFadd 53 1024 x y.

Definition fsub (x y : pyfloat) : pyfloat := SFsub 53 1024 x y.

Definition feqb (x y : pyfloat) : bool := SFeqb x y.

(** The float of an integer. *)
Definition float_of_Z (n : Z) : pyfloat := binary_normalize 53 1024 n 0 false.

(** The float that a stored number reads as: its numerator over its
    denominator in lowest terms; when the number is the value of a float,
    that float. *)
Definition to_float (x : Q) : pyfloat :=
  let y := Qred x in
  SFdiv 53 1024 (float_of_Z (Qnum y)) (float_of_Z (Zpos (Qden y))).

(** [sum(...)] of floats: Python starts from the integer 0 and adds from
    left to right. *)
Definition py_sum (l : list pyfloat) : pyfloat := fold_left fadd l fzero.

(** ** Documents *)

(** Item master: only the rental status track is modelled. *)
Module Item.
Record t : Type := mk {
  status : string;
  replaced_reason : string
}.
Definition set_status (v : string) (d : t) : t :=
  {| status := v; replaced_reason := replaced_reason d |}.
Definition set_replaced_reason (v : string) (d : t) : t :=
  {| status := status d; replaced_reason := v |}.
End Item.

(** Sales Order Item: a row of the child table of a Sales Order. *)
Module SalesOrderItem.
Record t : Type := mk {
  name : string;
  parent : string;
  item_code : string;
  qty : Q;
  rate : Q;
  base_rate : Q;
  delivered_qty : Q;
  picked_qty : Q;
  conversion_factor : Q;
  stock_reserved_qty : Q;
  delivered_by_supplier : Z;
  delivery_date : string;
  child_status : string;
  replaced_datetime : string;
  old_item_code : string;
  submitted_date : string
}.
Definition set_item_code (v : string) (d : t) : t :=
  mk (name d) (parent d) v (qty d) (rate d) (base_rate d) (delivered_qty d)
     (picked_qty d) (conversion_factor d) (stock_reserved_qty d)
     (delivered_by_supplier d) (delivery_date d) (child_status d)
     (replaced_datetime d) (old_item_code d) (submitted_date d).
Definition set_child_status (v : string) (d : t) : t :=
  mk (name d) (parent d) (item_code d) (qty d) (rate d) (base_rate d)
     (delivered_qty d) (picked_qty d) (conversion_factor d)
     (stock_reserved_qty d) (delivered_by_supplier d) (delivery_date d) v
     (replaced_datetime d) (old_item_code d) (submitted_date d).
Definition set_replaced_datetime (v : string) (d : t) : t :=
  mk (name d) (parent d) (item_code d) (qty d) (rate d) (base_rate d)
     (delivered_qty d) (picked_qty d) (conversion_factor d)
     (stock_reserved_qty d) (delivered_by_supplier d) (delivery_date d)
     (child_status d) v (old_item_code d) (submitted_date d).
Definition set_old_item_code (v : string) (d : t) : t :=
  mk (name d) (parent d) (item_code d) (qty d) (rate d) (base_rate d)
     (delivered_qty d) (picked_qty d) (conversion_factor d)
     (stock_reserved_qty d) (delivered_by_supplier d) (delivery_date d)
     (child_status d) (replaced_datetime d) v (submitted_date d).
Definition set_submitted_date (v : string) (d : t) : t :=
  mk (name d) (parent d) (item_code d) (qty d) (rate d) (base_rate d)
     (delivered_qty d) (picked_qty d) (conversion_factor d)
     (stock_reserved_qty d) (delivered_by_supplier d) (delivery_date d)
     (child_status d) (replaced_datetime d) (old_item_code d) v.
End SalesOrderItem.

(** Packed Item: a component row of a bundle line. *)
Module PackedItem.
Record t : Type := mk {
  name : string;
  parent : string;
  parent_detail_docname : string;
  item_code : string;
  qty : Q;
  rate : Q;
  conversion_factor : Q;
  delivered_qty : Q
}.
End PackedItem.

(** Sales Order header; its [name] is the key under which the table
    stores it. *)
Module SalesOrder.
Record t : Type := mk {
  docstatus : Z;
  status : string;
  previous_order_id : string;
  start_date : datefield;
  end_date : datefield;
  rounded_total : pyfloat;
  advance_paid : pyfloat;
  balance_amount : pyfloat;
  payment_status : string;
  security_deposit : pynum;
  paid_security_deposite_amount : pyfloat;
  outstanding_security_deposit_amount : pyfloat;
  security_deposit_status : string;
  submitted_date : string
}.
Definition set_status (v : string) (d : t) : t :=
  mk (docstatus d) v (previous_order_id d) (start_date d)
     (end_date d) (rounded_total d) (advance_paid d) (balance_amount d)
     (payment_status d) (security_deposit d)
     (paid_security_deposite_amount d)
     (outstanding_security_deposit_amount d) (security_deposit_status d)
     (submitted_date d).
Definition set_submitted_date (v : string) (d : t) : t :=
  mk (docstatus d) (status d) (previous_order_id d) (start_date d)
     (end_date d) (rounded_total d) (advance_paid d) (balance_amount d)
     (payment_status d) (security_deposit d)
     (paid_security_deposite_amount d)
     (outstanding_security_deposit_amount d) (security_deposit_status d) v.
Definition set_balance_amount (v : pyfloat) (d : t) : t :=
  mk (docstatus d) (status d) (previous_order_id d) (start_date d)
     (end_date d) (rounded_total d) (advance_paid d) v
     (payment_status d) (security_deposit d)
     (paid_security_deposite_amount d)
     (outstanding_security_deposit_amount d) (security_deposit_status d)
     (submitted_date d).
Definition set_payment_status (v : string) (d : t) : t :=
  mk (docstatus d) (status d) (previous_order_id d) (start_date d)
     (end_date d) (rounded_total d) (advance_paid d) (balance_amount d)
     v (security_deposit d) (paid_security_deposite_amount d)
     (outstanding_security_deposit_amount d) (security_deposit_status d)
     (submitted_date d).
Definition set_paid_security_deposite_amount (v : pyfloat) (d : t) : t :=
  mk (docstatus d) (status d) (previous_order_id d) (start_date d)
     (end_date d) (rounded_total d) (advance_paid d) (balance_amount d)
     (payment_status d) (security_deposit d) v
     (outstanding_security_deposit_amount d) (security_deposit_status d)
     (submitted_date d).
Definition set_outstanding_security_deposit_amount (v : pyfloat) (d : t) : t :=
  mk (docstatus d) (status d) (previous_order_id d) (start_date d)
     (end_date d) (rounded_total d) (advance_paid d) (balance_amount d)
     (payment_status d) (security_deposit d)
     (paid_security_deposite_amount d) v (security_deposit_status d)
     (submitted_date d).
Definition set_security_deposit_status (v : string) (d : t) : t :=
  mk (docstatus d) (status d) (previous_order_id d) (start_date d)
     (end_date d) (rounded_total d) (advance_paid d) (balance_amount d)
     (payment_status d) (security_deposit d)
     (paid_security_deposite_amount d)
     (outstanding_security_deposit_amount d) v (submitted_date d).
End SalesOrder.

(** Material Request Item: what was already requested against a line. *)
Module MaterialRequestItem.
Record t : Type := mk {
  docstatus : Z;
  sales_order : string;
  sales_order_item : string;
  qty : Q;
  received_qty : Q
}.
End MaterialRequestItem.

(** Journal Entry, as the security-deposit code fills and reads it. *)
Module JournalEntry.
Record t : Type := mk {
  sales_order_id : string;
  master_order_id : string;
  journal_entry_type : string;
  security_deposite_type : string;
  account : string;
  party : string;
  total_debit : Q
}.
End JournalEntry.

(** Payment Entry, as the rental-payment code fills it. *)
Module PaymentEntry.
Record t : Type := mk {
  master_order_id : string;
  reference_name : string;
  party : string;
  mode_of_payment : string;
  paid_to : string;
  paid_amount : Q
}.
End PaymentEntry.

(** Rental Order Replaced Item: the log of device replacements. *)
Module RentalOrderReplacedItem.
Record t : Type := mk {
  master_order_id : string;
  sales_order_id : string;
  replaced_datetime : string;
  old_item : string;
  new_item : string;
  reason : string
}.
End RentalOrderReplacedItem.

(** Delivery Note and its rows, as [make_delivery_note] fills them. *)
Module DeliveryNoteItem.
Record t : Type := mk {
  item_code : string;
  so_detail : string;
  against_sales_order : string;
  conversion_factor : Q;
  rate : Q;
  base_amount : Q;
  amount : Q;
  qty : Q
}.
Definition set_qty (v : Q) (d : t) : t :=
  mk (item_code d) (so_detail d) (against_sales_order d)
     (conversion_factor d) (rate d) (base_amount d) (amount d) v.
End DeliveryNoteItem.

Module DeliveryNote.
Record t : Type := mk { items : list DeliveryNoteItem.t }.
End DeliveryNote.

(** Pick List and its rows ([locations]), as [create_pick_list] fills them. *)
Module PickListItem.
Record t : Type := mk {
  item_code : string;
  sales_order : string;
  sales_order_item : string;
  product_bundle_item : string;
  qty : Q;
  stock_qty : Q
}.
End PickListItem.

Module PickList.
Record t : Type := mk {
  purpose : string;
  locations : list PickListItem.t
}.
End PickList.

(** Material Request and its rows, as [make_material_request] fills them. *)
Module MaterialRequestRow.
Record t : Type := mk {
  item_code : string;
  sales_order : string;
  sales_order_item : string;
  qty : Q;
  stock_qty : Q;
  rate : Q;
  amount : Q
}.
End MaterialRequestRow.

Module MaterialRequest.
Record t : Type := mk { items : list MaterialRequestRow.t }.
End MaterialRequest.

(** Stock Reservation Entry, as [make_delivery_note] reads it. *)
Module StockReservationEntry.
Record t : Type := mk {
  voucher_detail_no : string;
  reserved_qty : Q
}.
End StockReservationEntry.

(** [frappe.flags]: the arguments of the client call and the bulk flag. *)
Module Flags.
Record args_t : Type := mk_args {
  delivery_dates : list string;
  until_delivery_date : string;
  for_reserved_stock : bool;
  skip_item_mapping : bool
}.
Record t : Type := mk {
  args : option args_t;
  bulk_transaction : bool
}.
End Flags.

(** The [kwargs] of [make_delivery_note]. *)
Module Kwargs.
Record t : Type := mk {
  for_reserved_stock : bool;
  skip_item_mapping : bool
}.
End Kwargs.

(** ** The database *)

Record DB : Type := mkDB {
  tabItem : gmap string Item.t;
  tabSalesOrder : gmap string SalesOrder.t;
  tabSalesOrderItem : list SalesOrderItem.t;
  tabPackedItem : list PackedItem.t;
  tabProductBundle : gmap string Z;      (* name of the bundle to [disabled] *)
  tabMaterialRequestItem : list MaterialRequestItem.t;
  tabJournalEntry : list JournalEntry.t;
  tabPaymentEntry : list PaymentEntry.t;
  tabRentalOrderReplacedItem : list RentalOrderReplacedItem.t
}.

Definition set_tabItem (v : gmap string Item.t) (db : DB) : DB :=
  mkDB v (tabSalesOrder db) (tabSalesOrderItem db) (tabPackedItem db)
       (tabProductBundle db) (tabMaterialRequestItem db) (tabJournalEntry db)
       (tabPaymentEntry db) (tabRentalOrderReplacedItem db).
Definition set_tabSalesOrder (v : gmap string SalesOrder.t) (db : DB) : DB :=
  mkDB (tabItem db) v (tabSalesOrderItem db) (tabPackedItem db)
       (tabProductBundle db) (tabMaterialRequestItem db) (tabJournalEntry db)
       (tabPaymentEntry db) (tabRentalOrderReplacedItem db).
Definition set_tabSalesOrderItem (v : list SalesOrderItem.t) (db : DB) : DB :=
  mkDB (tabItem db) (tabSalesOrder db) v (tabPackedItem db)
       (tabProductBundle db) (tabMaterialRequestItem db) (tabJournalEntry db)
       (tabPaymentEntry db) (tabRentalOrderReplacedItem db).
Definition set_tabJournalEntry (v : list JournalEntry.t) (db : DB) : DB :=
  mkDB (tabItem db) (tabSalesOrder db) (tabSalesOrderItem db)
       (tabPackedItem db) (tabProductBundle db) (tabMaterialRequestItem db) v
       (tabPaymentEntry db) (tabRentalOrderReplacedItem db).
Definition set_tabPaymentEntry (v : list PaymentEntry.t) (db : DB) : DB :=
  mkDB (tabItem db) (tabSalesOrder db) (tabSalesOrderItem db)
       (tabPackedItem db) (tabProductBundle db) (tabMaterialRequestItem db)
       (tabJournalEntry db) v (tabRentalOrderReplacedItem db).
Definition set_tabRentalOrderReplacedItem
    (v : list RentalOrderReplacedItem.t) (db : DB) : DB :=
  mkDB (tabItem db) (tabSalesOrder db) (tabSalesOrderItem db)
       (tabPackedItem db) (tabProductBundle db) (tabMaterialRequestItem db)
       (tabJournalEntry db) (tabPaymentEntry db) v.

(** ** Transactions

    A handler is a state-and-exception computation over a transaction:
    the durable state (what the last commit wrote) and the working state.
    A raised exception keeps the working state it was raised in, so that a
    [try ... except] that swallows it carries on from there. *)

Record txn : Type := mktxn { durable : DB; working : DB }.

Definition M (A : Type) : Type := txn -> result A * txn.

#[global] Instance M_ret : MRet M := fun A a t => (Ok a, t).
#[global] Instance M_bind : MBind M := fun A B f m t =>
  match m t with
  | (Ok a, t') => f a t'
  | (Raise e, t') => (Raise e, t')
  end.

Definition raise {A : Type} (e : exn) : M A := fun t => (Raise e, t).

(** [frappe.throw(msg)] *)
Definition throw {A : Type} (msg : string) : M A := raise (ValidationError msg).

(** [try: body except Exception: handler] *)
Definition try_except {A : Type} (body : M A) (handler : exn -> M A) : M A :=
  fun t =>
    match body t with
    | (Ok a, t') => (Ok a, t')
    | (Raise e, t') => handler e t'
    end.

Definition get_db : M DB := fun t => (Ok (working t), t).

Definition modify_db (f : DB -> DB) : M unit :=
  fun t => (Ok tt, mktxn (durable t) (f (working t))).

(** [frappe.db.commit()] *)
Definition db_commit : M unit :=
  fun t => (Ok tt, mktxn (working t) (working t)).

(** One request against the database: the framework commits when the
    handler returns and rolls back to the last commit when it raises. *)
Definition request {A : Type} (handler : M A) (db : DB) : result A * DB :=
  match handler (mktxn db db) with
  | (Ok a, t) => (Ok a, working t)
  | (Raise e, t) => (Raise e, durable t)
  end.

(** A [for] loop whose body neither breaks nor returns. *)
Fixpoint for_each {A : Type} (l : list A) (body : A -> M unit) : M unit :=
  match l with
  | [] => mret tt
  | x :: l' => body x ≫= fun _ => for_each l' body
  end.

(** ** Document access *)

Definition get_doc_Item (item_code : string) : M Item.t :=
  db ← get_db;
  match tabItem db !! item_code with
  | Some d => mret d
  | None => raise (DoesNotExistError "Item" item_code)
  end.

Definition save_Item (item_code : string) (d : Item.t) : M unit :=
  modify_db (fun db => set_tabItem (<[item_code := d]> (tabItem db)) db).

Definition get_doc_SalesOrder (docname : string) : M SalesOrder.t :=
  db ← get_db;
  match tabSalesOrder db !! docname with
  | Some d => mret d
  | None => raise (DoesNotExistError "Sales Order" docname)
  end.

Definition save_SalesOrder (docname : string) (d : SalesOrder.t) : M unit :=
  modify_db (fun db =>
    set_tabSalesOrder (<[docname := d]> (tabSalesOrder db)) db).

(** [frappe.get_all("Sales Order Item", filters={"parent": docname})] *)
Definition rows_of (docname : string) (rows : list SalesOrderItem.t)
    : list SalesOrderItem.t :=
  List.filter (fun r => String.eqb (SalesOrderItem.parent r) docname) rows.

Definition get_all_SalesOrderItem (docname : string)
    : M (list SalesOrderItem.t) :=
  db ← get_db; mret (rows_of docname (tabSalesOrderItem db)).

Definition find_row (name : string) (rows : list SalesOrderItem.t)
    : option SalesOrderItem.t :=
  List.find (fun r => String.eqb (SalesOrderItem.name r) name) rows.

Definition get_doc_SalesOrderItem (name : string) : M SalesOrderItem.t :=
  db ← get_db;
  match find_row name (tabSalesOrderItem db) with
  | Some d => mret d
  | None => raise (DoesNotExistError "Sales Order Item" name)
  end.

(** Saving a row rewrites the row of that name in place. *)
Definition replace_row (d : SalesOrderItem.t) (rows : list SalesOrderItem.t)
    : list SalesOrderItem.t :=
  List.map (fun r =>
    if String.eqb (SalesOrderItem.name r) (SalesOrderItem.name d) then d else r)
    rows.

Definition save_SalesOrderItem (d : SalesOrderItem.t) : M unit :=
  modify_db (fun db =>
    set_tabSalesOrderItem (replace_row d (tabSalesOrderItem db)) db).

(** ** Collaborators

    Library functions, controllers of other doctypes, and the methods of
    this controller that only work on tables left out of the model (bins,
    projects, quotations, ledgers).  Such a call can read the database and
    raise; it writes none of the tables modelled here. *)

Record Collaborators : Type := {
  (* datetime.strptime(s, '%Y-%m-%d').date(); None when it raises *)
  strptime : string -> option date;
  (* float(s) on a non-empty string; None when it raises *)
  float_str : string -> option Q;
  (* str(e) *)
  exn_str : exn -> string;
  (* SellingController.on_cancel *)
  super_on_cancel : SalesOrder.t -> DB -> result unit;
  (* bins, the project, the quotations of the lines *)
  update_reserved_qty : SalesOrder.t -> DB -> result unit;
  update_project : SalesOrder.t -> DB -> result unit;
  update_prevdoc_status : SalesOrder.t -> string -> DB -> result unit;
  (* blanket order, stock reservation entries, inter-company link *)
  update_blanket_order : SalesOrder.t -> DB -> result unit;
  cancel_stock_reservation_entries : SalesOrder.t -> DB -> result unit;
  unlink_inter_company_doc : SalesOrder.t -> DB -> result unit;
  (* if self.coupon_code: update_coupon_code_count(self.coupon_code, ...) *)
  update_coupon_code_count : SalesOrder.t -> DB -> result unit;
  (* insert() and submit() of a new ledger document: the validations of
     the Journal Entry and Payment Entry controllers *)
  journal_entry_insert_submit : JournalEntry.t -> DB -> result unit;
  payment_entry_insert_submit : PaymentEntry.t -> DB -> result unit;
  (* insert() and submit() of a Journal Entry taken apart, for a caller
     that goes on after a failure: what the controller validates before
     the row is written, and what it validates when the row is submitted *)
  journal_entry_insert : JournalEntry.t -> DB -> result unit;
  journal_entry_submit : JournalEntry.t -> DB -> result unit;
  (* stock reservation: the reserved rows of a voucher (the keys of the
     dict) and its reservation entries *)
  get_sre_reserved_qty_details_for_voucher : string -> DB -> gset string;
  get_sre_details_for_voucher :
    string -> DB -> list StockReservationEntry.t;
  (* set_missing_values of make_delivery_note: run_method hooks of the
     Delivery Note, addresses and the packing list *)
  dn_set_missing_values :
    SalesOrder.t -> DeliveryNote.t -> DB -> result DeliveryNote.t;
  (* PickList.set_item_locations *)
  set_item_locations : PickList.t -> DB -> result PickList.t
}.

Definition call {A : Type} (f : DB -> result A) : M A :=
  fun t => (f (working t), t).

Section Handlers.

Variable ext : Collaborators.

(** ** Renewal: the overlap guard of [before_submit] *)

(** [datetime.strptime(field, '%Y-%m-%d').date()]: a string is parsed,
    anything else is a [TypeError]. *)
Definition strptime_date (f : datefield) : M date :=
  match f with
  | DateStr s =>
      match strptime ext s with
      | Some d => mret d
      | None => raise ValueError
      end
  | _ => raise TypeError
  end.

(** [d <= f] and [d >= f] for a date object [d] and a stored field [f]:
    only another date object is comparable. *)
Definition date_le_field (d : date) (f : datefield) : M bool :=
  match f with
  | DateObj d' => mret (date_leb d d')
  | _ => raise TypeError
  end.

Definition date_ge_field (d : date) (f : datefield) : M bool :=
  match f with
  | DateObj d' => mret (date_geb d d')
  | _ => raise TypeError
  end.

Definition check_overlap (self : SalesOrder.t) : M bool :=
  previous_order ← get_doc_SalesOrder (SalesOrder.previous_order_id self);
  (* a loaded document is truthy *)
  if truthy_date (SalesOrder.start_date self)
       && truthy_date (SalesOrder.end_date self)
  then
    start_date ← strptime_date (SalesOrder.start_date self);
    end_date ← strptime_date (SalesOrder.end_date self);
    c1 ← date_le_field start_date (SalesOrder.end_date previous_order);
    if (c1 : bool)
    then date_ge_field end_date (SalesOrder.start_date previous_order)
    else mret false
  else mret false.

Definition overlap_message : string :=
  "Current start and end dates overlap with the previous order.".

Definition before_submit (self : SalesOrder.t) : M unit :=
  if truthy_str (SalesOrder.previous_order_id self) then
    overlap ← check_overlap self;
    if (overlap : bool) then throw overlap_message else mret tt
  else mret tt.

(** ** Cancellation *)

(** [self.get("items")]: the rows of the document being cancelled, which
    the framework has just written to the child table; [name] is
    [self.name]. *)
Definition item_status_change_cancel (name : string) : M unit :=
  items ← get_all_SalesOrderItem name;
  for_each items (fun item =>
    let item_code := SalesOrderItem.item_code item in
    item_doc ← get_doc_Item item_code;
    if String.eqb (Item.status item_doc) "Rented Out"
    then save_Item item_code (Item.set_status "Available" item_doc)
    else mret tt);;
  db_commit.

(** [self.db_set("status", v)]: an UPDATE of the stored row. *)
Definition db_set_status (name : string) (v : string) : M unit :=
  modify_db (fun db =>
    set_tabSalesOrder
      (alter (SalesOrder.set_status v) name (tabSalesOrder db)) db).

Definition closed_message : string :=
  "Closed order cannot be cancelled. Unclose to cancel.".

Definition on_cancel (name : string) (self : SalesOrder.t) : M unit :=
  item_status_change_cancel name;;
  call (super_on_cancel ext self);;
  (* Cannot cancel closed SO *)
  (if String.eqb (SalesOrder.status self) "Closed"
   then throw closed_message else mret tt);;
  call (update_reserved_qty ext self);;
  call (update_project ext self);;
  call (update_prevdoc_status ext self "cancel");;
  db_set_status name "Cancelled";;
  call (update_blanket_order ext self);;
  call (cancel_stock_reservation_entries ext self);;
  call (unlink_inter_company_doc ext self);;
  call (update_coupon_code_count ext self).

(** ** Approval *)

(** The body of the [for] loop of [make_approved]; the [else] branch is
    its [break]. *)
Fixpoint make_approved_loop (docname : string)
    (sales_order_items : list SalesOrderItem.t) : M unit :=
  match sales_order_items with
  | [] => mret tt
  | item :: rest =>
      item_doc ← get_doc_Item (SalesOrderItem.item_code item);
      if String.eqb (Item.status item_doc) "Available" then
        save_Item (SalesOrderItem.item_code item)
                  (Item.set_status "Reserved" item_doc);;
        sales_order_item ← get_doc_SalesOrderItem (SalesOrderItem.name item);
        save_SalesOrderItem
          (SalesOrderItem.set_child_status "Approved" sales_order_item);;
        sales_order ← get_doc_SalesOrder docname;
        save_SalesOrder docname (SalesOrder.set_status "Approved" sales_order);;
        make_approved_loop docname rest
      else mret tt
  end.

Definition make_approved (docname : string) : M string :=
  try_except
    (sales_order_items ← get_all_SalesOrderItem docname;
     make_approved_loop docname sales_order_items;;
     mret "Approved Success")
    (fun e => raise e).

(** ** Status recomputation *)

Definition update_status_to_pickup (item_code docname child_name : string)
    : M bool :=
  try_except
    (item ← get_doc_Item item_code;
     save_Item item_code (Item.set_status "Rented Out" item);;
     sales_order_items ← get_all_SalesOrderItem docname;
     match sales_order_items with
     | [] => mret false
     | first :: _ =>
         if Nat.eqb (length sales_order_items) 1 then
           sales_order_item_doc ←
             get_doc_SalesOrderItem (SalesOrderItem.name first);
           save_SalesOrderItem
             (SalesOrderItem.set_submitted_date ""
                (SalesOrderItem.set_child_status "Picked Up"
                   sales_order_item_doc));;
           sales_order_doc ← get_doc_SalesOrder docname;
           save_SalesOrder docname
             (SalesOrder.set_submitted_date ""
                (SalesOrder.set_status "Picked Up" sales_order_doc));;
           mret true
         else
           sales_order_item_doc ← get_doc_SalesOrderItem child_name;
           save_SalesOrderItem
             (SalesOrderItem.set_submitted_date ""
                (SalesOrderItem.set_child_status "Picked Up"
                   sales_order_item_doc));;
           sales_order_items_status ← get_all_SalesOrderItem docname;
           let all_not_submitted :=
             forallb (fun item =>
               negb (String.eqb (SalesOrderItem.child_status item)
                                "Submitted to Office"))
               sales_order_items_status in
           sales_order_replace ← get_doc_SalesOrder docname;
           save_SalesOrder docname
             (SalesOrder.set_status
                (if all_not_submitted then "Active" else "Partially Closed")
                sales_order_replace);;
           mret true
     end)
    (fun _ => mret false).

Definition replacement_failed_message : string :=
  "Item Replacement Failed. Please try again later.".

(** The status that the vote at the end of [item_replacement] writes on
    the header, from the sub-statuses of all rows of the order; [current]
    is the status the header has. *)
Definition replacement_vote (current : string) (statuses : list string)
    : string :=
  let all_active := forallb (fun s => String.eqb s "Active") statuses in
  let any_submitted :=
    existsb (fun s => String.eqb s "Submitted to Office") statuses in
  let not_submitted :=
    existsb (fun s => negb (String.eqb s "Submitted to Office")) statuses in
  if all_active then "Active"
  else if any_submitted then "Partially Closed"
  else if not_submitted then "Active"
  else current.

(** The body of the [for] loop of [item_replacement]. *)
Definition item_replacement_row (item_code new_item replacement_date : string)
    (item : SalesOrderItem.t) : M unit :=
  let picked_up :=
    String.eqb (SalesOrderItem.child_status item) "Picked Up" in
  sales_order_item ← get_doc_SalesOrderItem (SalesOrderItem.name item);
  save_SalesOrderItem
    (SalesOrderItem.set_item_code new_item
       (SalesOrderItem.set_old_item_code item_code
          (SalesOrderItem.set_replaced_datetime replacement_date
             (SalesOrderItem.set_child_status
                (if picked_up then "Active"
                 else SalesOrderItem.child_status item)
                sales_order_item))));;
  new_item_doc ← get_doc_Item new_item;
  save_Item new_item
    (Item.set_status (if picked_up then "Rented Out" else "Reserved")
       new_item_doc).

Definition item_replacement
    (item_code new_item replacement_date master_order_id docname
     old_item_status reason : string) : M bool :=
  try_except
    (modify_db (fun db =>
       set_tabRentalOrderReplacedItem
         (tabRentalOrderReplacedItem db ++
          [RentalOrderReplacedItem.mk master_order_id docname replacement_date
             item_code new_item reason]) db);;
     db ← get_db;
     let sales_order_items :=
       List.filter (fun r => String.eqb (SalesOrderItem.item_code r) item_code)
         (rows_of docname (tabSalesOrderItem db)) in
     for_each sales_order_items
       (item_replacement_row item_code new_item replacement_date);;
     old_item_doc ← get_doc_Item item_code;
     save_Item item_code
       (Item.set_replaced_reason reason
          (Item.set_status old_item_status old_item_doc));;
     sales_order_items_status ← get_all_SalesOrderItem docname;
     let statuses :=
       List.map SalesOrderItem.child_status sales_order_items_status in
     (if existsb (fun s => negb (String.eqb s "Ready for Delivery")
                           && negb (String.eqb s "DISPATCHED")) statuses
      then
        sales_order_replace ← get_doc_SalesOrder docname;
        save_SalesOrder docname
          (SalesOrder.set_status
             (replacement_vote (SalesOrder.status sales_order_replace) statuses)
             sales_order_replace)
      else mret tt);;
     mret true)
    (fun _ => throw replacement_failed_message).

End Handlers.

(** ** Payments and security deposit *)

Local Open Scope Q_scope.

(** [x < y] on floats. *)
Definition Qltb (x y : Q) : bool := negb (Qle_bool y x).

(** [sum(...)] of a column in SQL: the exact sum of decimals. *)
Definition Qsum (l : list Q) : Q := fold_left Qplus l 0.

(** The pass-through arguments of [process_payment]. *)
Record PaymentArgs : Type := {
  customer_name : string;
  sales_order_name : string;
  master_order_id : string;
  customer : string;
  payment_account : string;
  security_deposit_account : string;
  mode_of_payment : string
}.

Section Payments.

Variable ext : Collaborators.

(** [float(v)]: [None] is a [TypeError]; the empty string, and any string
    that does not read as a number, a [ValueError]. *)
Definition float_of (v : pynum) : result Q :=
  match v with
  | PNone => Raise TypeError
  | PNum x => Ok x
  | PStr s =>
      if String.eqb s "" then Raise ValueError
      else match float_str ext s with
           | Some x => Ok x
           | None => Raise ValueError
           end
  end.

Definition py_float (v : pynum) : M Q := fun t => (float_of v, t).

Definition payment_status_of (rounded_total advance_paid : pyfloat)
    : string :=
  if feqb rounded_total advance_paid then "Paid"
  else if feqb advance_paid fzero then "UnPaid"
  else "Partially Paid".

Definition validate_and_update_payment_status (docname : string)
    : M pyfloat :=
  sales_order ← get_doc_SalesOrder docname;
  let rounded_total := SalesOrder.rounded_total sales_order in
  let advance_paid := SalesOrder.advance_paid sales_order in
  let balance_amount := fsub rounded_total advance_paid in
  save_SalesOrder docname
    (SalesOrder.set_payment_status
       (payment_status_of rounded_total advance_paid)
       (SalesOrder.set_balance_amount balance_amount sales_order));;
  mret balance_amount.

Definition security_deposit_status_of
    (outstanding_security_deposit_amount security_deposit : pyfloat)
    : string :=
  if feqb outstanding_security_deposit_amount fzero then "Paid"
  else if feqb outstanding_security_deposit_amount security_deposit
  then "Unpaid"
  else "Partially Paid".

(** [sum(journal_entry.total_debit for journal_entry in journal_entries)] *)
Definition total_debit_sum (journal_entries : list JournalEntry.t) : pyfloat :=
  py_sum (List.map (fun je => to_float (JournalEntry.total_debit je))
            journal_entries).

(** The Journal Entry rows that count as deposit received for an order. *)
Definition deposit_entries (docname : string) (db : DB) : list JournalEntry.t :=
  List.filter (fun je =>
      String.eqb (JournalEntry.sales_order_id je) docname
      && String.eqb (JournalEntry.security_deposite_type je)
                    "Cash Received From Client")
    (tabJournalEntry db).

Definition validate_and_update_payment_and_security_deposit_status
    (docname : string) : M bool :=
  try_except
    (sales_order ← get_doc_SalesOrder docname;
     let rounded_total := SalesOrder.rounded_total sales_order in
     let advance_paid := SalesOrder.advance_paid sales_order in
     let balance_amount := fsub rounded_total advance_paid in
     let sales_order :=
       SalesOrder.set_payment_status
         (payment_status_of rounded_total advance_paid)
         (SalesOrder.set_balance_amount balance_amount sales_order) in
     db ← get_db;
     let journal_entries := deposit_entries docname db in
     let total_debit_amount := total_debit_sum journal_entries in
     security_deposit ← py_float (SalesOrder.security_deposit sales_order);
     let security_deposit := to_float security_deposit in
     let outstanding_security_deposit_amount :=
       fsub security_deposit total_debit_amount in
     save_SalesOrder docname
       (SalesOrder.set_security_deposit_status
          (security_deposit_status_of outstanding_security_deposit_amount
             security_deposit)
          (SalesOrder.set_outstanding_security_deposit_amount
             outstanding_security_deposit_amount
             (SalesOrder.set_paid_security_deposite_amount total_debit_amount
                sales_order)));;
     mret true)
    (fun e =>
       throw ("Failed to update payment status. Error: " ++ exn_str ext e)).

Definition create_security_deposit_journal_entry_payment
    (customer : string) (security_deposit_payment_amount : Q)
    (sales_order_name master_order_id security_deposit_account : string)
    : M unit :=
  try_except
    (let journal_entry :=
       JournalEntry.mk sales_order_name master_order_id "Security Deposit"
         "Cash Received From Client" security_deposit_account customer
         security_deposit_payment_amount in
     call (journal_entry_insert_submit ext journal_entry);;
     modify_db (fun db =>
       set_tabJournalEntry (tabJournalEntry db ++ [journal_entry]) db))
    (fun _ =>
       throw "Failed to create Security Deposit Journal Entry. Please try again later.").

Definition create_rental_payment_entry
    (rental_payment_amount : Q)
    (mode_of_payment sales_order_name customer payment_account
     master_order_id : string) : M unit :=
  try_except
    (let payment_entry :=
       PaymentEntry.mk master_order_id sales_order_name customer
         mode_of_payment payment_account rental_payment_amount in
     call (payment_entry_insert_submit ext payment_entry);;
     modify_db (fun db =>
       set_tabPaymentEntry (tabPaymentEntry db ++ [payment_entry]) db))
    (fun e =>
       throw ("Failed to create Rental Payment Entry. Please try again later. Error: "
              ++ exn_str ext e)).

Definition deposit_exceeds_message : string :=
  "Security Deposit Payment Amount cannot be greater than the Security Deposit Amount.".

Definition rental_exceeds_message : string :=
  "Rental Payment Amount cannot be greater than the Balance Amount.".

Definition process_payment
    (balance_amount outstanding_security_deposit_amount : pynum)
    (rental_payment_amount security_deposit_payment_amount : pynum)
    (a : PaymentArgs) : M bool :=
  try_except
    (balance ← py_float balance_amount;
     outstanding ← py_float outstanding_security_deposit_amount;
     rental_f ← py_float rental_payment_amount;
     (* [or] evaluates its second operand only when the first is false *)
     negative ←
       (if Qltb rental_f 0 then mret true
        else deposit_f ← py_float security_deposit_payment_amount;
             mret (Qltb deposit_f 0));
     if (negative : bool) then throw "Payment amounts cannot be negative."
     else if Qltb balance 0 || Qltb outstanding 0
     then throw "Balance amounts cannot be negative."
     else
       rental ←
         (if truthy_num rental_payment_amount
          then py_float rental_payment_amount else mret 0);
       deposit ←
         (if truthy_num security_deposit_payment_amount
          then py_float security_deposit_payment_amount else mret 0);
       if Qltb 0 deposit && Qltb 0 rental then
         if Qltb outstanding deposit then throw deposit_exceeds_message
         else if Qltb balance rental then throw rental_exceeds_message
         else
           create_security_deposit_journal_entry_payment (customer_name a)
             deposit (sales_order_name a) (master_order_id a)
             (security_deposit_account a);;
           create_rental_payment_entry rental (mode_of_payment a)
             (sales_order_name a) (customer a) (payment_account a)
             (master_order_id a);;
           mret true
       else if Qltb 0 deposit then
         if Qltb outstanding deposit then throw deposit_exceeds_message
         else
           create_security_deposit_journal_entry_payment (customer_name a)
             deposit (sales_order_name a) (master_order_id a)
             (security_deposit_account a);;
           mret true
       else if Qltb 0 rental then
         if Qltb balance rental then throw rental_exceeds_message
         else
           create_rental_payment_entry rental (mode_of_payment a)
             (sales_order_name a) (customer a) (payment_account a)
             (master_order_id a);;
           mret true
       else mret false)
    (fun e => throw ("Failed to process payment: " ++ exn_str ext e)).

End Payments.

(** ** Derivations *)

(** The fields that the derivations read from a source row, whether a
    Sales Order Item or a Packed Item. *)
Class SourceRow (A : Type) : Type := {
  row_name : A -> string;
  row_parent : A -> string;
  row_item_code : A -> string;
  row_qty : A -> Q;
  row_rate : A -> Q;
  row_conversion_factor : A -> Q;
  row_delivered_qty : A -> Q
}.

#[global] Instance SalesOrderItem_row : SourceRow SalesOrderItem.t := {
  row_name := SalesOrderItem.name;
  row_parent := SalesOrderItem.parent;
  row_item_code := SalesOrderItem.item_code;
  row_qty := SalesOrderItem.qty;
  row_rate := SalesOrderItem.rate;
  row_conversion_factor := SalesOrderItem.conversion_factor;
  row_delivered_qty := SalesOrderItem.delivered_qty
}.

#[global] Instance PackedItem_row : SourceRow PackedItem.t := {
  row_name := PackedItem.name;
  row_parent := PackedItem.parent;
  row_item_code := PackedItem.item_code;
  row_qty := PackedItem.qty;
  row_rate := PackedItem.rate;
  row_conversion_factor := PackedItem.conversion_factor;
  row_delivered_qty := PackedItem.delivered_qty
}.

(** [so.items] and [so.packed_items] of a loaded Sales Order. *)
Definition items_of (db : DB) (docname : string) : list SalesOrderItem.t :=
  rows_of docname (tabSalesOrderItem db).

Definition packed_items_of (db : DB) (docname : string) : list PackedItem.t :=
  List.filter (fun p => String.eqb (PackedItem.parent p) docname)
    (tabPackedItem db).

(** [frappe.db.exists("Product Bundle", {"name": item_code, "disabled": 0})] *)
Definition is_product_bundle (db : DB) (item_code : string) : bool :=
  match tabProductBundle db !! item_code with
  | Some disabled => Z.eqb disabled 0
  | None => false
  end.

Definition cannot_map_message : string :=
  "Cannot map because following condition fails: docstatus=1".

(** The head of [get_mapped_doc]: load the source and check the
    [validation] entry [docstatus = 1] of the mapping. *)
Definition get_mapped_source (source_name : string) : M SalesOrder.t :=
  source_doc ← get_doc_SalesOrder source_name;
  if Z.eqb (SalesOrder.docstatus source_doc) 1 then mret source_doc
  else throw cannot_map_message.

(** *** Material Request *)

(** [get_requested_item_qty]: per Sales Order Item, the sums of [qty] and
    [received_qty] over the submitted Material Request Items of the order. *)
Definition get_requested_item_qty (sales_order : string) (db : DB)
    : gmap string (Q * Q) :=
  fold_left
    (fun result d =>
       if Z.eqb (MaterialRequestItem.docstatus d) 1
          && String.eqb (MaterialRequestItem.sales_order d) sales_order
       then
         let '(q, r) :=
           default (0, 0) (result !! MaterialRequestItem.sales_order_item d) in
         <[MaterialRequestItem.sales_order_item d :=
             (q + MaterialRequestItem.qty d,
              r + MaterialRequestItem.received_qty d)]> result
       else result)
    (tabMaterialRequestItem db) ∅.

(** [requested_item_qty.get(name, {}).get(field)] under [flt]: a missing
    entry counts as zero. *)
Definition requested_qty (requested_item_qty : gmap string (Q * Q))
    (name : string) : Q :=
  default 0 (fst <$> requested_item_qty !! name).

Definition requested_received_qty (requested_item_qty : gmap string (Q * Q))
    (name : string) : Q :=
  default 0 (snd <$> requested_item_qty !! name).

Definition get_remaining_qty {A : Type} `{SourceRow A}
    (requested_item_qty : gmap string (Q * Q)) (so_item : A) : Q :=
  row_qty so_item
  - requested_qty requested_item_qty (row_name so_item)
  - Qmax (row_delivered_qty so_item
          - requested_received_qty requested_item_qty (row_name so_item))
         0.

(** [update_item] of [make_material_request], after the field copy of the
    mapper. *)
Definition mr_update_item {A : Type} `{SourceRow A}
    (requested_item_qty : gmap string (Q * Q)) (sales_order_item : string)
    (source : A) : MaterialRequestRow.t :=
  let qty := get_remaining_qty requested_item_qty source in
  MaterialRequestRow.mk (row_item_code source) (row_parent source)
    sales_order_item qty (qty * row_conversion_factor source)
    (row_rate source) (qty * row_rate source).

Definition mr_condition (db : DB) (requested_item_qty : gmap string (Q * Q))
    (item : SalesOrderItem.t) : bool :=
  negb (is_product_bundle db (SalesOrderItem.item_code item))
  && Qltb 0 (get_remaining_qty requested_item_qty item).

Definition make_material_request (source_name : string)
    (target_doc : option MaterialRequest.t) : M MaterialRequest.t :=
  db ← get_db;
  let requested_item_qty := get_requested_item_qty source_name db in
  _ ← get_mapped_source source_name;
  let existing :=
    match target_doc with
    | Some d => MaterialRequest.items d
    | None => []
    end in
  mret (MaterialRequest.mk
    (existing
     ++ List.map
          (fun item =>
             mr_update_item requested_item_qty (SalesOrderItem.name item) item)
          (List.filter (mr_condition db requested_item_qty)
             (items_of db source_name))
     ++ List.map (mr_update_item requested_item_qty "")
          (packed_items_of db source_name))).

(** *** Delivery Note *)


(** [condition] of [make_delivery_note]; it deletes the row it rejects
    from the [sre_details] of the enclosing call, so the dict is threaded
    through. *)
Definition dn_condition (fl : Flags.t) (sre_details : gset string)
    (doc : SalesOrderItem.t) : bool * gset string :=
  if decide (SalesOrderItem.name doc ∈ sre_details) then
    (false, sre_details ∖ {[SalesOrderItem.name doc]})
  else
    let delivery_dates :=
      match Flags.args fl with
      | Some a => Flags.delivery_dates a
      | None => []
      end in
    let until_delivery_date :=
      match Flags.args fl with
      | Some a => Flags.until_delivery_date a
      | None => ""
      end in
    if match delivery_dates with [] => false | _ => true end
       && negb (existsb (String.eqb (SalesOrderItem.delivery_date doc))
                  delivery_dates)
    then (false, sre_details)
    else if truthy_str until_delivery_date
            && String.ltb until_delivery_date (SalesOrderItem.delivery_date doc)
    then (false, sre_details)
    else
      (Qltb (Qabs (SalesOrderItem.delivered_qty doc))
            (Qabs (SalesOrderItem.qty doc))
       && negb (Z.eqb (SalesOrderItem.delivered_by_supplier doc) 1),
       sre_details).

(** [update_item] of [make_delivery_note], after the field copy and the
    [field_map] of the mapper (the cost center lookup is left out). *)
Definition dn_update_item (source : SalesOrderItem.t) : DeliveryNoteItem.t :=
  DeliveryNoteItem.mk
    (SalesOrderItem.item_code source)
    (SalesOrderItem.name source)
    (SalesOrderItem.parent source)
    (SalesOrderItem.conversion_factor source)
    (SalesOrderItem.rate source)
    ((SalesOrderItem.qty source - SalesOrderItem.delivered_qty source)
     * SalesOrderItem.base_rate source)
    ((SalesOrderItem.qty source - SalesOrderItem.delivered_qty source)
     * SalesOrderItem.rate source)
    (SalesOrderItem.qty source - SalesOrderItem.delivered_qty source).

(** The mapper over the rows of the order: a row that passes [condition]
    is copied and post-processed. *)
Fixpoint dn_map_items (fl : Flags.t) (sre_details : gset string)
    (rows : list SalesOrderItem.t) : list DeliveryNoteItem.t * gset string :=
  match rows with
  | [] => ([], sre_details)
  | doc :: rest =>
      let '(keep, sre_details) := dn_condition fl sre_details doc in
      let '(mapped, sre_details) := dn_map_items fl sre_details rest in
      (if keep then dn_update_item doc :: mapped else mapped, sre_details)
  end.

(** The loop over the reservation entries: one row per entry whose line
    passes [condition], with the reserved quantity. *)
Fixpoint dn_reserved_items (fl : Flags.t) (sre_details : gset string)
    (so_items : list SalesOrderItem.t)
    (sre_list : list StockReservationEntry.t) : M (list DeliveryNoteItem.t) :=
  match sre_list with
  | [] => mret []
  | sre :: rest =>
      let key := StockReservationEntry.voucher_detail_no sre in
      match find_row key so_items with
      | None => raise (KeyError key)
      | Some line =>
          let '(keep, sre_details) := dn_condition fl sre_details line in
          if keep then
            source ← get_doc_SalesOrderItem key;
            let dn_item := dn_update_item source in
            let dn_item :=
              DeliveryNoteItem.set_qty
                (StockReservationEntry.reserved_qty sre
                 * DeliveryNoteItem.conversion_factor dn_item) dn_item in
            more ← dn_reserved_items fl sre_details so_items rest;
            mret (dn_item :: more)
          else dn_reserved_items fl sre_details so_items rest
      end
  end.

(** [if not kwargs: kwargs = {...}]: without [kwargs] the two options are
    read from [frappe.flags.args]. *)
Definition default_kwargs (fl : Flags.t) (kwargs : option Kwargs.t)
    : Kwargs.t :=
  match kwargs with
  | Some k => k
  | None =>
      match Flags.args fl with
      | Some a =>
          Kwargs.mk (Flags.for_reserved_stock a) (Flags.skip_item_mapping a)
      | None => Kwargs.mk false false
      end
  end.

(** The draft of [make_delivery_note] before [set_missing_values]; [None]
    is the empty draft that a bulk transaction drops. *)
Definition make_delivery_note_draft (ext : Collaborators) (fl : Flags.t)
    (source_name : string) (target_doc : option DeliveryNote.t)
    (kwargs : option Kwargs.t) : M (option DeliveryNote.t) :=
  let kwargs := default_kwargs fl kwargs in
  db ← get_db;
  let sre_details :=
    if Kwargs.for_reserved_stock kwargs
    then get_sre_reserved_qty_details_for_voucher ext source_name db
    else ∅ in
  _ ← get_doc_SalesOrder source_name;
  _ ← get_mapped_source source_name;
  let existing :=
    match target_doc with
    | Some d => DeliveryNote.items d
    | None => []
    end in
  let '(mapped, sre_details) :=
    if Kwargs.skip_item_mapping kwargs then ([], sre_details)
    else dn_map_items fl sre_details (items_of db source_name) in
  reserved ←
    (if negb (Kwargs.skip_item_mapping kwargs)
        && Kwargs.for_reserved_stock kwargs
     then
       let sre_list := get_sre_details_for_voucher ext source_name db in
       let so_items :=
         List.filter
           (fun d => negb (Qeq_bool (SalesOrderItem.stock_reserved_qty d) 0))
           (items_of db source_name) in
       dn_reserved_items fl sre_details so_items sre_list
     else mret []);
  let items := (existing ++ mapped ++ reserved)%list in
  if negb (Kwargs.skip_item_mapping kwargs) && Flags.bulk_transaction fl
     && match items with [] => true | _ => false end
  then mret None
  else mret (Some (DeliveryNote.mk items)).

Definition make_delivery_note (ext : Collaborators) (fl : Flags.t)
    (source_name : string) (target_doc : option DeliveryNote.t)
    (kwargs : option Kwargs.t) : M (option DeliveryNote.t) :=
  draft ← make_delivery_note_draft ext fl source_name target_doc kwargs;
  match draft with
  | None => mret None
  | Some target_doc =>
      so ← get_doc_SalesOrder source_name;
      target_doc ← call (dn_set_missing_values ext so target_doc);
      mret (Some target_doc)
  end.

(** *** Pick List *)

Definition reserved_stock_message (source_name : string) : string :=
  "Cannot create a pick list for Sales Order <strong>" ++ source_name
  ++ "</strong> because it has reserved stock. Please unreserve the stock in order to create a pick list.".

(** [validate_sales_order] of [create_pick_list] *)
Definition validate_sales_order (source_name : string) : M unit :=
  _ ← get_doc_SalesOrder source_name;
  db ← get_db;
  for_each (items_of db source_name) (fun item =>
    if Qltb 0 (SalesOrderItem.stock_reserved_qty item)
    then throw (reserved_stock_message source_name)
    else mret tt).

(** [flt(cf) or 1] *)
Definition or_one (cf : Q) : Q := if Qeq_bool cf 0 then 1 else cf.

Definition qty_to_be_picked (source : SalesOrderItem.t) : Q :=
  let picked_qty :=
    SalesOrderItem.picked_qty source
    / or_one (SalesOrderItem.conversion_factor source) in
  SalesOrderItem.qty source
  - Qmax picked_qty (SalesOrderItem.delivered_qty source).

(** [update_item_quantity], after the field copy and [field_map]. *)
Definition update_item_quantity (source : SalesOrderItem.t) : PickListItem.t :=
  PickListItem.mk
    (SalesOrderItem.item_code source)
    (SalesOrderItem.parent source)
    (SalesOrderItem.name source)
    ""
    (qty_to_be_picked source)
    (qty_to_be_picked source * SalesOrderItem.conversion_factor source).

(** [update_packed_item_qty], after the field copy and [field_map]: the
    quantity of the component scaled by the pending share of its bundle
    line; without such a line the copied quantity stays. *)
Definition update_packed_item_qty (source : PackedItem.t)
    (items : list SalesOrderItem.t) : M PickListItem.t :=
  let copied qty stock_qty :=
    PickListItem.mk (PackedItem.item_code source) (PackedItem.parent source)
      (PackedItem.name source) (PackedItem.parent_detail_docname source)
      qty stock_qty in
  match find_row (PackedItem.parent_detail_docname source) items with
  | Some item =>
      if Qeq_bool (SalesOrderItem.qty item) 0 then raise ZeroDivisionError
      else
        let pending_percent :=
          qty_to_be_picked item / SalesOrderItem.qty item in
        mret (copied (PackedItem.qty source * pending_percent)
                     (PackedItem.qty source * pending_percent))
  | None => mret (copied (PackedItem.qty source) 0)
  end.

Definition should_pick_order_item (db : DB) (item : SalesOrderItem.t) : bool :=
  Qltb (Qabs (SalesOrderItem.delivered_qty item)) (Qabs (SalesOrderItem.qty item))
  && negb (Z.eqb (SalesOrderItem.delivered_by_supplier item) 1)
  && negb (is_product_bundle db (SalesOrderItem.item_code item)).

Fixpoint map_packed_items (items : list SalesOrderItem.t)
    (packed : list PackedItem.t) : M (list PickListItem.t) :=
  match packed with
  | [] => mret []
  | p :: rest =>
      row ← update_packed_item_qty p items;
      more ← map_packed_items items rest;
      mret (row :: more)
  end.

(** The Pick List that [create_pick_list] hands to [set_item_locations]. *)
Definition create_pick_list_draft (source_name : string)
    (target_doc : option PickList.t) : M PickList.t :=
  validate_sales_order source_name;;
  _ ← get_mapped_source source_name;
  db ← get_db;
  let existing :=
    match target_doc with
    | Some d => PickList.locations d
    | None => []
    end in
  packed ←
    map_packed_items (items_of db source_name) (packed_items_of db source_name);
  mret (PickList.mk "Delivery"
          (existing
           ++ List.map update_item_quantity
                (List.filter (should_pick_order_item db)
                   (items_of db source_name))
           ++ packed)%list).

Definition create_pick_list (ext : Collaborators) (source_name : string)
    (target_doc : option PickList.t) : M PickList.t :=
  doc ← create_pick_list_draft source_name target_doc;
  call (set_item_locations ext doc).

(** ** Notions used in the statements *)

Local Close Scope Q_scope.

Definition date_le (a b : date) : Prop := date_leb a b = true.

(** Two closed intervals of dates overlap when they share a day. *)
Definition intervals_overlap (s e ps pe : date) : Prop :=
  exists d, date_le s d /\ date_le d e /\ date_le ps d /\ date_le d pe.

(** Unfolds the plumbing of a handler. *)
Ltac mstep :=
  unfold mbind, M_bind, mret, M_ret, get_db, modify_db, raise, throw,
    try_except, call in *; simpl in *.

(** What approving the lines [pre] of an order does to a row of the child
    table: the name stays, a row of [pre] ends as "Approved", any other
    row is untouched. *)
Definition approved_row (pre : list SalesOrderItem.t)
    (r r' : SalesOrderItem.t) : Prop :=
  SalesOrderItem.name r' = SalesOrderItem.name r
  /\ (In (SalesOrderItem.name r) (List.map SalesOrderItem.name pre) ->
      SalesOrderItem.child_status r' = "Approved")
  /\ (~ In (SalesOrderItem.name r) (List.map SalesOrderItem.name pre) ->
      r' = r).

(** What approving the lines [pre] of the order [docname] does to the
    database: the rows as in [approved_row], the Item of every line of
    [pre] set to "Reserved", the header set to "Approved" once a line went
    through, every other table as it was. *)
Definition approval_effect (docname : string) (pre : list SalesOrderItem.t)
    (w w' : DB) : Prop :=
  Forall2 (approved_row pre) (tabSalesOrderItem w) (tabSalesOrderItem w')
  /\ (forall code,
        In code (List.map SalesOrderItem.item_code pre) ->
        tabItem w' !! code = Item.set_status "Reserved" <$> tabItem w !! code)
  /\ (forall code,
        ~ In code (List.map SalesOrderItem.item_code pre) ->
        tabItem w' !! code = tabItem w !! code)
  /\ tabSalesOrder w'
     = match pre with
       | [] => tabSalesOrder w
       | _ => alter (SalesOrder.set_status "Approved") docname (tabSalesOrder w)
       end
  /\ w' = set_tabItem (tabItem w')
            (set_tabSalesOrder (tabSalesOrder w')
               (set_tabSalesOrderItem (tabSalesOrderItem w') w)).

(** What [item_status_change_cancel] does to one Item. *)
Definition release (it : Item.t) : Item.t :=
  if String.eqb (Item.status it) "Rented Out"
  then Item.set_status "Available" it else it.

Definition release_all (rows : list SalesOrderItem.t)
    (items : gmap string Item.t) : gmap string Item.t :=
  fold_left (fun m r => alter release (SalesOrderItem.item_code r) m) rows items.

(** The collaborators of [on_cancel] raise nothing for this order. *)
Definition cancel_hooks_pass (ext : Collaborators) (self : SalesOrder.t)
    : Prop :=
  (forall w, super_on_cancel ext self w = Ok tt)
  /\ (forall w, update_reserved_qty ext self w = Ok tt)
  /\ (forall w, update_project ext self w = Ok tt)
  /\ (forall w, update_prevdoc_status ext self "cancel" w = Ok tt)
  /\ (forall w, update_blanket_order ext self w = Ok tt)
  /\ (forall w, cancel_stock_reservation_entries ext self w = Ok tt)
  /\ (forall w, unlink_inter_company_doc ext self w = Ok tt)
  /\ (forall w, update_coupon_code_count ext self w = Ok tt).

(** The state that [on_cancel] commits before it looks at the status. *)
Definition released_db (name : string) (db : DB) : DB :=
  set_tabItem
    (release_all (rows_of name (tabSalesOrderItem db)) (tabItem db)) db.

Definition cancelled_db (name : string) (db : DB) : DB :=
  set_tabSalesOrder
    (alter (SalesOrder.set_status "Cancelled") name (tabSalesOrder db))
    (released_db name db).

(** The status vote as the specification words it: lines in "Ready for
    Delivery" or "DISPATCHED" do not vote; the header is "Active" when all
    the others are, else "Partially Closed" when a line is "Submitted to
    Office", else "Active"; a single line is mirrored. *)
Definition excluded_from_vote (s : string) : bool :=
  String.eqb s "Ready for Delivery" || String.eqb s "DISPATCHED".

Definition vote_of_lines (statuses : list string) : string :=
  if forallb (fun s => excluded_from_vote s || String.eqb s "Active") statuses
  then "Active"
  else if existsb (fun s => String.eqb s "Submitted to Office") statuses
  then "Partially Closed"
  else "Active".

Definition header_of_lines (statuses : list string) : string :=
  match statuses with
  | [s] => s
  | _ => vote_of_lines statuses
  end.

(** The sub-statuses of the lines of an order. *)
Definition line_statuses (docname : string) (db : DB) : list string :=
  List.map SalesOrderItem.child_status (rows_of docname (tabSalesOrderItem db)).

Definition header_status (docname : string) (db : DB) : option string :=
  SalesOrder.status <$> tabSalesOrder db !! docname.

(** The state during the loop of [item_replacement]: nothing committed,
    the rows keep their names, both Items are there, the headers are as
    they were. *)
Definition replacing (db0 : DB) (item_code new_item : string) (t : txn)
    : Prop :=
  durable t = db0
  /\ List.map SalesOrderItem.name (tabSalesOrderItem (working t))
     = List.map SalesOrderItem.name (tabSalesOrderItem db0)
  /\ is_Some (tabItem (working t) !! new_item)
  /\ is_Some (tabItem (working t) !! item_code)
  /\ tabSalesOrder (working t) = tabSalesOrder db0.

(** The three-way classification as the specification words it, with the
    label that stands for "nothing paid". *)
Definition three_way (unpaid : string) (total paid : Q) : string :=
  if Qeq_bool (total - paid) 0 then "Paid"
  else if Qeq_bool paid 0 then unpaid
  else "Partially Paid".

(** No delivery-date filter is in effect. *)
Definition no_date_filters (fl : Flags.t) : Prop :=
  match Flags.args fl with
  | Some a => Flags.delivery_dates a = [] /\ Flags.until_delivery_date a = ""
  | None => True
  end.

(** The inclusion test of the Delivery Note as the specification words it. *)
Definition undelivered (l : SalesOrderItem.t) : Prop :=
  (Qabs (SalesOrderItem.delivered_qty l) < Qabs (SalesOrderItem.qty l))%Q
  /\ SalesOrderItem.delivered_by_supplier l <> 1%Z.

Definition undeliveredb (l : SalesOrderItem.t) : bool :=
  Qltb (Qabs (SalesOrderItem.delivered_qty l)) (Qabs (SalesOrderItem.qty l))
  && negb (Z.eqb (SalesOrderItem.delivered_by_supplier l) 1).

(** ** Concrete collaborators and data for the examples *)

Definition digit_of (c : Ascii.ascii) : option Z :=
  let n := Z.of_nat (Ascii.nat_of_ascii c) in
  if ((48 <=? n) && (n <=? 57))%Z then Some (n - 48)%Z else None.

Fixpoint number_of (acc : Z) (s : string) : option Z :=
  match s with
  | EmptyString => Some acc
  | String c s' =>
      match digit_of c with
      | Some d => number_of (10 * acc + d)%Z s'
      | None => None
      end
  end.

(** ['%Y-%m-%d'] on the ten-character form [YYYY-MM-DD]. *)
Definition strptime_iso (s : string) : option date :=
  if (String.length s =? 10)%nat
     && String.eqb (String.substring 4 1 s) "-"
     && String.eqb (String.substring 7 1 s) "-"
  then
    match number_of 0 (String.substring 0 4 s),
          number_of 0 (String.substring 5 2 s),
          number_of 0 (String.substring 8 2 s) with
    | Some y, Some m, Some d =>
        if ((1 <=? m) && (m <=? 12) && (1 <=? d) && (d <=? 31))%Z
        then Some (mkdate y m d) else None
    | _, _, _ => None
    end
  else None.

(** Collaborators that accept everything and reserve nothing. *)
Definition quiet : Collaborators := {|
  strptime := strptime_iso;
  float_str := fun _ => None;
  exn_str := fun e =>
    match e with
    | ValidationError msg => msg
    | _ => ""
    end;
  super_on_cancel := fun _ _ => Ok tt;
  update_reserved_qty := fun _ _ => Ok tt;
  update_project := fun _ _ => Ok tt;
  update_prevdoc_status := fun _ _ _ => Ok tt;
  update_blanket_order := fun _ _ => Ok tt;
  cancel_stock_reservation_entries := fun _ _ => Ok tt;
  unlink_inter_company_doc := fun _ _ => Ok tt;
  update_coupon_code_count := fun _ _ => Ok tt;
  journal_entry_insert_submit := fun _ _ => Ok tt;
  payment_entry_insert_submit := fun _ _ => Ok tt;
  journal_entry_insert := fun _ _ => Ok tt;
  journal_entry_submit := fun _ _ => Ok tt;
  get_sre_reserved_qty_details_for_voucher := fun _ _ => ∅;
  get_sre_details_for_voucher := fun _ _ => [];
  dn_set_missing_values := fun _ d _ => Ok d;
  set_item_locations := fun d _ => Ok d
|}.

Definition empty_db : DB := mkDB ∅ ∅ [] [] ∅ [] [] [] [].

(** A rental order with the given status and dates, nothing paid. *)
Definition order (status previous_order_id : string)
    (start_date end_date : datefield) : SalesOrder.t :=
  SalesOrder.mk 1 status previous_order_id start_date end_date
    fzero fzero fzero "" (PNum 0) fzero fzero "" "".

(** A line of one unit of a device at the given sub-status. *)
Definition line (name parent item_code child_status : string)
    : SalesOrderItem.t :=
  SalesOrderItem.mk name parent item_code 1 0 0 0 0 1 0 0 "" child_status
    "" "" "".

Definition device (status : string) : Item.t := Item.mk status "".

(** A predecessor order for January 2024 and two renewals of it. *)
Definition january_order : SalesOrder.t :=
  order "Active" "" (DateObj (mkdate 2024 1 1)) (DateObj (mkdate 2024 1 31)).

Definition renewal_db : DB :=
  set_tabSalesOrder {[ "SO-0001" := january_order ]} empty_db.

Definition march_renewal : SalesOrder.t :=
  order "Draft" "SO-0001" (DateStr "2024-03-01") (DateStr "2024-03-31").

Definition midjanuary_renewal : SalesOrder.t :=
  order "Draft" "SO-0001" (DateStr "2024-01-15") (DateStr "2024-02-15").

(** A rental order of three devices, the second of which is out. *)
Definition three_lines : list SalesOrderItem.t :=
  [ line "L1" "SO-0002" "DEV-1" "Pending";
    line "L2" "SO-0002" "DEV-2" "Pending";
    line "L3" "SO-0002" "DEV-3" "Pending" ].

Definition approval_db : DB :=
  set_tabItem
    {[ "DEV-1" := device "Available";
       "DEV-2" := device "Rented Out";
       "DEV-3" := device "Available" ]}
    (set_tabSalesOrder {[ "SO-0002" := order "Pending" "" NoDate NoDate ]}
       (set_tabSalesOrderItem three_lines empty_db)).

(** A closed rental order whose device is out with a customer. *)
Definition closed_db : DB :=
  set_tabItem {[ "DEV-9" := device "Rented Out" ]}
    (set_tabSalesOrder {[ "SO-0003" := order "Closed" "" NoDate NoDate ]}
       (set_tabSalesOrderItem
          [line "L9" "SO-0003" "DEV-9" "Submitted to Office"] empty_db)).

(** The same order while it is still active. *)
Definition active_db : DB :=
  set_tabItem {[ "DEV-9" := device "Rented Out" ]}
    (set_tabSalesOrder {[ "SO-0003" := order "Active" "" NoDate NoDate ]}
       (set_tabSalesOrderItem
          [line "L9" "SO-0003" "DEV-9" "Active"] empty_db)).

(** A rental order with one device, waiting to be picked up, and a spare
    device. *)
Definition pickup_db : DB :=
  set_tabItem
    {[ "DEV-4" := device "Rented Out"; "DEV-5" := device "Available" ]}
    (set_tabSalesOrder
       {[ "SO-0004" := order "Ready for Pickup" "" NoDate NoDate ]}
       (set_tabSalesOrderItem
          [line "L4" "SO-0004" "DEV-4" "Ready for Pickup"] empty_db)).

(** A rental order with two devices, one active and one back at the
    office. *)
Definition two_lines_db : DB :=
  set_tabItem
    {[ "DEV-6" := device "Rented Out"; "DEV-7" := device "Available";
       "DEV-8" := device "Available" ]}
    (set_tabSalesOrder {[ "SO-0005" := order "Active" "" NoDate NoDate ]}
       (set_tabSalesOrderItem
          [line "L6" "SO-0005" "DEV-6" "Active";
           line "L7" "SO-0005" "DEV-7" "Submitted to Office"] empty_db)).

(** An order of 100 on which nothing was paid, with a deposit of 50 of
    which 20 came in. *)
Definition unpaid_order : SalesOrder.t :=
  SalesOrder.mk 1 "Active" "" NoDate NoDate (to_float 100) fzero fzero ""
    (PNum 50) fzero fzero "" "".

Definition unpaid_db : DB :=
  set_tabJournalEntry
    [JournalEntry.mk "SO-0006" "SO-0006" "Security Deposit"
       "Cash Received From Client" "Cash - INR" "CUST-1" 20]
    (set_tabSalesOrder {[ "SO-0006" := unpaid_order ]} empty_db).

Definition payment_args : PaymentArgs := {|
  customer_name := "Asha Rao";
  sales_order_name := "SO-0006";
  master_order_id := "SO-0006";
  customer := "CUST-1";
  payment_account := "Bank Account - INR";
  security_deposit_account := "Kotak Bank Security Deposit Received - INR";
  mode_of_payment := "Cash"
|}.



(** An order with a reserved line, and an order with a bundle line next
    to a plain one. *)
Definition reserved_db : DB :=
  mkDB ∅ {[ "SO-0008" := order "To Deliver and Bill" "" NoDate NoDate ]}
    [SalesOrderItem.mk "L11" "SO-0008" "ITEM-A" 5 100 100 0 0 1 0 0 ""
       "" "" "" "";
     SalesOrderItem.mk "L12" "SO-0008" "ITEM-B" 2 100 100 0 0 1 2 0 ""
       "" "" "" ""]
    [] ∅ [] [] [] [].

Definition bundle_db : DB :=
  mkDB ∅ {[ "SO-0009" := order "To Deliver and Bill" "" NoDate NoDate ]}
    [SalesOrderItem.mk "L13" "SO-0009" "KIT-1" 2 100 100 0 0 1 0 0 ""
       "" "" "" "";
     SalesOrderItem.mk "L14" "SO-0009" "ITEM-A" 5 100 100 0 0 1 0 0 ""
       "" "" "" ""]
    [PackedItem.mk "P1" "SO-0009" "L13" "PART-1" 4 0 1 0]
    {[ "KIT-1" := 0%Z ]} [] [] [] [].

Definition no_flags : Flags.t := Flags.mk None false.

(** A submitted order of 10 units at 100, nothing delivered yet. *)
Definition delivery_db : DB :=
  mkDB ∅
    {[ "SO-0010" := order "To Deliver and Bill" "" NoDate NoDate ]}
    [SalesOrderItem.mk "L15" "SO-0010" "ITEM-A" 10 100 100 0 0 1 0 0 ""
       "" "" "" ""]
    [] ∅ [] [] [] [].

(** ** Further handlers *)

(** *** Renewal: what submitting a renewal does to its predecessor *)

(** The two loop bodies of [update_sales_order_status]. *)
Definition renew_order (name : string) : M unit :=
  sales_order ← get_doc_SalesOrder name;
  save_SalesOrder name (SalesOrder.set_status "RENEWED" sales_order).

Definition renew_row (order_item : SalesOrderItem.t) : M unit :=
  sales_order_item ← get_doc_SalesOrderItem (SalesOrderItem.name order_item);
  save_SalesOrderItem
    (SalesOrderItem.set_child_status "Renewed" sales_order_item).

(** [frappe.get_list("Sales Order", filters={"name": name})]: the order
    when the table has it, nothing otherwise. *)
Definition get_list_SalesOrder (name : string) : M (list string) :=
  db ← get_db;
  mret (match tabSalesOrder db !! name with
        | Some _ => [name]
        | None => []
        end).

Definition update_sales_order_status (self : SalesOrder.t) : M unit :=
  if truthy_str (SalesOrder.previous_order_id self) then
    existing_orders ← get_list_SalesOrder (SalesOrder.previous_order_id self);
    for_each existing_orders renew_order;;
    child_table ← get_all_SalesOrderItem (SalesOrder.previous_order_id self);
    for_each child_table renew_row
  else mret tt.

(** *** Deletion *)

Definition on_trash (name : string) : M unit :=
  item_status_change_cancel name.

(** *** Header status set by hand *)

(** [update_status(docname, new_status)], the later of the two functions
    of that name in the file, which is the one the module ends up with. *)
Definition update_status (docname new_status : string) : M bool :=
  doc ← get_doc_SalesOrder docname;
  save_SalesOrder docname (SalesOrder.set_status new_status doc);;
  mret true.

Definition on_hold (docname : string) : M bool :=
  doc ← get_doc_SalesOrder docname;
  save_SalesOrder docname (SalesOrder.set_status "On Hold" doc);;
  mret true.

Definition close_rental_order (docname : string) : M bool :=
  doc ← get_doc_SalesOrder docname;
  save_SalesOrder docname (SalesOrder.set_status "Closed" doc);;
  mret true.

(** *** Return of a device to the office *)

Definition update_status_to_submitted_to_office
    (item_code submission_datetime docname child_name : string) : M bool :=
  try_except
    (item ← get_doc_Item item_code;
     save_Item item_code (Item.set_status "Available" item);;
     sales_order_items ← get_all_SalesOrderItem docname;
     match sales_order_items with
     | [] => mret false
     | first :: _ =>
         if Nat.eqb (length sales_order_items) 1 then
           sales_order_item_doc ←
             get_doc_SalesOrderItem (SalesOrderItem.name first);
           save_SalesOrderItem
             (SalesOrderItem.set_submitted_date submission_datetime
                (SalesOrderItem.set_child_status "Submitted to Office"
                   sales_order_item_doc));;
           sales_order_doc ← get_doc_SalesOrder docname;
           save_SalesOrder docname
             (SalesOrder.set_submitted_date submission_datetime
                (SalesOrder.set_status "Submitted to Office" sales_order_doc));;
           mret true
         else
           sales_order_item_doc ← get_doc_SalesOrderItem child_name;
           save_SalesOrderItem
             (SalesOrderItem.set_submitted_date submission_datetime
                (SalesOrderItem.set_child_status "Submitted to Office"
                   sales_order_item_doc));;
           sales_order_items ← get_all_SalesOrderItem docname;
           match sales_order_items with
           | [] => mret false
           | _ :: _ =>
               let all_submitted_to_office :=
                 forallb (fun item =>
                   String.eqb (SalesOrderItem.child_status item)
                              "Submitted to Office")
                   sales_order_items in
               sales_order_doc ← get_doc_SalesOrder docname;
               save_SalesOrder docname
                 (SalesOrder.set_status
                    (if all_submitted_to_office then "Submitted to Office"
                     else "Partially Closed")
                    sales_order_doc);;
               mret true
           end
     end)
    (fun _ => mret false).

Definition request_failed_message : string :=
  "An error occurred while processing the request. Please try again.".

(** The loop bodies of [make_submitted_to_office]. *)
Definition make_available (item_code : string) : M unit :=
  item_doc ← get_doc_Item item_code;
  save_Item item_code (Item.set_status "Available" item_doc).

Definition submit_row (submitted_date : string) (item : SalesOrderItem.t)
    : M unit :=
  sales_order_item ← get_doc_SalesOrderItem (SalesOrderItem.name item);
  save_SalesOrderItem
    (SalesOrderItem.set_submitted_date submitted_date
       (SalesOrderItem.set_child_status "Submitted to Office"
          sales_order_item)).

(** [literal_eval] stands for [ast.literal_eval] followed by the
    iteration over its value: the item codes it yields, [None] when the
    text is no literal or its value cannot be iterated. *)
Definition make_submitted_to_office
    (literal_eval : string -> option (list string))
    (docname item_code submitted_date : string) : M string :=
  try_except
    (item_codes ←
       match literal_eval item_code with
       | Some l => mret l
       | None => raise ValueError
       end;
     doc ← get_doc_SalesOrder docname;
     for_each item_codes make_available;;
     save_SalesOrder docname
       (SalesOrder.set_status "Submitted to Office"
          (SalesOrder.set_submitted_date submitted_date doc));;
     sales_order_items ← get_all_SalesOrderItem docname;
     for_each sales_order_items (submit_row submitted_date);;
     mret "Submitted to Office Success")
    (fun _ => throw request_failed_message).

(** *** Replacement log *)

(** [get_replaced_items]: old item, new item, time and reason of every
    replacement logged under the master order. *)
Definition get_replaced_items (master_order_id : string)
    : M (option (list (string * string * string * string))) :=
  try_except
    (db ← get_db;
     mret (Some
       (List.map
          (fun r => (RentalOrderReplacedItem.old_item r,
                     RentalOrderReplacedItem.new_item r,
                     RentalOrderReplacedItem.replaced_datetime r,
                     RentalOrderReplacedItem.reason r))
          (List.filter
             (fun r => String.eqb (RentalOrderReplacedItem.master_order_id r)
                                  master_order_id)
             (tabRentalOrderReplacedItem db)))))
    (fun _ => mret None).

(** *** Security deposit alone *)

Section Deposit.

Variable ext : Collaborators.

Definition security_deposit_status (docname : string) : M bool :=
  try_except
    (sales_order ← get_doc_SalesOrder docname;
     db ← get_db;
     let journal_entries := deposit_entries docname db in
     let total_debit_amount := total_debit_sum journal_entries in
     security_deposit ← py_float ext (SalesOrder.security_deposit sales_order);
     let security_deposit := to_float security_deposit in
     let outstanding_security_deposit_amount :=
       fsub security_deposit total_debit_amount in
     save_SalesOrder docname
       (SalesOrder.set_security_deposit_status
          (security_deposit_status_of outstanding_security_deposit_amount
             security_deposit)
          (SalesOrder.set_outstanding_security_deposit_amount
             outstanding_security_deposit_amount
             (SalesOrder.set_paid_security_deposite_amount total_debit_amount
                sales_order)));;
     mret true)
    (fun e =>
       throw ("Failed to update payment status. Error: " ++ exn_str ext e)).

(** [return_security_deposit]: the amount is the debit that the Journal
    Entry totals.  [insert()] writes the entry, [submit()] comes after it;
    a failure of either is logged and answered with [False], so that an
    entry whose submission failed stays as it was inserted. *)
Definition return_security_deposit (amount_to_return : Q)
    (journal_entry_account master_order_id sales_order_id customer : string)
    : M bool :=
  try_except
    (let journal_entry :=
       JournalEntry.mk sales_order_id master_order_id "Security Deposit"
         "Return to Client" "Debtors - INR" customer amount_to_return in
     call (journal_entry_insert ext journal_entry);;
     modify_db (fun db =>
       set_tabJournalEntry (tabJournalEntry db ++ [journal_entry]) db);;
     call (journal_entry_submit ext journal_entry);;
     mret true)
    (fun _ => mret false).

End Deposit.

(** ** Further notions used in the statements *)

(** A row transformation applied to the rows that carry one of the given
    names, and to the rows of one order. *)
Definition update_named (f : SalesOrderItem.t -> SalesOrderItem.t)
    (names : list string) (rows : list SalesOrderItem.t)
    : list SalesOrderItem.t :=
  List.map (fun r =>
    if existsb (String.eqb (SalesOrderItem.name r)) names then f r else r)
    rows.

Definition update_rows_of (f : SalesOrderItem.t -> SalesOrderItem.t)
    (docname : string) (rows : list SalesOrderItem.t)
    : list SalesOrderItem.t :=
  List.map (fun r =>
    if String.eqb (SalesOrderItem.parent r) docname then f r else r) rows.

(** The rows of the child table have distinct names (the primary key). *)
Definition names_unique (db : DB) : Prop :=
  List.NoDup (List.map SalesOrderItem.name (tabSalesOrderItem db)).

(** What [update_sales_order_status] leaves for a renewal of [prev]. *)
Definition renewed_db (prev : string) (db : DB) : DB :=
  set_tabSalesOrderItem
    (update_rows_of (SalesOrderItem.set_child_status "Renewed") prev
       (tabSalesOrderItem db))
    (set_tabSalesOrder
       (alter (SalesOrder.set_status "RENEWED") prev (tabSalesOrder db)) db).

(** The January order with two devices, both with the customer. *)
Definition january_db : DB :=
  set_tabItem
    {[ "DEV-1" := device "Rented Out"; "DEV-2" := device "Rented Out" ]}
    (set_tabSalesOrder {[ "SO-0001" := january_order ]}
       (set_tabSalesOrderItem
          [line "J1" "SO-0001" "DEV-1" "Active";
           line "J2" "SO-0001" "DEV-2" "Active"] empty_db)).

(** An order one of whose devices is not in the Item table. *)
Definition orphan_db : DB :=
  set_tabItem {[ "DEV-1" := device "Rented Out" ]}
    (set_tabSalesOrder {[ "SO-0011" := order "Active" "" NoDate NoDate ]}
       (set_tabSalesOrderItem
          [line "L16" "SO-0011" "DEV-1" "Active";
           line "L17" "SO-0011" "DEV-X" "Active"] empty_db)).

(** No collaborator of [on_cancel] raises, whatever the document. *)
Definition cancel_hooks_quiet (ext : Collaborators) : Prop :=
  forall self, cancel_hooks_pass ext self.

(** One transformation applied to the Items of the given codes. *)
Definition alter_all (g : Item.t -> Item.t) (codes : list string)
    (items : gmap string Item.t) : gmap string Item.t :=
  fold_left (fun m code => alter g code m) codes items.

(** What a successful [make_submitted_to_office] leaves. *)
Definition submitted_db (item_codes : list string)
    (docname submitted_date : string) (doc : SalesOrder.t) (db : DB) : DB :=
  set_tabSalesOrderItem
    (update_rows_of
       (fun d => SalesOrderItem.set_submitted_date submitted_date
                   (SalesOrderItem.set_child_status "Submitted to Office" d))
       docname (tabSalesOrderItem db))
    (set_tabSalesOrder
       (<[docname := SalesOrder.set_status "Submitted to Office"
                       (SalesOrder.set_submitted_date submitted_date doc)]>
          (tabSalesOrder db))
       (set_tabItem
          (alter_all (Item.set_status "Available") item_codes (tabItem db))
          db)).

(** [ast.literal_eval] on the two texts of the examples. *)
Definition two_codes (text : string) : option (list string) :=
  if String.eqb text "['DEV-6']" then Some ["DEV-6"]
  else if String.eqb text "['DEV-6', 'DEV-X']" then Some ["DEV-6"; "DEV-X"]
  else None.

(** The Material Request Items that count for a line of an order: the
    submitted ones. *)
Definition requested_rows (sales_order sales_order_item : string) (db : DB)
    : list MaterialRequestItem.t :=
  List.filter
    (fun d => Z.eqb (MaterialRequestItem.docstatus d) 1
              && String.eqb (MaterialRequestItem.sales_order d) sales_order
              && String.eqb (MaterialRequestItem.sales_order_item d)
                   sales_order_item)
    (tabMaterialRequestItem db).

(** An order of which 3 units of a line of 5 were requested and
    submitted, 4 more are on a draft request; its bundle has one packed
    item of which more was delivered than ordered. *)
Definition requested_db : DB :=
  mkDB ∅ {[ "SO-0012" := order "To Deliver and Bill" "" NoDate NoDate ]}
    [SalesOrderItem.mk "L18" "SO-0012" "ITEM-A" 5 100 100 0 0 1 0 0 ""
       "" "" "" "";
     SalesOrderItem.mk "L19" "SO-0012" "KIT-1" 2 100 100 0 0 1 0 0 ""
       "" "" "" ""]
    [PackedItem.mk "P2" "SO-0012" "L19" "PART-1" 4 0 1 6]
    {[ "KIT-1" := 0%Z ]}
    [MaterialRequestItem.mk 1 "SO-0012" "L18" 3 0;
     MaterialRequestItem.mk 0 "SO-0012" "L18" 4 0] [] [] [].

(** The Pick List row of a packed item: the component's quantity scaled
    by the pending share of its bundle line, as quantity and as stock
    quantity; without such a line the copied quantity and no stock
    quantity. *)
Definition packed_row (items : list SalesOrderItem.t) (p : PackedItem.t)
    (row : PickListItem.t) : Prop :=
  PickListItem.item_code row = PackedItem.item_code p
  /\ PickListItem.sales_order_item row = PackedItem.name p
  /\ PickListItem.product_bundle_item row = PackedItem.parent_detail_docname p
  /\ match find_row (PackedItem.parent_detail_docname p) items with
     | Some item =>
         PickListItem.qty row
         = (PackedItem.qty p
            * (qty_to_be_picked item / SalesOrderItem.qty item))%Q
         /\ PickListItem.stock_qty row = PickListItem.qty row
     | None =>
         PickListItem.qty row = PackedItem.qty p
         /\ PickListItem.stock_qty row = 0%Q
     end.

(** A submitted order whose bundle line has quantity 0. *)
Definition zero_bundle_db : DB :=
  mkDB ∅ {[ "SO-0013" := order "To Deliver and Bill" "" NoDate NoDate ]}
    [SalesOrderItem.mk "L20" "SO-0013" "KIT-1" 0 100 100 0 0 1 0 0 ""
       "" "" "" "";
     SalesOrderItem.mk "L21" "SO-0013" "ITEM-A" 5 100 100 0 0 1 0 0 ""
       "" "" "" ""]
    [PackedItem.mk "P3" "SO-0013" "L20" "PART-1" 4 0 1 0]
    {[ "KIT-1" := 0%Z ]} [] [] [] [].

(** The Delivery Note row of a reservation entry: the row of its line
    with the reserved quantity, in stock units, as quantity. *)
Definition reserved_row (line : SalesOrderItem.t)
    (sre : StockReservationEntry.t) : DeliveryNoteItem.t :=
  DeliveryNoteItem.set_qty
    (StockReservationEntry.reserved_qty sre
     * SalesOrderItem.conversion_factor line)%Q
    (dn_update_item line).

Definition reserved_rows (so_items : list SalesOrderItem.t)
    (sre_list : list StockReservationEntry.t) : list DeliveryNoteItem.t :=
  flat_map
    (fun sre =>
       match find_row (StockReservationEntry.voucher_detail_no sre) so_items
       with
       | Some line =>
           if undeliveredb line then [reserved_row line sre] else []
       | None => []
       end)
    sre_list.

(** The lines that [make_delivery_note] looks reservation entries up in. *)
Definition lines_with_reserved_stock (db : DB) (source_name : string)
    : list SalesOrderItem.t :=
  List.filter
    (fun d => negb (Qeq_bool (SalesOrderItem.stock_reserved_qty d) 0))
    (items_of db source_name).

(** Collaborators for which the given lines are reserved by the given
    entries. *)
Definition reserving (names : gset string)
    (entries : list StockReservationEntry.t) : Collaborators := {|
  strptime := strptime quiet;
  float_str := float_str quiet;
  exn_str := exn_str quiet;
  super_on_cancel := super_on_cancel quiet;
  update_reserved_qty := update_reserved_qty quiet;
  update_project := update_project quiet;
  update_prevdoc_status := update_prevdoc_status quiet;
  update_blanket_order := update_blanket_order quiet;
  cancel_stock_reservation_entries := cancel_stock_reservation_entries quiet;
  unlink_inter_company_doc := unlink_inter_company_doc quiet;
  update_coupon_code_count := update_coupon_code_count quiet;
  journal_entry_insert_submit := journal_entry_insert_submit quiet;
  payment_entry_insert_submit := payment_entry_insert_submit quiet;
  journal_entry_insert := journal_entry_insert quiet;
  journal_entry_submit := journal_entry_submit quiet;
  get_sre_reserved_qty_details_for_voucher := fun _ _ => names;
  get_sre_details_for_voucher := fun _ _ => entries;
  dn_set_missing_values := dn_set_missing_values quiet;
  set_item_locations := set_item_locations quiet
|}.

(** The reservation of the second line of [reserved_db]. *)
Definition reserved_L12 : Collaborators :=
  reserving {[ "L12" ]} [StockReservationEntry.mk "L12" 2].

(** A reservation entry for a line that carries no reserved quantity. *)
Definition reserved_L11 : Collaborators :=
  reserving {[ "L11" ]} [StockReservationEntry.mk "L11" 1].

(** What approving all the lines [pre] does: their rows "Approved", their
    Items "Reserved", the header "Approved" when there is a line. *)
Definition approved_db (docname : string) (pre : list SalesOrderItem.t)
    (w : DB) : DB :=
  set_tabSalesOrder
    (match pre with
     | [] => tabSalesOrder w
     | _ => alter (SalesOrder.set_status "Approved") docname (tabSalesOrder w)
     end)
    (set_tabSalesOrderItem
       (update_named (SalesOrderItem.set_child_status "Approved")
          (List.map SalesOrderItem.name pre) (tabSalesOrderItem w))
       (set_tabItem
          (alter_all (Item.set_status "Reserved")
             (List.map SalesOrderItem.item_code pre) (tabItem w))
          w)).

(** A pending order of two devices, both available. *)
Definition pending_db : DB :=
  set_tabItem
    {[ "DEV-6" := device "Available"; "DEV-7" := device "Available" ]}
    (set_tabSalesOrder {[ "SO-0014" := order "Pending" "" NoDate NoDate ]}
       (set_tabSalesOrderItem
          [line "L22" "SO-0014" "DEV-6" "Pending";
           line "L23" "SO-0014" "DEV-7" "Pending"] empty_db)).

(** *** Line status set without a vote

    [update_status_to_active] and [update_status_back_to_ready_for_pickup];
    both also clear [pickup_date], a field outside the records here. *)

Definition update_status_to_active (item_code docname child_name : string)
    : M bool :=
  sales_order_items ← get_all_SalesOrderItem docname;
  match sales_order_items with
  | [] => mret false
  | first :: _ =>
      if Nat.eqb (length sales_order_items) 1 then
        sales_order_item_doc ←
          get_doc_SalesOrderItem (SalesOrderItem.name first);
        save_SalesOrderItem
          (SalesOrderItem.set_child_status "Active" sales_order_item_doc);;
        sales_order_doc ←
          get_doc_SalesOrder (SalesOrderItem.parent sales_order_item_doc);
        save_SalesOrder (SalesOrderItem.parent sales_order_item_doc)
          (SalesOrder.set_status "Active" sales_order_doc);;
        mret true
      else
        sales_order_item_doc ← get_doc_SalesOrderItem child_name;
        save_SalesOrderItem
          (SalesOrderItem.set_child_status "Active" sales_order_item_doc);;
        mret true
  end.

Definition update_status_back_to_ready_for_pickup
    (item_code docname child_name : string) : M bool :=
  sales_order_items ← get_all_SalesOrderItem docname;
  match sales_order_items with
  | [] => mret false
  | first :: _ =>
      if Nat.eqb (length sales_order_items) 1 then
        sales_order_item_doc ←
          get_doc_SalesOrderItem (SalesOrderItem.name first);
        save_SalesOrderItem
          (SalesOrderItem.set_child_status "Ready for Pickup"
             sales_order_item_doc);;
        sales_order_doc ←
          get_doc_SalesOrder (SalesOrderItem.parent sales_order_item_doc);
        save_SalesOrder (SalesOrderItem.parent sales_order_item_doc)
          (SalesOrder.set_status "Ready for Pickup" sales_order_doc);;
        mret true
      else
        sales_order_item_doc ← get_doc_SalesOrderItem child_name;
        save_SalesOrderItem
          (SalesOrderItem.set_child_status "Ready for Pickup"
             sales_order_item_doc);;
        mret true
  end.

(** What such a handler does with the status [s]: without lines it
    answers [False]; on an order of one line it sets that line and the
    header; on an order of several lines it sets the row named
    [child_name], whichever order that row belongs to, and leaves the
    header alone; when no row has that name it raises.  The Items are
    never touched. *)
Definition sets_line_status
    (handler : string -> string -> string -> M bool) (s : string) : Prop :=
  forall (item_code docname child_name : string) (db : DB),
    names_unique db ->
    (rows_of docname (tabSalesOrderItem db) = [] ->
     request (handler item_code docname child_name) db = (Ok false, db))
    /\ (forall r so,
          rows_of docname (tabSalesOrderItem db) = [r] ->
          tabSalesOrder db !! docname = Some so ->
          request (handler item_code docname child_name) db
          = (Ok true,
             set_tabSalesOrder
               (<[docname := SalesOrder.set_status s so]> (tabSalesOrder db))
               (set_tabSalesOrderItem
                  (replace_row (SalesOrderItem.set_child_status s r)
                     (tabSalesOrderItem db)) db)))
    /\ (forall r,
          (2 <= length (rows_of docname (tabSalesOrderItem db)))%nat ->
          find_row child_name (tabSalesOrderItem db) = Some r ->
          request (handler item_code docname child_name) db
          = (Ok true,
             set_tabSalesOrderItem
               (replace_row (SalesOrderItem.set_child_status s r)
                  (tabSalesOrderItem db)) db))
    /\ ((2 <= length (rows_of docname (tabSalesOrderItem db)))%nat ->
        find_row child_name (tabSalesOrderItem db) = None ->
        request (handler item_code docname child_name) db
        = (Raise (DoesNotExistError "Sales Order Item" child_name), db)).

(** An order with a deposit of 0.3 received as 0.1 and 0.2, and one with
    a deposit of 10^16 of which 0.5 came in. *)
Definition deposit_order (security_deposit : Q) : SalesOrder.t :=
  SalesOrder.mk 1 "Active" "" NoDate NoDate fzero fzero fzero ""
    (PNum security_deposit) fzero fzero "" "".

Definition received (docname : string) (amount : Q) : JournalEntry.t :=
  JournalEntry.mk docname docname "Security Deposit"
    "Cash Received From Client" "Cash - INR" "CUST-1" amount.

Definition tenths_db : DB :=
  set_tabJournalEntry
    [received "SO-0015" (1 # 10); received "SO-0015" (2 # 10)]
    (set_tabSalesOrder {[ "SO-0015" := deposit_order (3 # 10) ]} empty_db).

Definition large_deposit_db : DB :=
  set_tabJournalEntry [received "SO-0016" (1 # 2)]
    (set_tabSalesOrder
       {[ "SO-0016" := deposit_order (10000000000000000 # 1) ]} empty_db).

(** A ledger that takes a Journal Entry in and refuses to submit it. *)
Definition submit_refused : Collaborators := {|
  strptime := strptime quiet;
  float_str := float_str quiet;
  exn_str := exn_str quiet;
  super_on_cancel := super_on_cancel quiet;
  update_reserved_qty := update_reserved_qty quiet;
  update_project := update_project quiet;
  update_prevdoc_status := update_prevdoc_status quiet;
  update_blanket_order := update_blanket_order quiet;
  cancel_stock_reservation_entries := cancel_stock_reservation_entries quiet;
  unlink_inter_company_doc := unlink_inter_company_doc quiet;
  update_coupon_code_count := update_coupon_code_count quiet;
  journal_entry_insert_submit := journal_entry_insert_submit quiet;
  payment_entry_insert_submit := payment_entry_insert_submit quiet;
  journal_entry_insert := journal_entry_insert quiet;
  journal_entry_submit := fun _ _ => Raise (ValidationError "Not permitted");
  get_sre_reserved_qty_details_for_voucher :=
    get_sre_reserved_qty_details_for_voucher quiet;
  get_sre_details_for_voucher := get_sre_details_for_voucher quiet;
  dn_set_missing_values := dn_set_missing_values quiet;
  set_item_locations := set_item_locations quiet
|}.

(** * Properties *)

(** ** Running handlers *)

Lemma bind_run {A B : Type} (m : M A) (f : A -> M B) (t : txn) :
  (m ≫= f) t
  = match m t with
    | (Ok a, t') => f a t'
    | (Raise e, t') => (Raise e, t')
    end.
Proof. reflexivity. Qed.

Lemma Qltb_lt (x y : Q) : Qltb x y = true <-> (x < y)%Q.
Proof.
  unfold Qltb. rewrite negb_true_iff.
  split; intros H.
  - apply Qnot_le_lt. intros Hle. apply Qle_bool_iff in Hle. congruence.
  - destruct (Qle_bool y x) eqn:E; [|reflexivity].
    apply Qle_bool_iff in E. exfalso. exact (Qlt_not_le _ _ H E).
Qed.

Lemma Qltb_ge (x y : Q) : Qltb x y = false <-> (y <= x)%Q.
Proof.
  unfold Qltb. rewrite negb_false_iff. apply Qle_bool_iff.
Qed.

(** ** Dates *)

Lemma date_le_spec (a b : date) :
  date_le a b <->
  (year a < year b
   \/ (year a = year b
       /\ (month a < month b \/ (month a = month b /\ day a <= day b))))%Z.
Proof.
  unfold date_le, date_leb.
  rewrite orb_true_iff, andb_true_iff, orb_true_iff, andb_true_iff.
  rewrite !Z.ltb_lt, !Z.eqb_eq, Z.leb_le. tauto.
Qed.

Lemma date_le_refl (a : date) : date_le a a.
Proof. apply date_le_spec. lia. Qed.

Lemma date_le_trans (a b c : date) : date_le a b -> date_le b c -> date_le a c.
Proof. rewrite !date_le_spec. lia. Qed.

Lemma date_le_total (a b : date) : date_le a b \/ date_le b a.
Proof. rewrite !date_le_spec. lia. Qed.

(** Two well-formed closed intervals of dates share a day exactly when
    each starts no later than the other ends. *)
Lemma intervals_overlap_iff (s e ps pe : date) :
  date_le s e -> date_le ps pe ->
  intervals_overlap s e ps pe <-> date_le s pe /\ date_le ps e.
Proof.
  intros Hse Hpse. split.
  - intros (d & H1 & H2 & H3 & H4). split; eapply date_le_trans; eauto.
  - intros [H1 H2]. destruct (date_le_total s ps) as [H|H].
    + exists ps. repeat split; auto using date_le_refl.
    + exists s. repeat split; auto using date_le_refl.
Qed.

(** ** Renewal: the overlap guard *)

Section Overlap.

Variable ext : Collaborators.

Lemma check_overlap_dates (self prev : SalesOrder.t) (t : txn)
    (s e : string) (sd ed ps pe : date) :
  tabSalesOrder (working t) !! SalesOrder.previous_order_id self = Some prev ->
  SalesOrder.start_date self = DateStr s ->
  SalesOrder.end_date self = DateStr e ->
  truthy_str s = true -> truthy_str e = true ->
  strptime ext s = Some sd -> strptime ext e = Some ed ->
  SalesOrder.start_date prev = DateObj ps ->
  SalesOrder.end_date prev = DateObj pe ->
  check_overlap ext self t = (Ok (date_leb sd pe && date_leb ps ed), t).
Proof.
  intros Hprev Hs He Hts Hte Hsd Hed Hps Hpe.
  unfold check_overlap, get_doc_SalesOrder. mstep.
  rewrite Hprev, Hs, He. simpl. rewrite Hts, Hte. simpl.
  rewrite Hsd, Hed, Hpe, Hps. simpl.
  unfold date_geb. destruct (date_leb sd pe); reflexivity.
Qed.

(** C1 (amended).  For a renewal order whose dates are set and whose
    predecessor has its dates, both intervals well formed: [before_submit]
    fails with the date-overlap error exactly when the two intervals share
    a day, and passes, leaving the state alone, when they do not. *)
Theorem before_submit_rejects_overlap (self prev : SalesOrder.t) (t : txn)
    (s e : string) (sd ed ps pe : date) :
  truthy_str (SalesOrder.previous_order_id self) = true ->
  tabSalesOrder (working t) !! SalesOrder.previous_order_id self = Some prev ->
  SalesOrder.start_date self = DateStr s ->
  SalesOrder.end_date self = DateStr e ->
  truthy_str s = true -> truthy_str e = true ->
  strptime ext s = Some sd -> strptime ext e = Some ed ->
  SalesOrder.start_date prev = DateObj ps ->
  SalesOrder.end_date prev = DateObj pe ->
  date_le sd ed -> date_le ps pe ->
  (intervals_overlap sd ed ps pe ->
   before_submit ext self t = (Raise (ValidationError overlap_message), t))
  /\ (~ intervals_overlap sd ed ps pe ->
      before_submit ext self t = (Ok tt, t)).
Proof.
  intros Hid Hprev Hs He Hts Hte Hsd Hed Hps Hpe Hwf Hpwf.
  pose proof (check_overlap_dates self prev t s e sd ed ps pe
                Hprev Hs He Hts Hte Hsd Hed Hps Hpe) as Hco.
  rewrite (intervals_overlap_iff _ _ _ _ Hwf Hpwf).
  unfold before_submit. rewrite Hid. mstep. rewrite Hco.
  unfold date_le.
  destruct (date_leb sd pe), (date_leb ps ed); simpl; split; intros H;
    try reflexivity; try (destruct H; discriminate);
    exfalso; apply H; auto.
Qed.

End Overlap.

Lemma before_submit_rejects_overlap_witness :
  (intervals_overlap (mkdate 2024 1 15) (mkdate 2024 2 15)
     (mkdate 2024 1 1) (mkdate 2024 1 31) ->
   before_submit quiet midjanuary_renewal (mktxn renewal_db renewal_db)
   = (Raise (ValidationError overlap_message), mktxn renewal_db renewal_db))
  /\ (~ intervals_overlap (mkdate 2024 1 15) (mkdate 2024 2 15)
          (mkdate 2024 1 1) (mkdate 2024 1 31) ->
      before_submit quiet midjanuary_renewal (mktxn renewal_db renewal_db)
      = (Ok tt, mktxn renewal_db renewal_db)).
Proof.
  apply (before_submit_rejects_overlap quiet midjanuary_renewal january_order
           (mktxn renewal_db renewal_db) "2024-01-15" "2024-02-15");
    reflexivity.
Defined.

(** C1 as stated fails: a renewal for March, which shares no day with its
    predecessor's January, is not stopped by [before_submit]. *)
Lemma before_submit_passes_disjoint :
  ~ intervals_overlap (mkdate 2024 3 1) (mkdate 2024 3 31)
      (mkdate 2024 1 1) (mkdate 2024 1 31)
  /\ request (before_submit quiet march_renewal) renewal_db
     = (Ok tt, renewal_db).
Proof.
  split.
  - rewrite intervals_overlap_iff by reflexivity.
    intros [H _]. discriminate H.
  - reflexivity.
Qed.

(** ** Rows of the child table *)

Lemma find_row_name (n : string) (rows : list SalesOrderItem.t)
    (r : SalesOrderItem.t) :
  find_row n rows = Some r -> SalesOrderItem.name r = n.
Proof.
  unfold find_row. intros H. apply find_some in H as [_ H].
  now apply String.eqb_eq.
Qed.

Lemma find_row_is_Some (n : string) (rows : list SalesOrderItem.t) :
  In n (List.map SalesOrderItem.name rows) -> is_Some (find_row n rows).
Proof.
  unfold find_row. induction rows as [|r rows IH]; simpl; [tauto|].
  intros [H|H].
  - rewrite H, String.eqb_refl. eauto.
  - destruct (String.eqb _ _); eauto.
Qed.

Lemma replace_row_names (d : SalesOrderItem.t) (rows : list SalesOrderItem.t) :
  List.map SalesOrderItem.name (replace_row d rows)
  = List.map SalesOrderItem.name rows.
Proof.
  unfold replace_row. rewrite List.map_map. apply List.map_ext.
  intros r. destruct (String.eqb _ _) eqn:E; [|reflexivity].
  symmetry. now apply String.eqb_eq.
Qed.

Lemma rows_of_In (docname : string) (rows : list SalesOrderItem.t)
    (r : SalesOrderItem.t) :
  In r (rows_of docname rows) -> In r rows.
Proof. unfold rows_of. intros H. now apply filter_In in H. Qed.

Lemma set_status_same (so : SalesOrder.t) :
  SalesOrder.set_status (SalesOrder.status so) so = so.
Proof. now destruct so. Qed.

Lemma Forall2_map_l {A B C : Type} (R : B -> C -> Prop) (f : A -> B)
    (l : list A) (k : list C) :
  Forall2 R (List.map f l) k <-> Forall2 (fun a c => R (f a) c) l k.
Proof.
  revert k. induction l as [|a l IH]; intros k; simpl.
  - split; intros H; inversion H; constructor.
  - split; intros H; inversion H; subst; constructor; auto; now apply IH.
Qed.

Lemma Forall2_same {A : Type} (R : A -> A -> Prop) (l : list A) :
  (forall a, R a a) -> Forall2 R l l.
Proof. intros H. induction l; constructor; auto. Qed.

(** ** Approval *)

Lemma approval_effect_nil (docname : string) (w : DB) :
  approval_effect docname [] w w.
Proof.
  unfold approval_effect. simpl. repeat split; try tauto.
  - apply Forall2_same. intros r. unfold approved_row. simpl. tauto.
  - now destruct w.
Qed.

Lemma approval_effect_cons (docname : string) (p : SalesOrderItem.t)
    (pre : list SalesOrderItem.t) (w w' : DB) (it : Item.t)
    (r : SalesOrderItem.t) (so : SalesOrder.t) :
  tabItem w !! SalesOrderItem.item_code p = Some it ->
  find_row (SalesOrderItem.name p) (tabSalesOrderItem w) = Some r ->
  tabSalesOrder w !! docname = Some so ->
  ~ In (SalesOrderItem.item_code p) (List.map SalesOrderItem.item_code pre) ->
  approval_effect docname pre
    (set_tabSalesOrder
       (<[docname := SalesOrder.set_status "Approved" so]> (tabSalesOrder w))
       (set_tabSalesOrderItem
          (replace_row (SalesOrderItem.set_child_status "Approved" r)
             (tabSalesOrderItem w))
          (set_tabItem
             (<[SalesOrderItem.item_code p := Item.set_status "Reserved" it]>
                (tabItem w)) w))) w' ->
  approval_effect docname (p :: pre) w w'.
Proof.
  intros Hit Hr Hso Hfresh (Hrows & Hin & Hout & Hord & Hrest).
  simpl in Hrows, Hin, Hout, Hord.
  apply find_row_name in Hr.
  unfold approval_effect. repeat split.
  - unfold replace_row in Hrows. rewrite Forall2_map_l in Hrows.
    eapply Forall2_impl; [exact Hrows|].
    intros r0 r'. simpl. unfold approved_row. simpl.
    destruct (String.eqb (SalesOrderItem.name r0) (SalesOrderItem.name r)) eqn:E.
    + apply String.eqb_eq in E. intros (Hn & Ha & Hu).
      simpl in Hn, Ha, Hu. rewrite Hn. split; [congruence|]. split.
      * intros _.
        destruct (in_dec String.string_dec (SalesOrderItem.name r)
                    (List.map SalesOrderItem.name pre)) as [Hi|Hi].
        -- auto.
        -- rewrite (Hu Hi). reflexivity.
      * intros Hno. exfalso. apply Hno. left. congruence.
    + apply String.eqb_neq in E. intros (Hn & Ha & Hu).
      split; [exact Hn|]. split.
      * intros [Heq|Hi]; [congruence|auto].
      * intros Hno. apply Hu. tauto.
  - intros code [Heq|Hi].
    + subst code. rewrite (Hout _ Hfresh). simpl.
      rewrite lookup_insert_eq, Hit. reflexivity.
    + rewrite (Hin _ Hi). simpl. rewrite lookup_insert_ne; [reflexivity|].
      intros Heq. apply Hfresh. now rewrite Heq.
  - intros code Hno. simpl in Hno.
    destruct (in_dec String.string_dec code (List.map SalesOrderItem.item_code pre))
      as [Hi|Hi]; [tauto|].
    rewrite (Hout _ Hi). simpl. rewrite lookup_insert_ne; [reflexivity|].
    tauto.
  - rewrite Hord. apply map_eq. intros k.
    destruct pre; simpl.
    + destruct (decide (docname = k)) as [<-|Hne].
      * rewrite lookup_insert_eq, lookup_alter_eq, Hso. reflexivity.
      * rewrite lookup_insert_ne, lookup_alter_ne by done. reflexivity.
    + destruct (decide (docname = k)) as [<-|Hne].
      * rewrite !lookup_alter_eq, lookup_insert_eq, Hso. reflexivity.
      * rewrite !lookup_alter_ne, lookup_insert_ne by done. reflexivity.
  - rewrite Hrest at 1. reflexivity.
Qed.

Lemma make_approved_loop_break (docname : string) (l : SalesOrderItem.t)
    (post : list SalesOrderItem.t) (t : txn) (it : Item.t) :
  tabItem (working t) !! SalesOrderItem.item_code l = Some it ->
  Item.status it <> "Available" ->
  make_approved_loop docname (l :: post) t = (Ok tt, t).
Proof.
  intros Hit Hst. simpl. unfold get_doc_Item. mstep. rewrite Hit. simpl.
  apply String.eqb_neq in Hst. rewrite Hst. reflexivity.
Qed.

Lemma make_approved_loop_stops (docname : string) (l : SalesOrderItem.t)
    (post pre : list SalesOrderItem.t) :
  forall (dur w : DB),
    (forall p, In p pre ->
       In (SalesOrderItem.name p)
          (List.map SalesOrderItem.name (tabSalesOrderItem w))) ->
    (forall p, In p pre ->
       exists it, tabItem w !! SalesOrderItem.item_code p = Some it
                  /\ Item.status it = "Available") ->
    List.NoDup (List.map SalesOrderItem.item_code pre) ->
    ((exists it, tabItem w !! SalesOrderItem.item_code l = Some it
                 /\ Item.status it <> "Available")
     \/ In (SalesOrderItem.item_code l)
           (List.map SalesOrderItem.item_code pre)) ->
    (pre <> [] -> is_Some (tabSalesOrder w !! docname)) ->
    exists w',
      make_approved_loop docname (pre ++ l :: post) (mktxn dur w)
      = (Ok tt, mktxn dur w')
      /\ approval_effect docname pre w w'.
Proof.
  induction pre as [|p pre IH]; intros dur w Hrows Havail Hnd Hstop Hord.
  - destruct Hstop as [(it & Hit & Hst)|[]].
    exists w. split; [|apply approval_effect_nil].
    now apply (make_approved_loop_break docname l post (mktxn dur w) it).
  - destruct (Havail p (or_introl eq_refl)) as (it & Hit & Hst).
    destruct (find_row_is_Some _ _ (Hrows p (or_introl eq_refl))) as [r Hr].
    destruct Hord as [so Hso]; [discriminate|].
    apply List.NoDup_cons_iff in Hnd as [Hfresh Hnd].
    set (w1 :=
      set_tabSalesOrder
        (<[docname := SalesOrder.set_status "Approved" so]> (tabSalesOrder w))
        (set_tabSalesOrderItem
           (replace_row (SalesOrderItem.set_child_status "Approved" r)
              (tabSalesOrderItem w))
           (set_tabItem
              (<[SalesOrderItem.item_code p := Item.set_status "Reserved" it]>
                 (tabItem w)) w))).
    destruct (IH dur w1) as (w' & Hrun & Heff).
    + intros q Hq. simpl. rewrite replace_row_names. apply Hrows. now right.
    + intros q Hq. simpl.
      destruct (Havail q (or_intror Hq)) as (it' & Hit' & Hst').
      exists it'. split; [|exact Hst'].
      rewrite lookup_insert_ne; [exact Hit'|].
      intros Heq. apply Hfresh. rewrite Heq. now apply in_map.
    + exact Hnd.
    + simpl.
      destruct (String.string_dec (SalesOrderItem.item_code p)
                  (SalesOrderItem.item_code l)) as [Heq|Hne].
      * left. exists (Item.set_status "Reserved" it). rewrite Heq.
        rewrite lookup_insert_eq. split; [reflexivity|]. simpl. discriminate.
      * destruct Hstop as [(it' & Hit' & Hst')|[Heq|Hin]].
        -- left. exists it'. rewrite lookup_insert_ne by done. now split.
        -- congruence.
        -- now right.
    + intros _. simpl. rewrite lookup_insert_eq. eauto.
    + exists w'. split.
      * rewrite <- Hrun. simpl.
        unfold get_doc_Item, get_doc_SalesOrderItem, get_doc_SalesOrder,
          save_Item, save_SalesOrderItem, save_SalesOrder.
        mstep. rewrite Hit. simpl.
        rewrite Hst. simpl. rewrite Hr. simpl. rewrite Hso. simpl.
        reflexivity.
      * now apply (approval_effect_cons docname p pre w w' it r so).
Qed.

Lemma approval_effect_nil_eq (docname : string) (w w' : DB) :
  approval_effect docname [] w w' -> w' = w.
Proof.
  intros (Hrows & _ & Hout & Hord & Hrest). simpl in *.
  assert (Hr : tabSalesOrderItem w' = tabSalesOrderItem w).
  { clear -Hrows. revert Hrows.
    generalize (tabSalesOrderItem w) (tabSalesOrderItem w').
    induction 1 as [|r r' rows rows' (_ & _ & Hu) _ IH]; [reflexivity|].
    rewrite IH, Hu; [reflexivity|]. simpl. tauto. }
  assert (Hi : tabItem w' = tabItem w).
  { apply map_eq. intros code. apply Hout. tauto. }
  rewrite Hrest, Hr, Hi, Hord. now destruct w.
Qed.

(** C10.  [make_approved] walks the lines of the order in the order of
    the query and stops at the first line [l] whose Item is not
    "Available" when its turn comes (it never was, or an earlier line
    holding the same Item has just reserved it).  The call still returns
    "Approved Success"; what the lines [pre] before [l] changed stays:
    their Items are "Reserved", their rows "Approved", the header
    "Approved".  Rows and Items outside [pre], so [l] and what follows it,
    are as they were, and with nothing before [l] the database is
    unchanged. *)
Theorem make_approved_stops_at_unavailable (docname : string) (db : DB)
    (pre post : list SalesOrderItem.t) (l : SalesOrderItem.t) :
  rows_of docname (tabSalesOrderItem db) = (pre ++ l :: post)%list ->
  (forall p, In p pre ->
     exists it, tabItem db !! SalesOrderItem.item_code p = Some it
                /\ Item.status it = "Available") ->
  List.NoDup (List.map SalesOrderItem.item_code pre) ->
  ((exists it, tabItem db !! SalesOrderItem.item_code l = Some it
               /\ Item.status it <> "Available")
   \/ In (SalesOrderItem.item_code l)
         (List.map SalesOrderItem.item_code pre)) ->
  (pre <> [] -> is_Some (tabSalesOrder db !! docname)) ->
  exists db',
    request (make_approved docname) db = (Ok "Approved Success", db')
    /\ approval_effect docname pre db db'
    /\ (forall p, In p pre ->
          Item.status <$> tabItem db' !! SalesOrderItem.item_code p
          = Some "Reserved")
    /\ (pre <> [] ->
        SalesOrder.status <$> tabSalesOrder db' !! docname = Some "Approved")
    /\ (pre = [] -> db' = db).
Proof.
  intros Hrows Havail Hnd Hstop Hord.
  destruct (make_approved_loop_stops docname l post pre db db)
    as (w' & Hrun & Heff); auto.
  { intros p Hp. apply in_map. apply (rows_of_In docname).
    rewrite Hrows. apply in_or_app. now left. }
  exists w'. split; [|split; [exact Heff|split; [|split]]].
  - unfold request, make_approved, get_all_SalesOrderItem. mstep.
    rewrite Hrows, Hrun. reflexivity.
  - intros p Hp. destruct Heff as (_ & Hin & _).
    rewrite (Hin _ (in_map _ _ _ Hp)).
    destruct (Havail p Hp) as (it & -> & _). reflexivity.
  - intros Hne. destruct Heff as (_ & _ & _ & Ho & _).
    rewrite Ho. destruct pre; [congruence|].
    destruct (Hord Hne) as [so Hso].
    rewrite lookup_alter_eq, Hso. reflexivity.
  - intros ->. now apply (approval_effect_nil_eq docname).
Qed.

Lemma make_approved_stops_at_unavailable_witness :
  exists db',
    request (make_approved "SO-0002") approval_db = (Ok "Approved Success", db')
    /\ approval_effect "SO-0002" [line "L1" "SO-0002" "DEV-1" "Pending"]
         approval_db db'
    /\ (forall p, In p [line "L1" "SO-0002" "DEV-1" "Pending"] ->
          Item.status <$> tabItem db' !! SalesOrderItem.item_code p
          = Some "Reserved")
    /\ ([line "L1" "SO-0002" "DEV-1" "Pending"] <> [] ->
        SalesOrder.status <$> tabSalesOrder db' !! "SO-0002" = Some "Approved")
    /\ ([line "L1" "SO-0002" "DEV-1" "Pending"] = [] -> db' = approval_db).
Proof.
  apply (make_approved_stops_at_unavailable "SO-0002" approval_db
           [line "L1" "SO-0002" "DEV-1" "Pending"]
           [line "L3" "SO-0002" "DEV-3" "Pending"]
           (line "L2" "SO-0002" "DEV-2" "Pending")).
  - reflexivity.
  - intros p [<-|[]]. exists (device "Available"). split; reflexivity.
  - constructor; [simpl; tauto|constructor].
  - left. exists (device "Rented Out"). split; [reflexivity|discriminate].
  - intros _. exists (order "Pending" "" NoDate NoDate). reflexivity.
Defined.

(** The same run, computed: the first device is reserved and its line
    approved, the third line is never reached. *)
Example make_approved_three_lines :
  exists db',
    request (make_approved "SO-0002") approval_db = (Ok "Approved Success", db')
    /\ Item.status <$> tabItem db' !! "DEV-1" = Some "Reserved"
    /\ Item.status <$> tabItem db' !! "DEV-3" = Some "Available"
    /\ List.map SalesOrderItem.child_status (tabSalesOrderItem db')
       = ["Approved"; "Pending"; "Pending"]
    /\ SalesOrder.status <$> tabSalesOrder db' !! "SO-0002" = Some "Approved".
Proof. eexists. repeat split; vm_compute; reflexivity. Qed.

(** ** Cancellation *)

Lemma release_idem (it : Item.t) : release (release it) = release it.
Proof.
  unfold release. destruct (String.eqb (Item.status it) "Rented Out") eqn:E.
  - reflexivity.
  - now rewrite E.
Qed.

Lemma release_all_lookup (rows : list SalesOrderItem.t) :
  forall (items : gmap string Item.t) (code : string),
    release_all rows items !! code
    = if in_dec String.string_dec code
           (List.map SalesOrderItem.item_code rows)
      then release <$> items !! code
      else items !! code.
Proof.
  unfold release_all.
  induction rows as [|r rows IH]; intros items code; simpl; [reflexivity|].
  rewrite IH.
  destruct (String.string_dec (SalesOrderItem.item_code r) code) as [Heq|Hne].
  - subst code. rewrite lookup_alter_eq.
    destruct (in_dec _ _ _).
    + destruct (items !! SalesOrderItem.item_code r); simpl;
        [now rewrite release_idem|reflexivity].
    + reflexivity.
  - rewrite lookup_alter_ne by done.
    destruct (in_dec _ _ _); reflexivity.
Qed.

(** The loop of [item_status_change_cancel]: it runs to its end exactly
    when every line has its Item, and then it has released each of them. *)
Lemma release_loop_ok (rows : list SalesOrderItem.t) :
  forall (dur w : DB),
    (forall r, In r rows -> is_Some (tabItem w !! SalesOrderItem.item_code r)) ->
    for_each rows (fun item =>
      item_doc ← get_doc_Item (SalesOrderItem.item_code item);
      if String.eqb (Item.status item_doc) "Rented Out"
      then save_Item (SalesOrderItem.item_code item)
             (Item.set_status "Available" item_doc)
      else mret tt) (mktxn dur w)
    = (Ok tt, mktxn dur (set_tabItem (release_all rows (tabItem w)) w)).
Proof.
  induction rows as [|r rows IH]; intros dur w Hex.
  - simpl. mstep. now destruct w.
  - destruct (Hex r (or_introl eq_refl)) as [it Hit].
    assert (Hstep : alter release (SalesOrderItem.item_code r) (tabItem w)
                    = if String.eqb (Item.status it) "Rented Out"
                      then <[SalesOrderItem.item_code r :=
                               Item.set_status "Available" it]> (tabItem w)
                      else tabItem w).
    { apply map_eq. intros k. unfold release.
      destruct (decide (SalesOrderItem.item_code r = k)) as [<-|Hne].
      - rewrite lookup_alter_eq, Hit. simpl.
        destruct (String.eqb _ _); [now rewrite lookup_insert_eq|easy].
      - rewrite lookup_alter_ne by done.
        destruct (String.eqb _ _); [now rewrite lookup_insert_ne|easy]. }
    cbn [for_each]. unfold get_doc_Item, save_Item at 1. mstep.
    rewrite Hit. simpl.
    destruct (String.eqb (Item.status it) "Rented Out") eqn:E; simpl.
    + rewrite IH.
      * simpl. unfold release_all. simpl. rewrite Hstep. reflexivity.
      * intros q Hq. simpl.
        destruct (decide (SalesOrderItem.item_code r
                          = SalesOrderItem.item_code q)) as [<-|Hne].
        -- rewrite lookup_insert_eq. eauto.
        -- rewrite lookup_insert_ne by done. apply Hex. now right.
    + rewrite IH.
      * unfold release_all. simpl. rewrite Hstep. reflexivity.
      * intros q Hq. apply Hex. now right.
Qed.

Lemma release_loop_raise (rows : list SalesOrderItem.t) :
  forall (dur w : DB),
    ~ (forall r, In r rows ->
         is_Some (tabItem w !! SalesOrderItem.item_code r)) ->
    exists e w',
      for_each rows (fun item =>
        item_doc ← get_doc_Item (SalesOrderItem.item_code item);
        if String.eqb (Item.status item_doc) "Rented Out"
        then save_Item (SalesOrderItem.item_code item)
               (Item.set_status "Available" item_doc)
        else mret tt) (mktxn dur w)
      = (Raise e, mktxn dur w').
Proof.
  induction rows as [|r rows IH]; intros dur w Hno.
  - exfalso. apply Hno. intros r [].
  - cbn [for_each]. unfold get_doc_Item, save_Item at 1. mstep.
    destruct (tabItem w !! SalesOrderItem.item_code r) as [it|] eqn:Hit;
      simpl; [|eauto].
    destruct (String.eqb (Item.status it) "Rented Out") eqn:E; simpl.
    + apply IH. intros Hall. apply Hno. intros q [<-|Hq].
      * rewrite Hit. eauto.
      * specialize (Hall q Hq). simpl in Hall.
        destruct (decide (SalesOrderItem.item_code r
                          = SalesOrderItem.item_code q)) as [Heq|Hne].
        -- rewrite <- Heq, Hit. eauto.
        -- now rewrite lookup_insert_ne in Hall by done.
    + apply IH. intros Hall. apply Hno. intros q [<-|Hq].
      * rewrite Hit. eauto.
      * now apply Hall.
Qed.

Lemma all_items_dec (rows : list SalesOrderItem.t) (w : DB) :
  (forall r, In r rows -> is_Some (tabItem w !! SalesOrderItem.item_code r))
  \/ ~ (forall r, In r rows ->
          is_Some (tabItem w !! SalesOrderItem.item_code r)).
Proof.
  induction rows as [|r rows [IH|IH]].
  - left. intros r [].
  - destruct (tabItem w !! SalesOrderItem.item_code r) as [it|] eqn:Hit.
    + left. intros q [<-|Hq]; [rewrite Hit; eauto|auto].
    + right. intros H. specialize (H r (or_introl eq_refl)).
      rewrite Hit in H. now destruct H.
  - right. intros H. apply IH. intros q Hq. apply H. now right.
Qed.

Section Cancel.

Variable ext : Collaborators.

Lemma item_status_change_cancel_ok (name : string) (db : DB) :
  (forall r, In r (rows_of name (tabSalesOrderItem db)) ->
     is_Some (tabItem db !! SalesOrderItem.item_code r)) ->
  item_status_change_cancel name (mktxn db db)
  = (Ok tt, mktxn (released_db name db) (released_db name db)).
Proof.
  intros Hex. unfold item_status_change_cancel, get_all_SalesOrderItem.
  rewrite !bind_run. simpl.
  rewrite bind_run, (release_loop_ok _ db db Hex). reflexivity.
Qed.

Lemma item_status_change_cancel_raise (name : string) (db : DB) :
  ~ (forall r, In r (rows_of name (tabSalesOrderItem db)) ->
       is_Some (tabItem db !! SalesOrderItem.item_code r)) ->
  exists e w',
    item_status_change_cancel name (mktxn db db) = (Raise e, mktxn db w').
Proof.
  intros Hno. unfold item_status_change_cancel, get_all_SalesOrderItem.
  rewrite !bind_run. simpl.
  destruct (release_loop_raise _ db db Hno) as (e & w' & Hrun).
  rewrite bind_run, Hrun. eauto.
Qed.

Lemma on_cancel_passes (name : string) (self : SalesOrder.t) (db : DB) :
  (forall r, In r (rows_of name (tabSalesOrderItem db)) ->
     is_Some (tabItem db !! SalesOrderItem.item_code r)) ->
  SalesOrder.status self <> "Closed" ->
  cancel_hooks_pass ext self ->
  request (on_cancel ext name self) db = (Ok tt, cancelled_db name db).
Proof.
  intros Hex Hst (H1 & H2 & H3 & H4 & H5 & H6 & H7 & H8).
  unfold request, on_cancel.
  apply String.eqb_neq in Hst.
  rewrite bind_run, (item_status_change_cancel_ok name db Hex).
  unfold call, db_set_status, modify_db, mbind, M_bind. simpl.
  rewrite H1, Hst. simpl. rewrite H2, H3, H4. simpl.
  rewrite H5, H6, H7, H8. reflexivity.
Qed.

Lemma on_cancel_closed (name : string) (self : SalesOrder.t) (db : DB) :
  (forall r, In r (rows_of name (tabSalesOrderItem db)) ->
     is_Some (tabItem db !! SalesOrderItem.item_code r)) ->
  SalesOrder.status self = "Closed" ->
  (forall w, super_on_cancel ext self w = Ok tt) ->
  request (on_cancel ext name self) db
  = (Raise (ValidationError closed_message), released_db name db).
Proof.
  intros Hex Hst H1. unfold request, on_cancel.
  rewrite bind_run, (item_status_change_cancel_ok name db Hex).
  unfold call, mbind, M_bind. simpl. rewrite H1, Hst. reflexivity.
Qed.

Lemma on_cancel_ok_inv (name : string) (self : SalesOrder.t) (db db' : DB) :
  request (on_cancel ext name self) db = (Ok tt, db') ->
  db' = cancelled_db name db
  /\ (forall r, In r (rows_of name (tabSalesOrderItem db)) ->
        is_Some (tabItem db !! SalesOrderItem.item_code r)).
Proof.
  unfold request, on_cancel. rewrite bind_run.
  destruct (all_items_dec (rows_of name (tabSalesOrderItem db)) db)
    as [Hex|Hno].
  - rewrite (item_status_change_cancel_ok name db Hex).
    unfold call, db_set_status, modify_db, mbind, M_bind. simpl.
    repeat match goal with
    | |- context [match ?f ext self ?w with _ => _ end] =>
        destruct (f ext self w) as [[]|?]; simpl
    | |- context [match update_prevdoc_status ext self ?s ?w with _ => _ end] =>
        destruct (update_prevdoc_status ext self s w) as [[]|?]; simpl
    | |- context [if ?b then _ else _] => destruct b; simpl
    end; intros H; inversion H; subst; auto.
  - destruct (item_status_change_cancel_raise name db Hno) as (e & w' & ->).
    discriminate.
Qed.

End Cancel.

(** C5.  For an order as the table stores it: [on_cancel] goes through
    whenever the order is not "Closed", every line has its Item and the
    collaborators raise nothing; and whenever it goes through, whatever
    the header status was, the header is "Cancelled" without any vote over
    the lines, every Item of a line that was "Rented Out" is "Available",
    and the Items that were not "Rented Out" are as they were. *)
Theorem on_cancel_releases_and_cancels (ext : Collaborators) (name : string)
    (self : SalesOrder.t) (db : DB) :
  tabSalesOrder db !! name = Some self ->
  ((forall r, In r (rows_of name (tabSalesOrderItem db)) ->
      is_Some (tabItem db !! SalesOrderItem.item_code r)) ->
   SalesOrder.status self <> "Closed" ->
   cancel_hooks_pass ext self ->
   exists db', request (on_cancel ext name self) db = (Ok tt, db'))
  /\ (forall db',
        request (on_cancel ext name self) db = (Ok tt, db') ->
        SalesOrder.status <$> tabSalesOrder db' !! name = Some "Cancelled"
        /\ (forall r it,
              In r (rows_of name (tabSalesOrderItem db)) ->
              tabItem db !! SalesOrderItem.item_code r = Some it ->
              Item.status it = "Rented Out" ->
              Item.status <$> tabItem db' !! SalesOrderItem.item_code r
              = Some "Available")
        /\ (forall code it,
              tabItem db !! code = Some it ->
              Item.status it <> "Rented Out" ->
              tabItem db' !! code = Some it)).
Proof.
  intros Hself. split.
  - intros Hex Hst Hhooks. eexists.
    now apply on_cancel_passes.
  - intros db' Hrun. apply on_cancel_ok_inv in Hrun as [-> Hex].
    unfold cancelled_db, released_db. simpl. split; [|split].
    + rewrite lookup_alter_eq, Hself. reflexivity.
    + intros r it Hr Hit Hst. rewrite release_all_lookup.
      destruct (in_dec _ _ _) as [_|Hno].
      * rewrite Hit. simpl. unfold release. rewrite Hst. reflexivity.
      * exfalso. apply Hno. now apply in_map.
    + intros code it Hit Hst. rewrite release_all_lookup, Hit.
      apply String.eqb_neq in Hst.
      destruct (in_dec _ _ _); [|reflexivity].
      simpl. unfold release. now rewrite Hst.
Qed.

Lemma on_cancel_releases_and_cancels_witness :
  (exists db',
     request (on_cancel quiet "SO-0003" (order "Active" "" NoDate NoDate))
       active_db = (Ok tt, db'))
  /\ (forall db',
        request (on_cancel quiet "SO-0003" (order "Active" "" NoDate NoDate))
          active_db = (Ok tt, db') ->
        SalesOrder.status <$> tabSalesOrder db' !! "SO-0003" = Some "Cancelled"
        /\ Item.status <$> tabItem db' !! "DEV-9" = Some "Available").
Proof.
  destruct (on_cancel_releases_and_cancels quiet "SO-0003"
              (order "Active" "" NoDate NoDate) active_db eq_refl)
    as [Hgo Heff].
  split.
  - apply Hgo.
    + intros r [<-|[]]. exists (device "Rented Out"). reflexivity.
    + discriminate.
    + repeat split.
  - intros db' Hrun. destruct (Heff db' Hrun) as (Hst & Hrel & _).
    split; [exact Hst|].
    apply (Hrel (line "L9" "SO-0003" "DEV-9" "Active") (device "Rented Out"));
      [left|..]; reflexivity.
Defined.

(** C6, at a closed order whose device is out: the cancellation is
    refused with the closed-order error, yet the device has already been
    set to "Available" and committed, so the refused cancellation has
    changed the database. *)
Theorem on_cancel_closed_order_changes_items :
  exists db',
    request (on_cancel quiet "SO-0003" (order "Closed" "" NoDate NoDate))
      closed_db
    = (Raise (ValidationError closed_message), db')
    /\ Item.status <$> tabItem closed_db !! "DEV-9" = Some "Rented Out"
    /\ Item.status <$> tabItem db' !! "DEV-9" = Some "Available"
    /\ SalesOrder.status <$> tabSalesOrder db' !! "SO-0003" = Some "Closed".
Proof. eexists. repeat split; vm_compute; reflexivity. Qed.

(** ** Status recomputation *)

Lemma vote_of_lines_submitted (statuses : list string) :
  vote_of_lines statuses
  = if existsb (fun s => String.eqb s "Submitted to Office") statuses
    then "Partially Closed" else "Active".
Proof.
  unfold vote_of_lines.
  destruct (existsb _ statuses) eqn:E.
  - apply existsb_exists in E as (s & Hin & Hs).
    apply String.eqb_eq in Hs. subst s.
    destruct (forallb _ statuses) eqn:F; [|reflexivity].
    rewrite forallb_forall in F. specialize (F _ Hin). discriminate F.
  - destruct (forallb _ statuses); reflexivity.
Qed.

Lemma forallb_not_submitted (statuses : list string) :
  forallb (fun s => negb (String.eqb s "Submitted to Office")) statuses
  = negb (existsb (fun s => String.eqb s "Submitted to Office") statuses).
Proof.
  induction statuses as [|s l IH]; [reflexivity|]. simpl.
  rewrite IH, negb_orb. reflexivity.
Qed.

(** The vote of [item_replacement] agrees with the specification's vote
    as soon as one line is outside "Ready for Delivery" and "DISPATCHED". *)
Lemma replacement_vote_spec (current : string) (statuses : list string) :
  existsb (fun s => negb (String.eqb s "Ready for Delivery")
                    && negb (String.eqb s "DISPATCHED")) statuses = true ->
  replacement_vote current statuses = vote_of_lines statuses.
Proof.
  intros Hany. rewrite vote_of_lines_submitted. unfold replacement_vote.
  destruct (existsb (fun s => String.eqb s "Submitted to Office") statuses)
    eqn:E.
  - destruct (forallb _ statuses) eqn:F; [|reflexivity].
    apply existsb_exists in E as (s & Hin & Hs).
    rewrite forallb_forall in F. specialize (F _ Hin).
    apply String.eqb_eq in Hs. subst s. discriminate F.
  - destruct (forallb _ statuses); [reflexivity|].
    destruct (existsb (fun s => negb _) statuses) eqn:N; [reflexivity|].
    exfalso. apply existsb_exists in Hany as (s & Hin & _).
    assert (Hs : existsb (fun s => negb (String.eqb s "Submitted to Office"))
                   statuses = true).
    { apply existsb_exists. exists s. split; [exact Hin|].
      destruct (String.eqb s "Submitted to Office") eqn:S; [|reflexivity].
      exfalso. assert (Ht : existsb (fun s => String.eqb s "Submitted to Office")
                              statuses = true).
      { apply existsb_exists. eauto. }
      congruence. }
    congruence.
Qed.

Lemma unique_name (rows : list SalesOrderItem.t) (a b : SalesOrderItem.t) :
  List.NoDup (List.map SalesOrderItem.name rows) ->
  In a rows -> In b rows ->
  SalesOrderItem.name a = SalesOrderItem.name b -> a = b.
Proof.
  induction rows as [|r rows IH]; simpl; [tauto|].
  intros Hnd Ha Hb Hn. apply List.NoDup_cons_iff in Hnd as [Hfresh Hnd].
  destruct Ha as [<-|Ha], Hb as [<-|Hb]; auto.
  - exfalso. apply Hfresh. rewrite Hn. now apply in_map.
  - exfalso. apply Hfresh. rewrite <- Hn. now apply in_map.
Qed.

Lemma find_row_In (n : string) (rows : list SalesOrderItem.t)
    (r : SalesOrderItem.t) :
  find_row n rows = Some r -> In r rows.
Proof. unfold find_row. intros H. now apply find_some in H. Qed.

Lemma filter_map_commute {A : Type} (p : A -> bool) (f : A -> A)
    (l : list A) :
  (forall a, In a l -> p (f a) = p a) ->
  List.filter p (List.map f l) = List.map f (List.filter p l).
Proof.
  induction l as [|a l IH]; intros H; [reflexivity|]. simpl.
  rewrite (H a (or_introl eq_refl)), IH.
  - destruct (p a); reflexivity.
  - intros b Hb. apply H. now right.
Qed.

(** Saving a row that keeps its parent rewrites it inside the rows of
    each order. *)
Lemma rows_of_replace_row (docname : string) (rows : list SalesOrderItem.t)
    (r0 d : SalesOrderItem.t) :
  List.NoDup (List.map SalesOrderItem.name rows) ->
  find_row (SalesOrderItem.name d) rows = Some r0 ->
  SalesOrderItem.parent d = SalesOrderItem.parent r0 ->
  rows_of docname (replace_row d rows)
  = replace_row d (rows_of docname rows).
Proof.
  intros Hnd Hfind Hpar. pose proof (find_row_In _ _ _ Hfind) as Hin0.
  pose proof (find_row_name _ _ _ Hfind) as Hn0.
  unfold rows_of, replace_row. apply filter_map_commute.
  intros r Hr.
  destruct (String.eqb (SalesOrderItem.name r) (SalesOrderItem.name d)) eqn:E;
    [|reflexivity].
  apply String.eqb_eq in E.
  assert (r = r0) as -> by (apply (unique_name rows); auto; congruence).
  now rewrite Hpar.
Qed.

Lemma forallb_of_map {A B : Type} (f : B -> bool) (g : A -> B) (l : list A) :
  forallb (fun a => f (g a)) l = forallb f (List.map g l).
Proof. induction l as [|a l IH]; simpl; [reflexivity|now rewrite IH]. Qed.

Lemma find_row_unique (rows : list SalesOrderItem.t) (r : SalesOrderItem.t) :
  List.NoDup (List.map SalesOrderItem.name rows) ->
  In r rows -> find_row (SalesOrderItem.name r) rows = Some r.
Proof.
  intros Hnd Hr.
  destruct (find_row_is_Some (SalesOrderItem.name r) rows) as [r' Hr'].
  { now apply in_map. }
  rewrite Hr'. f_equal. apply (unique_name rows); auto.
  - now apply find_row_In in Hr'.
  - now apply find_row_name in Hr'.
Qed.

(** After [update_status_to_pickup] the header is what the specification's
    vote gives on the lines as they then are. *)
Lemma update_status_to_pickup_header (item_code docname child_name : string)
    (db : DB) :
  List.NoDup (List.map SalesOrderItem.name (tabSalesOrderItem db)) ->
  is_Some (tabItem db !! item_code) ->
  is_Some (tabSalesOrder db !! docname) ->
  rows_of docname (tabSalesOrderItem db) <> [] ->
  (length (rows_of docname (tabSalesOrderItem db)) <> 1%nat ->
   In child_name (List.map SalesOrderItem.name (tabSalesOrderItem db))) ->
  exists db',
    request (update_status_to_pickup item_code docname child_name) db
    = (Ok true, db')
    /\ header_status docname db'
       = Some (header_of_lines (line_statuses docname db')).
Proof.
  intros Hnd [it Hit] [so Hso] Hrows Hchild.
  unfold request, update_status_to_pickup, get_doc_Item, save_Item,
    get_all_SalesOrderItem, get_doc_SalesOrderItem, save_SalesOrderItem,
    get_doc_SalesOrder, save_SalesOrder, header_status, line_statuses.
  mstep. rewrite Hit. simpl.
  destruct (rows_of docname (tabSalesOrderItem db)) as [|first rest] eqn:Erows;
    [congruence|].
  destruct rest as [|second rest].
  - simpl. assert (Hin : In first (tabSalesOrderItem db)).
    { apply (rows_of_In docname). rewrite Erows. now left. }
    rewrite (find_row_unique _ _ Hnd Hin). simpl. rewrite Hso. simpl.
    eexists. split; [reflexivity|]. simpl.
    rewrite lookup_insert_eq.
    erewrite rows_of_replace_row; [|exact Hnd| |].
    + rewrite Erows. simpl. rewrite String.eqb_refl. reflexivity.
    + simpl. now apply find_row_unique.
    + reflexivity.
  - simpl.
    destruct (find_row_is_Some child_name (tabSalesOrderItem db)) as [r0 Hr0].
    { apply Hchild. simpl. discriminate. }
    rewrite Hr0. simpl. rewrite Hso. simpl.
    eexists. split; [reflexivity|]. simpl.
    rewrite lookup_insert_eq. simpl. f_equal.
    erewrite rows_of_replace_row; [|exact Hnd| |].
    + rewrite Erows.
      rewrite (forallb_of_map
                 (fun s => negb (String.eqb s "Submitted to Office"))
                 SalesOrderItem.child_status).
      rewrite forallb_not_submitted.
      unfold header_of_lines.
      remember (replace_row _ (first :: second :: rest)) as rows' eqn:E.
      assert (Hlen : (2 <= length (List.map SalesOrderItem.child_status rows'))%nat).
      { subst rows'. unfold replace_row. simpl. lia. }
      destruct (List.map SalesOrderItem.child_status rows') as [|a [|b l]];
        simpl in Hlen; try lia.
      rewrite vote_of_lines_submitted.
      destruct (existsb _ (a :: b :: l)); reflexivity.
    + simpl. rewrite <- (find_row_name _ _ _ Hr0) in Hr0. exact Hr0.
    + reflexivity.
Qed.

(** A loop whose every turn goes through and keeps an invariant goes
    through and keeps it. *)
Lemma for_each_ok {A : Type} (P : txn -> Prop) (body : A -> M unit)
    (l : list A) :
  (forall x t, In x l -> P t -> exists t', body x t = (Ok tt, t') /\ P t') ->
  forall t, P t -> exists t', for_each l body t = (Ok tt, t') /\ P t'.
Proof.
  induction l as [|x l IH]; intros Hbody t HP.
  - exists t. split; [reflexivity|exact HP].
  - destruct (Hbody x t (or_introl eq_refl) HP) as (t1 & Hx & HP1).
    destruct (IH (fun y u Hy => Hbody y u (or_intror Hy)) t1 HP1)
      as (t' & Hl & HP').
    exists t'. split; [|exact HP']. cbn [for_each].
    rewrite bind_run, Hx. exact Hl.
Qed.

(** What a turn that may fail keeps, the loop keeps, however it ends. *)
Lemma for_each_keeps {A : Type} (P : txn -> Prop) (body : A -> M unit)
    (l : list A) :
  (forall x t r t', P t -> body x t = (r, t') -> P t') ->
  forall t r t', P t -> for_each l body t = (r, t') -> P t'.
Proof.
  intros Hbody. induction l as [|x l IH]; intros t r t' HP Hrun.
  - inversion Hrun. now subst.
  - cbn [for_each] in Hrun. rewrite bind_run in Hrun.
    destruct (body x t) as [[[]|e] t1] eqn:Hx.
    + apply (IH t1 r t'); [|exact Hrun]. now apply (Hbody x t (Ok tt) t1).
    + inversion Hrun. subst. eapply Hbody; eauto.
Qed.

Lemma item_replacement_row_ok (db0 : DB)
    (item_code new_item replacement_date : string)
    (item : SalesOrderItem.t) (t : txn) :
  In (SalesOrderItem.name item)
     (List.map SalesOrderItem.name (tabSalesOrderItem db0)) ->
  replacing db0 item_code new_item t ->
  exists t',
    item_replacement_row item_code new_item replacement_date item t
    = (Ok tt, t')
    /\ replacing db0 item_code new_item t'.
Proof.
  intros Hin (Hdur & Hnames & [ni Hni] & [oi Hoi] & Hord).
  rewrite <- Hnames in Hin.
  destruct (find_row_is_Some _ _ Hin) as [r Hr].
  unfold item_replacement_row, get_doc_SalesOrderItem, save_SalesOrderItem,
    get_doc_Item, save_Item.
  mstep. rewrite Hr. simpl. rewrite Hni. simpl.
  eexists. split; [reflexivity|].
  unfold replacing. simpl. repeat split; auto.
  - rewrite replace_row_names. exact Hnames.
  - rewrite lookup_insert_eq. eauto.
  - destruct (decide (new_item = item_code)) as [->|Hne].
    + rewrite lookup_insert_eq. eauto.
    + rewrite lookup_insert_ne by done. eauto.
Qed.

Lemma item_replacement_row_keeps (db0 : DB)
    (item_code new_item replacement_date : string)
    (item : SalesOrderItem.t) (t : txn) (r : result unit) (t' : txn) :
  durable t = db0 /\ tabSalesOrder (working t) = tabSalesOrder db0 ->
  item_replacement_row item_code new_item replacement_date item t = (r, t') ->
  durable t' = db0 /\ tabSalesOrder (working t') = tabSalesOrder db0.
Proof.
  intros [Hdur Hord].
  unfold item_replacement_row, get_doc_SalesOrderItem, save_SalesOrderItem,
    get_doc_Item, save_Item.
  mstep.
  destruct (find_row _ _); simpl.
  - destruct (tabItem (working t) !! new_item); simpl;
      intros H; inversion H; subst; simpl; auto.
  - intros H; inversion H; subst; auto.
Qed.

Lemma item_replacement_header
    (item_code new_item replacement_date master_order_id docname
     old_item_status reason : string) (db db' : DB) :
  request (item_replacement item_code new_item replacement_date
             master_order_id docname old_item_status reason) db
  = (Ok true, db') ->
  if existsb (fun s => negb (excluded_from_vote s)) (line_statuses docname db')
  then header_status docname db'
       = Some (vote_of_lines (line_statuses docname db'))
  else header_status docname db' = header_status docname db.
Proof.
  unfold request, item_replacement, try_except.
  rewrite bind_run. unfold modify_db at 1.
  rewrite bind_run. unfold get_db at 1. cbn [working durable].
  rewrite bind_run.
  match goal with
  | |- context [for_each ?l ?b ?t] => destruct (for_each l b t) as [r1 t1] eqn:Hloop
  end.
  apply (for_each_keeps
           (fun t => durable t = db /\ tabSalesOrder (working t) = tabSalesOrder db))
    in Hloop as [Hdur Hord]; simpl; auto.
  2:{ intros x t r t'. apply item_replacement_row_keeps. }
  destruct r1 as [[]|e]; [|discriminate].
  unfold get_doc_Item, save_Item, get_all_SalesOrderItem, get_doc_SalesOrder,
    save_SalesOrder, header_status, line_statuses.
  mstep.
  destruct (tabItem (working t1) !! item_code) as [oi|]; simpl; [|discriminate].
  assert (Hex : forall l,
    existsb (fun s => negb (String.eqb s "Ready for Delivery")
                      && negb (String.eqb s "DISPATCHED")) l
    = existsb (fun s => negb (excluded_from_vote s)) l).
  { intros l. induction l as [|s l IH]; [reflexivity|]. simpl.
    rewrite IH. unfold excluded_from_vote. now rewrite negb_orb. }
  destruct (existsb _ (List.map SalesOrderItem.child_status
                         (rows_of docname (tabSalesOrderItem (working t1)))))
    eqn:Hany; simpl.
  - destruct (tabSalesOrder (working t1) !! docname) as [so|] eqn:Hso; simpl;
      [|discriminate].
    intros H. inversion H. subst db'. clear H. simpl.
    rewrite <- Hex, Hany. rewrite lookup_insert_eq. simpl.
    now rewrite replacement_vote_spec.
  - intros H. inversion H. subst db'. clear H. simpl.
    rewrite <- Hex, Hany. now rewrite Hord.
Qed.

Lemma item_replacement_goes_through
    (item_code new_item replacement_date master_order_id docname
     old_item_status reason : string) (db : DB) :
  is_Some (tabItem db !! item_code) ->
  is_Some (tabItem db !! new_item) ->
  is_Some (tabSalesOrder db !! docname) ->
  exists db',
    request (item_replacement item_code new_item replacement_date
               master_order_id docname old_item_status reason) db
    = (Ok true, db').
Proof.
  intros Hold Hnew Hso.
  unfold request, item_replacement, try_except.
  rewrite bind_run. unfold modify_db at 1.
  rewrite bind_run. unfold get_db at 1. cbn [working durable].
  rewrite bind_run.
  match goal with
  | |- context [for_each ?l ?b ?u] =>
      assert (Hgo : exists t1, for_each l b u = (Ok tt, t1)
                      /\ replacing db item_code new_item t1);
        [apply (for_each_ok (replacing db item_code new_item) b l)|]
  end.
  { intros x t Hx Ht. apply item_replacement_row_ok; [|exact Ht].
    apply in_map. apply filter_In in Hx as [Hx _].
    apply rows_of_In in Hx. exact Hx. }
  { unfold replacing. simpl. auto. }
  destruct Hgo as (t1 & Hloop & Hinv).
  rewrite Hloop. destruct Hinv as (Hdur & _ & _ & [oi Hoi] & Hord).
  unfold get_doc_Item, save_Item, get_all_SalesOrderItem, get_doc_SalesOrder,
    save_SalesOrder.
  mstep. rewrite Hoi. simpl.
  destruct (existsb _ _); simpl.
  - rewrite Hord. destruct Hso as [so ->]. simpl. eauto.
  - eauto.
Qed.

(** C2 (amended).  For an order that exists:
    - after [update_status_to_pickup] the header is what the
      specification's vote gives on the lines as they then are: the one
      line mirrored when there is one, else "Active" when all lines outside
      "Ready for Delivery" and "DISPATCHED" are, else "Partially Closed"
      when a line is "Submitted to Office", else "Active";
    - [item_replacement] has no single-line case: when some line is
      outside "Ready for Delivery" and "DISPATCHED" the header is the
      multi-line vote, for any number of lines, and when none is the
      header stays as it was. *)
Theorem status_recompute_header (docname : string) (db : DB) :
  is_Some (tabSalesOrder db !! docname) ->
  (forall item_code child_name,
     List.NoDup (List.map SalesOrderItem.name (tabSalesOrderItem db)) ->
     is_Some (tabItem db !! item_code) ->
     rows_of docname (tabSalesOrderItem db) <> [] ->
     (length (rows_of docname (tabSalesOrderItem db)) <> 1%nat ->
      In child_name (List.map SalesOrderItem.name (tabSalesOrderItem db))) ->
     exists db',
       request (update_status_to_pickup item_code docname child_name) db
       = (Ok true, db')
       /\ header_status docname db'
          = Some (header_of_lines (line_statuses docname db')))
  /\ (forall item_code new_item replacement_date master_order_id
             old_item_status reason,
        is_Some (tabItem db !! item_code) ->
        is_Some (tabItem db !! new_item) ->
        exists db',
          request (item_replacement item_code new_item replacement_date
                     master_order_id docname old_item_status reason) db
          = (Ok true, db')
          /\ if existsb (fun s => negb (excluded_from_vote s))
                  (line_statuses docname db')
             then header_status docname db'
                  = Some (vote_of_lines (line_statuses docname db'))
             else header_status docname db' = header_status docname db).
Proof.
  intros Hso. split.
  - intros item_code child_name Hnd Hit Hrows Hchild.
    now apply update_status_to_pickup_header.
  - intros item_code new_item replacement_date master_order_id
      old_item_status reason Hold Hnew.
    destruct (item_replacement_goes_through item_code new_item
                replacement_date master_order_id docname old_item_status
                reason db Hold Hnew Hso) as [db' Hrun].
    exists db'. split; [exact Hrun|].
    now apply (item_replacement_header _ _ _ _ _ _ _ _ _ Hrun).
Qed.

Lemma status_recompute_header_witness :
  (exists db',
     request (update_status_to_pickup "DEV-6" "SO-0005" "L6") two_lines_db
     = (Ok true, db')
     /\ header_status "SO-0005" db'
        = Some (header_of_lines (line_statuses "SO-0005" db')))
  /\ (exists db',
        request (item_replacement "DEV-6" "DEV-8" "2024-05-01 10:00:00"
                   "SO-0005" "SO-0005" "Available" "Faulty") two_lines_db
        = (Ok true, db')
        /\ if existsb (fun s => negb (excluded_from_vote s))
                (line_statuses "SO-0005" db')
           then header_status "SO-0005" db'
                = Some (vote_of_lines (line_statuses "SO-0005" db'))
           else header_status "SO-0005" db'
                = header_status "SO-0005" two_lines_db).
Proof.
  destruct (status_recompute_header "SO-0005" two_lines_db) as [Hp Hr].
  { exists (order "Active" "" NoDate NoDate). reflexivity. }
  split.
  - apply Hp.
    + repeat constructor; simpl; intuition discriminate.
    + exists (device "Rented Out"). reflexivity.
    + discriminate.
    + intros _. simpl. tauto.
  - apply Hr.
    + exists (device "Rented Out"). reflexivity.
    + exists (device "Available"). reflexivity.
Defined.

(** C2 as stated fails: replacing the device of an order whose single
    line is "Ready for Pickup" leaves that line as it is and sets the
    header to "Active", so the header does not mirror the line. *)
Lemma item_replacement_single_line_not_mirrored :
  exists db',
    request (item_replacement "DEV-4" "DEV-5" "2024-05-01 10:00:00"
               "SO-0004" "SO-0004" "Available" "Faulty") pickup_db
    = (Ok true, db')
    /\ line_statuses "SO-0004" db' = ["Ready for Pickup"]
    /\ header_status "SO-0004" db' = Some "Active"
    /\ header_status "SO-0004" db'
       <> Some (header_of_lines (line_statuses "SO-0004" db')).
Proof.
  eexists. split; [vm_compute; reflexivity|].
  split; [reflexivity|]. split; [reflexivity|].
  vm_compute. discriminate.
Qed.

(** The votes of the specification's examples, on [update_status_to_pickup]
    and on the multi-line vote. *)
Example vote_examples :
  vote_of_lines ["Active"; "Active"] = "Active"
  /\ vote_of_lines ["Active"; "Submitted to Office"] = "Partially Closed"
  /\ header_of_lines ["Ready for Pickup"] = "Ready for Pickup".
Proof. repeat split. Qed.

(** ** Payment classification *)

Lemma fsub_zero_r (x : pyfloat) : fsub x fzero = x.
Proof. destruct x as [[]|[]| |s m e]; reflexivity. Qed.

Lemma fadd_zero_l (s : bool) (m : positive) (e : Z) :
  fadd fzero (S754_finite s m e) = S754_finite s m e.
Proof. reflexivity. Qed.

Lemma fsub_diag (s : bool) (m : positive) (e : Z) :
  fsub (S754_finite s m e) (S754_finite s m e) = fzero.
Proof. unfold fsub, SFsub. rewrite Z.sub_diag. reflexivity. Qed.

(** The whole numbers of the examples are floats; a tenth is not, and the
    float sum of 0.1 and 0.2 is not the float 0.3. *)
Example float_examples :
  to_float 100 = S754_finite false 7036874417766400 (-46)
  /\ fsub (to_float 50) (to_float 20) = to_float 30
  /\ to_float (1 # 10) = S754_finite false 7205759403792794 (-56)
  /\ fadd (to_float (1 # 10)) (to_float (2 # 10))
     = S754_finite false 5404319552844596 (-54)
  /\ to_float (3 # 10) = S754_finite false 5404319552844595 (-54)
  /\ fsub (to_float (10000000000000000 # 1)) (to_float (1 # 2))
     = to_float (10000000000000000 # 1).
Proof. repeat split. Qed.

(** The boundaries: everything paid, nothing paid, nothing due. *)
Example payment_status_boundaries :
  payment_status_of (to_float 100) (to_float 100) = "Paid"
  /\ payment_status_of (to_float 100) fzero = "UnPaid"
  /\ payment_status_of fzero fzero = "Paid"
  /\ payment_status_of (to_float 100) (to_float 40) = "Partially Paid"
  /\ security_deposit_status_of (fsub (to_float 50) (to_float 50))
       (to_float 50) = "Paid"
  /\ security_deposit_status_of (fsub (to_float 50) fzero) (to_float 50)
     = "Unpaid"
  /\ security_deposit_status_of (fsub (to_float 50) (to_float 20))
       (to_float 50) = "Partially Paid".
Proof. repeat split. Qed.

(** C3 (amended).  Recomputing the payment status of a stored order whose
    deposit reads as a number goes through and classifies three ways, the
    first test that holds deciding, in float arithmetic.
    [payment_status] is "Paid" when the total equals what was paid,
    "UnPaid" when what was paid equals 0, "Partially Paid" otherwise.
    [security_deposit_status] is "Paid" when the outstanding amount, the
    deposit minus the float sum of the deposits received, equals 0,
    "Unpaid" when the outstanding amount equals the deposit,
    "Partially Paid" otherwise.  At the boundaries: with nothing received
    the deposit is "Unpaid", or "Paid" when no deposit is due; a deposit
    received in one entry of its amount is "Paid". *)
Theorem payment_classification (ext : Collaborators) (docname : string)
    (db : DB) (so : SalesOrder.t) (deposit : Q) :
  let total := SalesOrder.rounded_total so in
  let paid := SalesOrder.advance_paid so in
  let due := to_float deposit in
  let came_in :=
    py_sum (List.map (fun je => to_float (JournalEntry.total_debit je))
              (deposit_entries docname db)) in
  let outstanding := fsub due came_in in
  tabSalesOrder db !! docname = Some so ->
  float_of ext (SalesOrder.security_deposit so) = Ok deposit ->
  (exists db1 so1,
     request (validate_and_update_payment_status docname) db
     = (Ok (fsub total paid), db1)
     /\ tabSalesOrder db1 !! docname = Some so1
     /\ SalesOrder.balance_amount so1 = fsub total paid
     /\ SalesOrder.payment_status so1
        = (if feqb total paid then "Paid"
           else if feqb paid fzero then "UnPaid"
           else "Partially Paid"))
  /\ (exists db2 so2,
        request
          (validate_and_update_payment_and_security_deposit_status ext docname)
          db
        = (Ok true, db2)
        /\ tabSalesOrder db2 !! docname = Some so2
        /\ SalesOrder.payment_status so2
           = (if feqb total paid then "Paid"
              else if feqb paid fzero then "UnPaid"
              else "Partially Paid")
        /\ SalesOrder.paid_security_deposite_amount so2 = came_in
        /\ SalesOrder.outstanding_security_deposit_amount so2 = outstanding
        /\ SalesOrder.security_deposit_status so2
           = (if feqb outstanding fzero then "Paid"
              else if feqb outstanding due then "Unpaid"
              else "Partially Paid")
        /\ (deposit_entries docname db = [] ->
            feqb due due = true ->
            SalesOrder.security_deposit_status so2
            = if feqb due fzero then "Paid" else "Unpaid")
        /\ (forall je s m e,
              deposit_entries docname db = [je] ->
              to_float (JournalEntry.total_debit je) = S754_finite s m e ->
              due = S754_finite s m e ->
              SalesOrder.security_deposit_status so2 = "Paid")).
Proof.
  cbv zeta. intros Hso Hdep. split.
  - unfold request, validate_and_update_payment_status, get_doc_SalesOrder,
      save_SalesOrder.
    mstep. rewrite Hso. simpl.
    eexists _, _. split; [reflexivity|]. simpl.
    rewrite lookup_insert_eq. repeat split.
  - unfold request, validate_and_update_payment_and_security_deposit_status,
      get_doc_SalesOrder, save_SalesOrder, py_float, total_debit_sum.
    mstep. rewrite Hso. simpl. rewrite Hdep. simpl.
    eexists _, _. split; [reflexivity|]. simpl.
    rewrite lookup_insert_eq. split; [reflexivity|]. simpl.
    split; [reflexivity|]. split; [reflexivity|]. split; [reflexivity|].
    split; [reflexivity|]. split.
    + intros -> Hnum. unfold security_deposit_status_of. simpl.
      change (py_sum []) with fzero. rewrite fsub_zero_r, Hnum. reflexivity.
    + intros je s m e -> Hje Hdue. unfold security_deposit_status_of.
      unfold py_sum. cbn [List.map fold_left].
      rewrite Hje, Hdue, fadd_zero_l, fsub_diag.
      reflexivity.
Qed.

Lemma payment_classification_witness :
  exists db2 so2,
    request
      (validate_and_update_payment_and_security_deposit_status quiet "SO-0006")
      unpaid_db
    = (Ok true, db2)
    /\ tabSalesOrder db2 !! "SO-0006" = Some so2
    /\ SalesOrder.payment_status so2
       = (if feqb (to_float 100) fzero then "Paid"
          else if feqb fzero fzero then "UnPaid"
          else "Partially Paid")
    /\ SalesOrder.security_deposit_status so2
       = (if feqb (fsub (to_float 50) (fadd fzero (to_float 20))) fzero
          then "Paid"
          else if feqb (fsub (to_float 50) (fadd fzero (to_float 20)))
                    (to_float 50)
          then "Unpaid"
          else "Partially Paid").
Proof.
  destruct (payment_classification quiet "SO-0006" unpaid_db unpaid_order 50
              eq_refl eq_refl)
    as (_ & db2 & so2 & Hrun & Hso2 & Hpay & _ & _ & Hdep & _).
  exists db2, so2. split; [exact Hrun|]. split; [exact Hso2|].
  split; [exact Hpay|exact Hdep].
Defined.

(** C3 as stated fails on the label: with nothing paid on a total of 100
    the recomputed [payment_status] is "UnPaid", which is not the
    "Unpaid" of the claim; the deposit, of which 20 of 50 came in, is
    "Partially Paid". *)
Lemma payment_status_label_is_UnPaid :
  exists db' so',
    request
      (validate_and_update_payment_and_security_deposit_status quiet "SO-0006")
      unpaid_db
    = (Ok true, db')
    /\ tabSalesOrder db' !! "SO-0006" = Some so'
    /\ SalesOrder.payment_status so' = "UnPaid"
    /\ SalesOrder.payment_status so' <> three_way "Unpaid" 100 0
    /\ SalesOrder.security_deposit_status so' = "Partially Paid".
Proof.
  eexists _, _. split; [vm_compute; reflexivity|].
  split; [reflexivity|]. split; [reflexivity|].
  split; [vm_compute; discriminate|reflexivity].
Qed.

(** The deposit tests are taken on floats, and the second of them on the
    outstanding amount: a deposit of 0.3 received as 0.1 and 0.2 is
    "Partially Paid", the float sum being above 0.3, where the
    classification on exact amounts says "Paid"; a deposit of 10^16 of
    which 0.5 came in is "Unpaid", the difference rounding to the deposit,
    where it says "Partially Paid". *)
Example deposit_status_on_floats :
  (exists db' so',
     request
       (validate_and_update_payment_and_security_deposit_status quiet
          "SO-0015") tenths_db
     = (Ok true, db')
     /\ tabSalesOrder db' !! "SO-0015" = Some so'
     /\ SalesOrder.security_deposit_status so' = "Partially Paid"
     /\ three_way "Unpaid" (3 # 10) ((1 # 10) + (2 # 10)) = "Paid")
  /\ (exists db' so',
        request
          (validate_and_update_payment_and_security_deposit_status quiet
             "SO-0016") large_deposit_db
        = (Ok true, db')
        /\ tabSalesOrder db' !! "SO-0016" = Some so'
        /\ SalesOrder.security_deposit_status so' = "Unpaid"
        /\ three_way "Unpaid" (10000000000000000 # 1) (1 # 2)
           = "Partially Paid").
Proof.
  split; eexists _, _; (split; [vm_compute; reflexivity|]);
    repeat split.
Qed.

(** ** Payments *)

Section ProcessPayment.

Variable ext : Collaborators.

(** [float(v) if v else 0] gives the number that [float(v)] gave. *)
Lemma float_if_truthy (v : pynum) (x : Q) (t : txn) :
  float_of ext v = Ok x ->
  exists x',
    (if truthy_num v then py_float ext v else mret 0%Q) t = (Ok x', t)
    /\ (x' == x)%Q.
Proof.
  intros Hv. unfold py_float. destruct v as [|y|s]; simpl in *.
  - discriminate.
  - inversion Hv. subst y.
    destruct (Qeq_bool x 0) eqn:E; simpl.
    + exists 0%Q. split; [reflexivity|].
      apply Qeq_bool_iff in E. now symmetry.
    + exists x. split; reflexivity.
  - unfold truthy_str. destruct (String.eqb s "") eqn:E; [discriminate|].
    simpl. rewrite Hv. exists x. split; reflexivity.
Qed.

Ltac Qtests :=
  repeat match goal with
  | H : Qltb _ _ = true |- _ => apply Qltb_lt in H
  | H : Qltb _ _ = false |- _ => apply Qltb_ge in H
  end.

(** C7.  A call of [process_payment] with a negative rental or deposit
    amount, or with a deposit amount above the outstanding deposit or a
    rental amount above the balance, raises, and raises before anything
    is written: the state it leaves is the state it found, with no new
    Journal Entry and no new Payment Entry. *)
Theorem process_payment_rejects
    (balance_amount outstanding_security_deposit_amount : pynum)
    (rental_payment_amount security_deposit_payment_amount : pynum)
    (a : PaymentArgs) (t : txn) :
  ((exists r, float_of ext rental_payment_amount = Ok r /\ (r < 0)%Q)
   \/ (exists d, float_of ext security_deposit_payment_amount = Ok d
                 /\ (d < 0)%Q)
   \/ (exists d o,
         float_of ext security_deposit_payment_amount = Ok d
         /\ float_of ext outstanding_security_deposit_amount = Ok o
         /\ (o < d)%Q)
   \/ (exists r b,
         float_of ext rental_payment_amount = Ok r
         /\ float_of ext balance_amount = Ok b
         /\ (b < r)%Q)) ->
  exists e,
    process_payment ext balance_amount outstanding_security_deposit_amount
      rental_payment_amount security_deposit_payment_amount a t
    = (Raise e, t).
Proof.
  intros Hbad. unfold process_payment, try_except.
  rewrite bind_run. unfold py_float at 1.
  destruct (float_of ext balance_amount) as [b|eb] eqn:Hb; [|eauto].
  rewrite bind_run. unfold py_float at 1.
  destruct (float_of ext outstanding_security_deposit_amount) as [o|eo]
    eqn:Ho; [|eauto].
  rewrite bind_run. unfold py_float at 1.
  destruct (float_of ext rental_payment_amount) as [r|er] eqn:Hr; [|eauto].
  rewrite bind_run.
  destruct (Qltb r 0) eqn:Hrneg; [unfold mret, M_ret, throw, raise; eauto|].
  rewrite bind_run. unfold py_float at 1.
  destruct (float_of ext security_deposit_payment_amount) as [d|ed] eqn:Hd;
    [|eauto].
  unfold mret at 1, M_ret at 1.
  destruct (Qltb d 0) eqn:Hdneg; [unfold throw, raise; eauto|].
  destruct (Qltb b 0 || Qltb o 0) eqn:Hbal; [unfold throw, raise; eauto|].
  apply orb_false_iff in Hbal as [Hbneg Honeg].
  destruct (float_if_truthy rental_payment_amount r t Hr) as (r' & Hr' & Er).
  destruct (float_if_truthy security_deposit_payment_amount d t Hd)
    as (d' & Hd' & Ed).
  rewrite bind_run, Hr', bind_run, Hd'.
  assert (Hfalse : ((r < 0) \/ (d < 0) \/ (o < d) \/ (b < r))%Q).
  { destruct Hbad as [(r0 & H1 & H2)|[(d0 & H1 & H2)|[(d0 & o0 & H1 & H2 & H3)
                     |(r0 & b0 & H1 & H2 & H3)]]];
      inversion H1; try inversion H2; subst; auto. }
  clear Hbad. Qtests.
  destruct (Qltb 0 d' && Qltb 0 r') eqn:Hboth.
  - apply andb_true_iff in Hboth as [Hd0 Hr0].
    destruct (Qltb o d') eqn:Hod; [unfold throw, raise; eauto|].
    destruct (Qltb b r') eqn:Hbr; [unfold throw, raise; eauto|].
    Qtests. exfalso. lra.
  - destruct (Qltb 0 d') eqn:Hd0.
    + destruct (Qltb o d') eqn:Hod; [unfold throw, raise; eauto|].
      simpl in Hboth. Qtests. exfalso. lra.
    + destruct (Qltb 0 r') eqn:Hr0.
      * destruct (Qltb b r') eqn:Hbr; [unfold throw, raise; eauto|].
        Qtests. exfalso. lra.
      * Qtests. exfalso. lra.
Qed.

End ProcessPayment.

Lemma process_payment_rejects_witness :
  exists e,
    process_payment quiet (PNum 100) (PNum 30) (PNum 150) (PNum 10)
      payment_args (mktxn unpaid_db unpaid_db)
    = (Raise e, mktxn unpaid_db unpaid_db).
Proof.
  apply (process_payment_rejects quiet (PNum 100) (PNum 30) (PNum 150)
           (PNum 10) payment_args (mktxn unpaid_db unpaid_db)).
  right. right. right. exists 150%Q, 100%Q.
  split; [reflexivity|]. split; reflexivity.
Defined.

(** Amounts within bounds do create the two entries. *)
Example process_payment_creates_entries :
  exists db',
    request
      (process_payment quiet (PNum 100) (PNum 30) (PNum 50) (PNum 10)
         payment_args) unpaid_db
    = (Ok true, db')
    /\ length (tabJournalEntry db') = 2%nat
    /\ length (tabPaymentEntry db') = 1%nat.
Proof. eexists. repeat split; vm_compute; reflexivity. Qed.

(** ** Pick List *)

Lemma validate_loop_passes (source_name : string)
    (items : list SalesOrderItem.t) (t : txn) :
  (forall item, In item items ->
     ~ (0 < SalesOrderItem.stock_reserved_qty item)%Q) ->
  for_each items (fun item =>
    if Qltb 0 (SalesOrderItem.stock_reserved_qty item)
    then throw (reserved_stock_message source_name)
    else mret tt) t
  = (Ok tt, t).
Proof.
  induction items as [|item items IH]; intros Hno; [reflexivity|].
  cbn [for_each]. rewrite bind_run.
  destruct (Qltb 0 (SalesOrderItem.stock_reserved_qty item)) eqn:E.
  - apply Qltb_lt in E. exfalso. now apply (Hno item (or_introl eq_refl)).
  - simpl. apply IH. intros q Hq. apply Hno. now right.
Qed.

Lemma validate_loop_throws (source_name : string)
    (items : list SalesOrderItem.t) (t : txn) :
  (exists item, In item items
                /\ (0 < SalesOrderItem.stock_reserved_qty item)%Q) ->
  for_each items (fun item =>
    if Qltb 0 (SalesOrderItem.stock_reserved_qty item)
    then throw (reserved_stock_message source_name)
    else mret tt) t
  = (Raise (ValidationError (reserved_stock_message source_name)), t).
Proof.
  induction items as [|item items IH]; intros (x & Hin & Hx); [destruct Hin|].
  cbn [for_each]. rewrite bind_run.
  destruct (Qltb 0 (SalesOrderItem.stock_reserved_qty item)) eqn:E.
  - reflexivity.
  - simpl. apply IH. destruct Hin as [<-|Hin].
    + apply Qltb_ge in E. exfalso. lra.
    + eauto.
Qed.

Lemma map_packed_items_state (items : list SalesOrderItem.t)
    (packed : list PackedItem.t) (t : txn) :
  snd (map_packed_items items packed t) = t.
Proof.
  induction packed as [|p packed IH]; [reflexivity|].
  cbn [map_packed_items]. rewrite bind_run.
  unfold update_packed_item_qty.
  destruct (find_row _ items) as [item|]; simpl.
  - destruct (Qeq_bool (SalesOrderItem.qty item) 0); simpl; [reflexivity|].
    rewrite bind_run.
    destruct (map_packed_items items packed t) as [[more|e] t'] eqn:E;
      simpl in IH; subst; reflexivity.
  - rewrite bind_run.
    destruct (map_packed_items items packed t) as [[more|e] t'] eqn:E;
      simpl in IH; subst; reflexivity.
Qed.

Lemma map_packed_items_ok (items : list SalesOrderItem.t)
    (packed : list PackedItem.t) (t : txn) :
  (forall p item,
     In p packed ->
     find_row (PackedItem.parent_detail_docname p) items = Some item ->
     ~ (SalesOrderItem.qty item == 0)%Q) ->
  exists rows, map_packed_items items packed t = (Ok rows, t).
Proof.
  induction packed as [|p packed IH]; intros Hq.
  - exists []. reflexivity.
  - destruct IH as [more Hmore].
    { intros q item Hin. apply Hq. now right. }
    cbn [map_packed_items]. rewrite bind_run.
    unfold update_packed_item_qty.
    destruct (find_row _ items) as [item|] eqn:Hf; simpl.
    + destruct (Qeq_bool (SalesOrderItem.qty item) 0) eqn:E.
      * apply Qeq_bool_iff in E. exfalso.
        now apply (Hq p item (or_introl eq_refl) Hf).
      * simpl. rewrite bind_run, Hmore. eauto.
    + rewrite bind_run, Hmore. eauto.
Qed.

Lemma map_packed_items_rows (items : list SalesOrderItem.t)
    (packed : list PackedItem.t) (t : txn) :
  (forall p item,
     In p packed ->
     find_row (PackedItem.parent_detail_docname p) items = Some item ->
     ~ (SalesOrderItem.qty item == 0)%Q) ->
  exists rows,
    map_packed_items items packed t = (Ok rows, t)
    /\ Forall2 (packed_row items) packed rows.
Proof.
  induction packed as [|p packed IH]; intros Hq.
  - exists []. split; [reflexivity|constructor].
  - destruct IH as (more & Hmore & Hrows).
    { intros q item Hin. apply Hq. now right. }
    cbn [map_packed_items]. rewrite bind_run.
    unfold update_packed_item_qty.
    destruct (find_row _ items) as [item|] eqn:Hf; simpl.
    + destruct (Qeq_bool (SalesOrderItem.qty item) 0) eqn:E.
      * apply Qeq_bool_iff in E. exfalso.
        now apply (Hq p item (or_introl eq_refl) Hf).
      * simpl. rewrite bind_run, Hmore. eexists. split; [reflexivity|].
        constructor; [|exact Hrows].
        unfold packed_row. rewrite Hf. simpl. auto.
    + rewrite bind_run, Hmore. eexists. split; [reflexivity|].
      constructor; [|exact Hrows].
      unfold packed_row. rewrite Hf. simpl. auto.
Qed.

Lemma map_packed_items_zero (items : list SalesOrderItem.t)
    (packed : list PackedItem.t) (t : txn) :
  (exists p item,
     In p packed
     /\ find_row (PackedItem.parent_detail_docname p) items = Some item
     /\ (SalesOrderItem.qty item == 0)%Q) ->
  map_packed_items items packed t = (Raise ZeroDivisionError, t).
Proof.
  induction packed as [|p0 packed IH]; intros (p & item & Hin & Hf & Hz);
    [destruct Hin|].
  cbn [map_packed_items]. rewrite bind_run.
  unfold update_packed_item_qty.
  destruct (find_row (PackedItem.parent_detail_docname p0) items)
    as [item0|] eqn:Hf0; simpl.
  - destruct (Qeq_bool (SalesOrderItem.qty item0) 0) eqn:E; [reflexivity|].
    simpl. rewrite bind_run, IH; [reflexivity|].
    destruct Hin as [->|Hin].
    + rewrite Hf in Hf0. inversion Hf0. subst item0.
      apply Qeq_bool_iff in Hz. congruence.
    + eauto.
  - rewrite bind_run, IH; [reflexivity|].
    destruct Hin as [->|Hin]; [congruence|eauto].
Qed.

Lemma map_packed_items_inv (items : list SalesOrderItem.t)
    (packed : list PackedItem.t) (t t' : txn) (rows : list PickListItem.t) :
  map_packed_items items packed t = (Ok rows, t') ->
  Forall2 (packed_row items) packed rows.
Proof.
  revert rows. induction packed as [|p packed IH]; intros rows.
  - intros H. inversion H. constructor.
  - cbn [map_packed_items]. rewrite bind_run.
    pose proof (map_packed_items_state items packed t) as Hst.
    unfold update_packed_item_qty.
    destruct (find_row _ items) as [item|] eqn:Hf; simpl.
    + destruct (Qeq_bool (SalesOrderItem.qty item) 0) eqn:E; simpl;
        [discriminate|].
      rewrite bind_run.
      destruct (map_packed_items items packed t) as [[more|e] t1] eqn:Hm;
        [|discriminate].
      simpl in Hst. subst t1.
      intros H. inversion H. subst. constructor.
      * unfold packed_row. rewrite Hf. simpl. auto.
      * now apply IH.
    + rewrite bind_run.
      destruct (map_packed_items items packed t) as [[more|e] t1] eqn:Hm;
        [|discriminate].
      simpl in Hst. subst t1.
      intros H. inversion H. subst. constructor.
      * unfold packed_row. rewrite Hf. simpl. auto.
      * now apply IH.
Qed.

(** The lines that [should_pick_order_item] lets through are those not
    yet delivered in full, not drop-shipped, and no bundle parent. *)
Lemma should_pick_order_item_spec (db : DB) (l : SalesOrderItem.t) :
  should_pick_order_item db l
  = undeliveredb l
    && negb (is_product_bundle db (SalesOrderItem.item_code l)).
Proof. reflexivity. Qed.

Lemma picked_lines_spec (db : DB) (lines : list SalesOrderItem.t)
    (l : SalesOrderItem.t) :
  In l (List.filter
          (fun l => undeliveredb l
                    && negb (is_product_bundle db (SalesOrderItem.item_code l)))
          lines)
  <-> In l lines /\ undelivered l
      /\ is_product_bundle db (SalesOrderItem.item_code l) = false.
Proof.
  rewrite filter_In, andb_true_iff, negb_true_iff.
  unfold undeliveredb, undelivered.
  rewrite andb_true_iff, Qltb_lt, negb_true_iff, Z.eqb_neq. tauto.
Qed.

(** The draft of a Pick List for a submitted order without reserved
    stock none of whose bundle lines has quantity zero. *)
Lemma create_pick_list_draft_run (source_name : string)
    (target_doc : option PickList.t) (db : DB) (so : SalesOrder.t) :
  tabSalesOrder db !! source_name = Some so ->
  SalesOrder.docstatus so = 1%Z ->
  (forall item, In item (items_of db source_name) ->
     ~ (0 < SalesOrderItem.stock_reserved_qty item)%Q) ->
  (forall p item,
     In p (packed_items_of db source_name) ->
     find_row (PackedItem.parent_detail_docname p)
       (items_of db source_name) = Some item ->
     ~ (SalesOrderItem.qty item == 0)%Q) ->
  exists rows,
    create_pick_list_draft source_name target_doc (mktxn db db)
    = (Ok (PickList.mk "Delivery"
             (match target_doc with
              | Some d => PickList.locations d
              | None => []
              end
              ++ List.map update_item_quantity
                   (List.filter
                      (fun l =>
                         undeliveredb l
                         && negb (is_product_bundle db
                                    (SalesOrderItem.item_code l)))
                      (items_of db source_name))
              ++ rows)%list),
       mktxn db db)
    /\ Forall2 (packed_row (items_of db source_name))
         (packed_items_of db source_name) rows.
Proof.
  intros Hso Hdoc Hno Hq. apply Z.eqb_eq in Hdoc.
  destruct (map_packed_items_rows (items_of db source_name)
              (packed_items_of db source_name) (mktxn db db) Hq)
    as (rows & Hrun & Hrows).
  exists rows. split; [|exact Hrows].
  unfold create_pick_list_draft, validate_sales_order,
    get_doc_SalesOrder, get_mapped_source.
  rewrite !bind_run. unfold get_db at 1. cbn [working].
  rewrite Hso. unfold mret at 1, M_ret at 1.
  rewrite bind_run. unfold get_db at 1. cbn [working].
  rewrite (validate_loop_passes source_name _ _ Hno).
  unfold get_doc_SalesOrder. mstep. rewrite Hso. simpl.
  rewrite Hdoc. simpl. now rewrite Hrun.
Qed.

(** C8.  For a stored order: when a line has reserved stock,
    [create_pick_list] raises the reserved-stock error and leaves the
    database as it was, no draft being built.  When no line has, the order
    is submitted and no bundle line of a packed item has quantity zero,
    the call is [set_item_locations] on the draft whose rows are, after
    those of the target document, one row for each line of the order that
    is not yet delivered in full, not drop-shipped and no bundle parent,
    in the order of the lines, and then one row for each packed item; so
    no line that is a bundle parent has a row.  And whatever Pick List
    comes out of a call was made from such a draft. *)
Theorem create_pick_list_guard (ext : Collaborators) (source_name : string)
    (target_doc : option PickList.t) (db : DB) (so : SalesOrder.t) :
  let lines := items_of db source_name in
  let existing :=
    match target_doc with
    | Some d => PickList.locations d
    | None => []
    end in
  let picked :=
    List.filter
      (fun l => undeliveredb l
                && negb (is_product_bundle db (SalesOrderItem.item_code l)))
      lines in
  tabSalesOrder db !! source_name = Some so ->
  ((exists item, In item lines
                 /\ (0 < SalesOrderItem.stock_reserved_qty item)%Q) ->
   request (create_pick_list ext source_name target_doc) db
   = (Raise (ValidationError (reserved_stock_message source_name)), db))
  /\ (forall l, In l picked <->
        In l lines /\ undelivered l
        /\ is_product_bundle db (SalesOrderItem.item_code l) = false)
  /\ (forall l, In l lines ->
        is_product_bundle db (SalesOrderItem.item_code l) = true ->
        ~ In l picked)
  /\ ((forall item, In item lines ->
         ~ (0 < SalesOrderItem.stock_reserved_qty item)%Q) ->
      (SalesOrder.docstatus so = 1%Z ->
       (forall p item,
          In p (packed_items_of db source_name) ->
          find_row (PackedItem.parent_detail_docname p) lines = Some item ->
          ~ (SalesOrderItem.qty item == 0)%Q) ->
       exists packed_rows,
         Forall2 (packed_row lines) (packed_items_of db source_name)
           packed_rows
         /\ request (create_pick_list ext source_name target_doc) db
            = (set_item_locations ext
                 (PickList.mk "Delivery"
                    (existing ++ List.map update_item_quantity picked
                     ++ packed_rows)%list) db,
               db))
      /\ (forall pl db',
            request (create_pick_list ext source_name target_doc) db
            = (Ok pl, db') ->
            db' = db
            /\ exists packed_rows,
                 Forall2 (packed_row lines) (packed_items_of db source_name)
                   packed_rows
                 /\ set_item_locations ext
                      (PickList.mk "Delivery"
                         (existing ++ List.map update_item_quantity picked
                          ++ packed_rows)%list) db
                    = Ok pl)).
Proof.
  cbv zeta. intros Hso. split; [|split; [|split]].
  - intros Hres.
    unfold request, create_pick_list, create_pick_list_draft,
      validate_sales_order, get_doc_SalesOrder.
    rewrite !bind_run. unfold get_db at 1. cbn [working].
    rewrite Hso. unfold mret at 1, M_ret at 1.
    rewrite bind_run. unfold get_db at 1. cbn [working].
    now rewrite (validate_loop_throws source_name _ _ Hres).
  - intros l. apply picked_lines_spec.
  - intros l _ Hb Hl. apply picked_lines_spec in Hl as (_ & _ & Hn).
    congruence.
  - intros Hno. split.
    + intros Hdoc Hq.
      destruct (create_pick_list_draft_run source_name target_doc db so
                  Hso Hdoc Hno Hq) as (rows & Hrun & Hrows).
      exists rows. split; [exact Hrows|].
      unfold request, create_pick_list. rewrite bind_run, Hrun.
      unfold call. cbn [working durable].
      destruct (set_item_locations ext _ db); reflexivity.
    + intros pl db'.
      unfold request, create_pick_list, create_pick_list_draft,
        validate_sales_order, get_doc_SalesOrder, get_mapped_source.
      rewrite !bind_run. unfold get_db at 1. cbn [working].
      rewrite Hso. unfold mret at 1, M_ret at 1.
      rewrite bind_run. unfold get_db at 1. cbn [working].
      rewrite (validate_loop_passes source_name _ _ Hno).
      unfold get_doc_SalesOrder. mstep. rewrite Hso. simpl.
      destruct (Z.eqb (SalesOrder.docstatus so) 1); simpl; [|discriminate].
      pose proof (map_packed_items_state (items_of db source_name)
                    (packed_items_of db source_name) (mktxn db db)) as Hst.
      destruct (map_packed_items _ _ _) as [[packed|e] t'] eqn:Hm;
        simpl in Hst; subst t'; simpl; [|discriminate].
      apply map_packed_items_inv in Hm.
      destruct (set_item_locations ext _ db) as [pl'|e] eqn:Hloc;
        [|discriminate].
      intros H. inversion H. subst pl' db'. clear H.
      split; [reflexivity|]. exists packed. split; [exact Hm|exact Hloc].
Qed.

Lemma create_pick_list_guard_witness :
  request (create_pick_list quiet "SO-0008" None) reserved_db
  = (Raise (ValidationError (reserved_stock_message "SO-0008")), reserved_db)
  /\ exists packed_rows,
       Forall2 (packed_row (items_of bundle_db "SO-0009"))
         (packed_items_of bundle_db "SO-0009") packed_rows
       /\ request (create_pick_list quiet "SO-0009" None) bundle_db
          = (set_item_locations quiet
               (PickList.mk "Delivery"
                  ([] ++ List.map update_item_quantity
                           (List.filter
                              (fun l =>
                                 undeliveredb l
                                 && negb (is_product_bundle bundle_db
                                            (SalesOrderItem.item_code l)))
                              (items_of bundle_db "SO-0009"))
                   ++ packed_rows)%list) bundle_db,
             bundle_db).
Proof.
  split.
  - apply (create_pick_list_guard quiet "SO-0008" None reserved_db
             (order "To Deliver and Bill" "" NoDate NoDate) eq_refl).
    exists (SalesOrderItem.mk "L12" "SO-0008" "ITEM-B" 2 100 100 0 0 1 2 0 ""
              "" "" "" "").
    split; [right; left; reflexivity|reflexivity].
  - apply (create_pick_list_guard quiet "SO-0009" None bundle_db
             (order "To Deliver and Bill" "" NoDate NoDate) eq_refl).
    + intros item [<-|[<-|[]]]; simpl; intros H; discriminate H.
    + reflexivity.
    + intros p item [<-|[]]. simpl. intros H. inversion H. subst item.
      simpl. intros H0. discriminate H0.
Defined.

(** A bundle line is left out of the Pick List; its packed item and the
    plain line are in. *)
Example create_pick_list_bundle :
  exists pl,
    request (create_pick_list quiet "SO-0009" None) bundle_db
    = (Ok pl, bundle_db)
    /\ List.map PickListItem.item_code (PickList.locations pl)
       = ["ITEM-A"; "PART-1"].
Proof. eexists. split; vm_compute; reflexivity. Qed.

(** ** Remaining quantities *)



(** On that order the line of 5, of which 3 were requested, is mapped
    with 2 and its bundle's packed item, of which 6 of 4 were delivered,
    with -2; the quantities are the rows' own. *)
Example remaining_qty_rows :
  exists doc,
    request (make_material_request "SO-0012" None) requested_db
    = (Ok doc, requested_db)
    /\ List.map (fun r => Qred (MaterialRequestRow.qty r))
         (MaterialRequest.items doc)
       = [2%Q; (-2)%Q].
Proof. eexists. split; vm_compute; reflexivity. Qed.


(** ** Delivery Note *)

Lemma undeliveredb_spec (l : SalesOrderItem.t) :
  undeliveredb l = true <-> undelivered l.
Proof.
  unfold undeliveredb, undelivered.
  rewrite andb_true_iff, Qltb_lt, negb_true_iff, Z.eqb_neq. tauto.
Qed.

(** Without reserved rows and date filters [condition] is the plain
    test on the quantities and the drop-ship flag. *)
Lemma dn_condition_plain (fl : Flags.t) (doc : SalesOrderItem.t) :
  no_date_filters fl ->
  dn_condition fl ∅ doc = (undeliveredb doc, ∅).
Proof.
  unfold no_date_filters, dn_condition. intros Hfl.
  destruct (decide (SalesOrderItem.name doc ∈ (∅ : gset string))) as [Hin|_];
    [set_solver|].
  destruct (Flags.args fl) as [a|]; [destruct Hfl as [-> ->]|]; reflexivity.
Qed.

Lemma dn_map_items_plain (fl : Flags.t) (rows : list SalesOrderItem.t) :
  no_date_filters fl ->
  dn_map_items fl ∅ rows
  = (List.map dn_update_item (List.filter undeliveredb rows), ∅).
Proof.
  intros Hfl. induction rows as [|doc rows IH]; [reflexivity|].
  simpl. rewrite (dn_condition_plain fl doc Hfl), IH.
  destruct (undeliveredb doc); reflexivity.
Qed.

(** C4 (amended).  For a submitted order, with no delivery-date filter,
    no reserved-stock selection and the item mapping not skipped: the rows
    that [make_delivery_note] adds to the draft it hands to
    [set_missing_values] are those of the lines [l] of the order with
    [|delivered_qty| < |qty|] and [delivered_by_supplier <> 1], a line
    being among them if and only if it passes that test; each such row has
    [qty = qty l - delivered_qty l] and
    [amount = (qty l - delivered_qty l) * rate l]. *)
Theorem make_delivery_note_lines (ext : Collaborators) (fl : Flags.t)
    (source_name : string) (target_doc : option DeliveryNote.t)
    (kwargs : option Kwargs.t) (db : DB) (so : SalesOrder.t) :
  tabSalesOrder db !! source_name = Some so ->
  SalesOrder.docstatus so = 1%Z ->
  no_date_filters fl ->
  Kwargs.for_reserved_stock (default_kwargs fl kwargs) = false ->
  Kwargs.skip_item_mapping (default_kwargs fl kwargs) = false ->
  exists included,
    (forall l, In l included <->
               In l (items_of db source_name) /\ undelivered l)
    /\ (let items :=
          (match target_doc with
           | Some d => DeliveryNote.items d
           | None => []
           end ++ List.map dn_update_item included)%list in
        make_delivery_note_draft ext fl source_name target_doc kwargs
          (mktxn db db)
        = (Ok (if Flags.bulk_transaction fl
                  && match items with [] => true | _ => false end
               then None else Some (DeliveryNote.mk items)),
           mktxn db db))
    /\ (forall row, In row (List.map dn_update_item included) ->
          exists l,
            In l included
            /\ DeliveryNoteItem.so_detail row = SalesOrderItem.name l
            /\ DeliveryNoteItem.qty row
               = (SalesOrderItem.qty l - SalesOrderItem.delivered_qty l)%Q
            /\ DeliveryNoteItem.amount row
               = ((SalesOrderItem.qty l - SalesOrderItem.delivered_qty l)
                  * SalesOrderItem.rate l)%Q).
Proof.
  intros Hso Hdoc Hfl Hres Hskip.
  exists (List.filter undeliveredb (items_of db source_name)).
  split; [|split].
  - intros l. rewrite filter_In, undeliveredb_spec. tauto.
  - apply Z.eqb_eq in Hdoc.
    unfold make_delivery_note_draft, get_mapped_source, get_doc_SalesOrder.
    mstep. rewrite Hres, Hskip, Hso. simpl. rewrite Hso. simpl.
    rewrite Hdoc. simpl.
    rewrite (dn_map_items_plain fl _ Hfl). simpl.
    rewrite app_nil_r.
    destruct (Flags.bulk_transaction fl && _); reflexivity.
  - intros row Hrow. apply in_map_iff in Hrow as (l & <- & Hl).
    exists l. repeat split. exact Hl.
Qed.

Lemma make_delivery_note_lines_witness :
  exists included,
    (forall l, In l included <->
               In l (items_of delivery_db "SO-0010") /\ undelivered l)
    /\ make_delivery_note_draft quiet no_flags "SO-0010" None None
         (mktxn delivery_db delivery_db)
       = (Ok (Some (DeliveryNote.mk (List.map dn_update_item included))),
          mktxn delivery_db delivery_db)
    /\ (forall row, In row (List.map dn_update_item included) ->
          exists l,
            In l included
            /\ DeliveryNoteItem.so_detail row = SalesOrderItem.name l
            /\ DeliveryNoteItem.qty row
               = (SalesOrderItem.qty l - SalesOrderItem.delivered_qty l)%Q
            /\ DeliveryNoteItem.amount row
               = ((SalesOrderItem.qty l - SalesOrderItem.delivered_qty l)
                  * SalesOrderItem.rate l)%Q).
Proof.
  exact (make_delivery_note_lines quiet no_flags "SO-0010" None None
           delivery_db (order "To Deliver and Bill" "" NoDate NoDate)
           eq_refl eq_refl I eq_refl eq_refl).
Defined.

(** The order of 10 units at 100: the Delivery Note has one row of
    quantity 10 and amount 1000. *)
Example make_delivery_note_ten_units :
  exists dn,
    request (make_delivery_note quiet no_flags "SO-0010" None None)
      delivery_db
    = (Ok (Some dn), delivery_db)
    /\ List.map DeliveryNoteItem.qty (DeliveryNote.items dn) = [10%Q]
    /\ List.map DeliveryNoteItem.amount (DeliveryNote.items dn) = [1000%Q].
Proof. eexists. repeat split; vm_compute; reflexivity. Qed.

(** C4 as stated fails: with the item mapping skipped, and neither a
    date filter nor a reserved-stock selection, a line of which nothing
    was delivered and which is not drop-shipped is not in the Delivery
    Note. *)
Lemma make_delivery_note_skips_items :
  (forall l, In l (items_of delivery_db "SO-0010") -> undelivered l)
  /\ request
       (make_delivery_note quiet no_flags "SO-0010" None
          (Some (Kwargs.mk false true))) delivery_db
     = (Ok (Some (DeliveryNote.mk [])), delivery_db).
Proof.
  split; [|reflexivity].
  intros l [<-|[]]. split; [reflexivity|discriminate].
Qed.

(** * Further properties *)

(** ** Rewriting the rows of an order *)

Lemma existsb_eqb_In (n : string) (names : list string) :
  existsb (String.eqb n) names = true <-> In n names.
Proof.
  rewrite existsb_exists. split.
  - intros (x & Hx & E). apply String.eqb_eq in E. now subst.
  - intros H. exists n. split; [exact H|apply String.eqb_refl].
Qed.

Lemma update_named_names (f : SalesOrderItem.t -> SalesOrderItem.t)
    (names : list string) (rows : list SalesOrderItem.t) :
  (forall r, SalesOrderItem.name (f r) = SalesOrderItem.name r) ->
  List.map SalesOrderItem.name (update_named f names rows)
  = List.map SalesOrderItem.name rows.
Proof.
  intros Hf. unfold update_named. rewrite List.map_map.
  apply List.map_ext. intros r. destruct (existsb _ _); auto.
Qed.

Lemma load_save_row (f : SalesOrderItem.t -> SalesOrderItem.t)
    (n : string) (r : SalesOrderItem.t) (t : txn) :
  find_row n (tabSalesOrderItem (working t)) = Some r ->
  (d ← get_doc_SalesOrderItem n; save_SalesOrderItem (f d)) t
  = (Ok tt,
     mktxn (durable t)
       (set_tabSalesOrderItem
          (replace_row (f r) (tabSalesOrderItem (working t))) (working t))).
Proof.
  intros Hr. unfold get_doc_SalesOrderItem, save_SalesOrderItem.
  mstep. rewrite Hr. reflexivity.
Qed.

(** A loop that loads each row of [l] by name and saves it transformed
    rewrites exactly the rows named in [l]. *)
Lemma for_each_update_named (f : SalesOrderItem.t -> SalesOrderItem.t)
    (l : list SalesOrderItem.t) :
  (forall r, SalesOrderItem.name (f r) = SalesOrderItem.name r) ->
  forall t,
    List.NoDup (List.map SalesOrderItem.name (tabSalesOrderItem (working t))) ->
    (forall r, In r l -> In r (tabSalesOrderItem (working t))) ->
    List.NoDup (List.map SalesOrderItem.name l) ->
    for_each l (fun item =>
      d ← get_doc_SalesOrderItem (SalesOrderItem.name item);
      save_SalesOrderItem (f d)) t
    = (Ok tt,
       mktxn (durable t)
         (set_tabSalesOrderItem
            (update_named f (List.map SalesOrderItem.name l)
               (tabSalesOrderItem (working t)))
            (working t))).
Proof.
  intros Hf. induction l as [|r l IH]; intros t Hnd Hin Hl.
  - simpl. unfold update_named. simpl. rewrite List.map_id.
    destruct t as [dur w]. now destruct w.
  - apply List.NoDup_cons_iff in Hl as [Hfresh Hl].
    cbn [for_each]. rewrite bind_run.
    rewrite (load_save_row f _ r t
               (find_row_unique _ r Hnd (Hin r (or_introl eq_refl)))).
    assert (Hstep : replace_row (f r) (tabSalesOrderItem (working t))
                    = update_named f [SalesOrderItem.name r]
                        (tabSalesOrderItem (working t))).
    { unfold replace_row, update_named. apply map_ext_in. intros x Hx.
      simpl. rewrite Hf, orb_false_r.
      destruct (String.eqb (SalesOrderItem.name x) (SalesOrderItem.name r))
        eqn:E; [|reflexivity].
      apply String.eqb_eq in E.
      now rewrite (unique_name _ x r Hnd Hx (Hin r (or_introl eq_refl)) E). }
    assert (Hlist :
      update_named f (List.map SalesOrderItem.name l)
        (replace_row (f r) (tabSalesOrderItem (working t)))
      = update_named f (List.map SalesOrderItem.name (r :: l))
          (tabSalesOrderItem (working t))).
    { rewrite Hstep.
      unfold update_named. rewrite List.map_map. apply List.map_ext.
      intros x. simpl.
      destruct (String.eqb (SalesOrderItem.name x) (SalesOrderItem.name r))
        eqn:E; simpl; [|reflexivity].
      rewrite Hf.
      destruct (existsb _ (List.map SalesOrderItem.name l)) eqn:E2;
        [|reflexivity].
      exfalso. apply Hfresh. apply existsb_eqb_In in E2.
      apply String.eqb_eq in E. rewrite <- E. exact E2. }
    rewrite IH; cbn [working durable tabSalesOrderItem set_tabSalesOrderItem].
    + rewrite Hlist. reflexivity.
    + rewrite replace_row_names. exact Hnd.
    + intros q Hq. rewrite Hstep. unfold update_named.
      apply in_map_iff. exists q. split; [|apply Hin; now right].
      simpl. rewrite orb_false_r.
      destruct (String.eqb (SalesOrderItem.name q) (SalesOrderItem.name r))
        eqn:E; [|reflexivity].
      exfalso. apply Hfresh. apply String.eqb_eq in E. rewrite <- E.
      now apply in_map.
    + exact Hl.
Qed.

Lemma NoDup_map_filter {A B : Type} (g : A -> B) (p : A -> bool)
    (l : list A) :
  List.NoDup (List.map g l) -> List.NoDup (List.map g (List.filter p l)).
Proof.
  induction l as [|a l IH]; simpl; [auto|].
  intros H. apply List.NoDup_cons_iff in H as [Hfresh H].
  destruct (p a); simpl; auto.
  constructor; auto. intros Hin. apply Hfresh.
  apply in_map_iff in Hin as (x & Hx & Hin). apply in_map_iff.
  exists x. split; [exact Hx|]. now apply filter_In in Hin.
Qed.

(** With distinct names, the rows named like the rows of an order are
    the rows of that order. *)
Lemma update_named_rows_of (f : SalesOrderItem.t -> SalesOrderItem.t)
    (docname : string) (rows : list SalesOrderItem.t) :
  List.NoDup (List.map SalesOrderItem.name rows) ->
  update_named f (List.map SalesOrderItem.name (rows_of docname rows)) rows
  = update_rows_of f docname rows.
Proof.
  intros Hnd. unfold update_named, update_rows_of.
  apply map_ext_in. intros x Hx.
  destruct (String.eqb (SalesOrderItem.parent x) docname) eqn:P.
  - assert (H : existsb (String.eqb (SalesOrderItem.name x))
                  (List.map SalesOrderItem.name (rows_of docname rows)) = true).
    { apply existsb_eqb_In. apply in_map. unfold rows_of.
      apply filter_In. now split. }
    now rewrite H.
  - destruct (existsb _ _) eqn:E; [|reflexivity].
    apply existsb_eqb_In in E. apply in_map_iff in E as (y & Hn & Hy).
    unfold rows_of in Hy. apply filter_In in Hy as [Hy Hp].
    rewrite (unique_name _ y x Hnd Hy Hx Hn) in Hp. congruence.
Qed.

(** The loop over the rows of an order, as the handlers write it. *)
Lemma for_each_rows_of (f : SalesOrderItem.t -> SalesOrderItem.t)
    (docname : string) (dur w : DB) :
  (forall r, SalesOrderItem.name (f r) = SalesOrderItem.name r) ->
  names_unique w ->
  for_each (rows_of docname (tabSalesOrderItem w)) (fun item =>
    d ← get_doc_SalesOrderItem (SalesOrderItem.name item);
    save_SalesOrderItem (f d)) (mktxn dur w)
  = (Ok tt,
     mktxn dur
       (set_tabSalesOrderItem
          (update_rows_of f docname (tabSalesOrderItem w)) w)).
Proof.
  intros Hf Hnd. rewrite (for_each_update_named f _ Hf); simpl.
  - now rewrite update_named_rows_of.
  - exact Hnd.
  - intros r. apply rows_of_In.
  - unfold rows_of. now apply NoDup_map_filter.
Qed.

Lemma rows_of_update_same (f : SalesOrderItem.t -> SalesOrderItem.t)
    (docname : string) (rows : list SalesOrderItem.t) :
  (forall r, SalesOrderItem.parent (f r) = SalesOrderItem.parent r) ->
  rows_of docname (update_rows_of f docname rows)
  = List.map f (rows_of docname rows).
Proof.
  intros Hf. unfold rows_of, update_rows_of.
  induction rows as [|r rows IH]; [reflexivity|]. simpl.
  destruct (String.eqb (SalesOrderItem.parent r) docname) eqn:P; simpl.
  - rewrite Hf, P. simpl. now rewrite IH.
  - rewrite P. exact IH.
Qed.

Lemma rows_of_update_other (f : SalesOrderItem.t -> SalesOrderItem.t)
    (docname other : string) (rows : list SalesOrderItem.t) :
  (forall r, SalesOrderItem.parent (f r) = SalesOrderItem.parent r) ->
  other <> docname ->
  rows_of other (update_rows_of f docname rows) = rows_of other rows.
Proof.
  intros Hf Hne. unfold rows_of, update_rows_of.
  induction rows as [|r rows IH]; [reflexivity|]. simpl.
  destruct (String.eqb (SalesOrderItem.parent r) docname) eqn:P; simpl.
  - rewrite Hf. apply String.eqb_eq in P.
    assert (E : String.eqb (SalesOrderItem.parent r) other = false).
    { apply String.eqb_neq. congruence. }
    rewrite E. exact IH.
  - destruct (String.eqb (SalesOrderItem.parent r) other); [f_equal|];
      exact IH.
Qed.

(** ** Renewal: the predecessor *)

Lemma update_sales_order_status_run (self : SalesOrder.t) (dur w : DB) :
  names_unique w ->
  truthy_str (SalesOrder.previous_order_id self) = true ->
  update_sales_order_status self (mktxn dur w)
  = (Ok tt, mktxn dur (renewed_db (SalesOrder.previous_order_id self) w)).
Proof.
  intros Hnd Hid. unfold update_sales_order_status. rewrite Hid.
  set (prev := SalesOrder.previous_order_id self).
  rewrite bind_run. unfold get_list_SalesOrder at 1.
  rewrite bind_run. unfold get_db at 1, mret at 1, M_ret at 1.
  cbn [working durable]. rewrite bind_run.
  assert (Horders :
    for_each (match tabSalesOrder w !! prev with
              | Some _ => [prev]
              | None => []
              end) renew_order (mktxn dur w)
    = (Ok tt,
       mktxn dur
         (set_tabSalesOrder
            (alter (SalesOrder.set_status "RENEWED") prev (tabSalesOrder w))
            w))).
  { destruct (tabSalesOrder w !! prev) as [so|] eqn:Hso.
    - cbn [for_each]. unfold renew_order, get_doc_SalesOrder, save_SalesOrder.
      mstep. rewrite Hso. simpl. f_equal. f_equal. f_equal.
      apply map_eq. intros k. destruct (decide (prev = k)) as [<-|Hne].
      + now rewrite lookup_insert_eq, lookup_alter_eq, Hso.
      + now rewrite lookup_insert_ne, lookup_alter_ne by done.
    - simpl. unfold mret, M_ret. f_equal. f_equal.
      assert (E : alter (SalesOrder.set_status "RENEWED") prev (tabSalesOrder w)
                  = tabSalesOrder w).
      { apply map_eq. intros k. destruct (decide (prev = k)) as [<-|Hne].
        - now rewrite lookup_alter_eq, Hso.
        - now rewrite lookup_alter_ne by done. }
      rewrite E. now destruct w. }
  rewrite Horders. rewrite bind_run.
  unfold get_all_SalesOrderItem at 1.
  rewrite bind_run. unfold get_db at 1, mret at 1, M_ret at 1.
  cbn [working durable tabSalesOrderItem set_tabSalesOrder].
  unfold renew_row.
  exact (for_each_rows_of (SalesOrderItem.set_child_status "Renewed") prev dur
           (set_tabSalesOrder
              (alter (SalesOrder.set_status "RENEWED") prev (tabSalesOrder w))
              w)
           (fun _ => eq_refl) Hnd).
Qed.

(** Submitting a renewal marks its predecessor: the header becomes
    "RENEWED" and every line "Renewed", while the lines and headers of
    other orders and the Items stay as they are; with no predecessor of
    that name in the table the call still goes through and changes
    nothing. *)
Theorem renewal_marks_predecessor (self : SalesOrder.t) (db : DB) :
  names_unique db ->
  truthy_str (SalesOrder.previous_order_id self) = true ->
  exists db',
    request (update_sales_order_status self) db = (Ok tt, db')
    /\ header_status (SalesOrder.previous_order_id self) db'
       = (fun _ => "RENEWED")
         <$> header_status (SalesOrder.previous_order_id self) db
    /\ line_statuses (SalesOrder.previous_order_id self) db'
       = List.map (fun _ => "Renewed")
           (rows_of (SalesOrder.previous_order_id self) (tabSalesOrderItem db))
    /\ (forall d, d <> SalesOrder.previous_order_id self ->
          rows_of d (tabSalesOrderItem db') = rows_of d (tabSalesOrderItem db)
          /\ tabSalesOrder db' !! d = tabSalesOrder db !! d)
    /\ tabItem db' = tabItem db
    /\ (tabSalesOrder db !! SalesOrder.previous_order_id self = None ->
        rows_of (SalesOrder.previous_order_id self) (tabSalesOrderItem db) = [] ->
        tabSalesOrder db' = tabSalesOrder db
        /\ tabSalesOrderItem db' = tabSalesOrderItem db).
Proof.
  intros Hnd Hid. exists (renewed_db (SalesOrder.previous_order_id self) db).
  set (prev := SalesOrder.previous_order_id self).
  split; [|split; [|split; [|split; [|split]]]].
  - unfold request. now rewrite update_sales_order_status_run.
  - unfold header_status, renewed_db. simpl. rewrite lookup_alter_eq.
    now destruct (tabSalesOrder db !! prev).
  - unfold line_statuses, renewed_db. simpl.
    rewrite rows_of_update_same by reflexivity.
    rewrite List.map_map. reflexivity.
  - intros d Hd. unfold renewed_db. simpl. split.
    + now apply rows_of_update_other.
    + now rewrite lookup_alter_ne.
  - reflexivity.
  - intros Hnone Hrows. unfold renewed_db. simpl. split.
    + apply map_eq. intros k. destruct (decide (prev = k)) as [<-|Hne].
      * now rewrite lookup_alter_eq, Hnone.
      * now rewrite lookup_alter_ne.
    + unfold update_rows_of. rewrite <- (List.map_id (tabSalesOrderItem db)) at 2.
      apply map_ext_in. intros r Hr.
      destruct (String.eqb (SalesOrderItem.parent r) prev) eqn:P;
        [|reflexivity].
      exfalso. assert (Hin : In r (rows_of prev (tabSalesOrderItem db))).
      { unfold rows_of. apply filter_In. now split. }
      rewrite Hrows in Hin. destruct Hin.
Qed.

Lemma renewal_marks_predecessor_witness :
  exists db',
    request (update_sales_order_status march_renewal) january_db = (Ok tt, db')
    /\ header_status "SO-0001" db' = Some "RENEWED"
    /\ line_statuses "SO-0001" db' = ["Renewed"; "Renewed"].
Proof.
  destruct (renewal_marks_predecessor march_renewal january_db)
    as (db' & Hrun & Hh & Hl & _).
  - repeat constructor; simpl; intuition discriminate.
  - reflexivity.
  - exists db'. split; [exact Hrun|]. split; [exact Hh|exact Hl].
Defined.

(** ** Renewal: the edges of the overlap guard *)

(** For a renewal, [before_submit] fails with [DoesNotExistError] when
    the predecessor is not in the table; it lets the order through
    without looking at any date when its own start or end date is unset,
    whatever the dates of the predecessor; and it fails with [TypeError]
    when its start date is a date object instead of a string, as on a
    document loaded from the database. *)
Theorem before_submit_guard_edges (ext : Collaborators) (self : SalesOrder.t)
    (t : txn) :
  truthy_str (SalesOrder.previous_order_id self) = true ->
  (tabSalesOrder (working t) !! SalesOrder.previous_order_id self = None ->
   before_submit ext self t
   = (Raise (DoesNotExistError "Sales Order"
               (SalesOrder.previous_order_id self)), t))
  /\ (is_Some (tabSalesOrder (working t)
                 !! SalesOrder.previous_order_id self) ->
      truthy_date (SalesOrder.start_date self) = false
      \/ truthy_date (SalesOrder.end_date self) = false ->
      before_submit ext self t = (Ok tt, t))
  /\ (is_Some (tabSalesOrder (working t)
                 !! SalesOrder.previous_order_id self) ->
      (exists d, SalesOrder.start_date self = DateObj d) ->
      truthy_date (SalesOrder.end_date self) = true ->
      before_submit ext self t = (Raise TypeError, t)).
Proof.
  intros Hid. unfold before_submit, check_overlap, get_doc_SalesOrder.
  rewrite Hid. split; [|split].
  - intros Hnone. mstep. now rewrite Hnone.
  - intros [prev Hprev] Hunset. mstep. rewrite Hprev. simpl.
    destruct Hunset as [-> | ->]; simpl; [reflexivity|].
    now rewrite andb_false_r.
  - intros [prev Hprev] [d Hd] Hend. mstep. rewrite Hprev, Hd, Hend.
    reflexivity.
Qed.

Lemma before_submit_guard_edges_witness :
  before_submit quiet (order "Draft" "SO-0001" NoDate (DateStr "2024-03-31"))
    (mktxn renewal_db renewal_db)
  = (Ok tt, mktxn renewal_db renewal_db)
  /\ before_submit quiet
       (order "Draft" "SO-0001" (DateObj (mkdate 2024 3 1))
          (DateStr "2024-03-31"))
       (mktxn renewal_db renewal_db)
     = (Raise TypeError, mktxn renewal_db renewal_db)
  /\ before_submit quiet march_renewal (mktxn empty_db empty_db)
     = (Raise (DoesNotExistError "Sales Order" "SO-0001"),
        mktxn empty_db empty_db).
Proof.
  split; [|split].
  - apply (before_submit_guard_edges quiet
             (order "Draft" "SO-0001" NoDate (DateStr "2024-03-31"))
             (mktxn renewal_db renewal_db) eq_refl).
    + exists january_order. reflexivity.
    + left. reflexivity.
  - apply (before_submit_guard_edges quiet
             (order "Draft" "SO-0001" (DateObj (mkdate 2024 3 1))
                (DateStr "2024-03-31"))
             (mktxn renewal_db renewal_db) eq_refl).
    + exists january_order. reflexivity.
    + eexists. reflexivity.
    + reflexivity.
  - apply (before_submit_guard_edges quiet march_renewal
             (mktxn empty_db empty_db) eq_refl).
    reflexivity.
Defined.

(** ** Deletion and the release of devices *)

Lemma release_not_rented (it : Item.t) :
  Item.status (release it) <> "Rented Out".
Proof.
  unfold release. destruct (String.eqb (Item.status it) "Rented Out") eqn:E.
  - simpl. discriminate.
  - now apply String.eqb_neq.
Qed.

(** Deleting an order whose lines all have their Item releases the
    devices and commits: afterwards no Item of a line is "Rented Out",
    every Item that was not "Rented Out" is as before, orders and rows are
    untouched, a second deletion changes nothing more, and the release
    stays even when the rest of the same request fails. *)
Theorem on_trash_releases (name : string) (db : DB) :
  (forall r, In r (rows_of name (tabSalesOrderItem db)) ->
     is_Some (tabItem db !! SalesOrderItem.item_code r)) ->
  request (on_trash name) db = (Ok tt, released_db name db)
  /\ (forall r, In r (rows_of name (tabSalesOrderItem db)) ->
        exists it,
          tabItem (released_db name db) !! SalesOrderItem.item_code r = Some it
          /\ Item.status it <> "Rented Out")
  /\ (forall code it,
        tabItem db !! code = Some it -> Item.status it <> "Rented Out" ->
        tabItem (released_db name db) !! code = Some it)
  /\ tabSalesOrder (released_db name db) = tabSalesOrder db
  /\ tabSalesOrderItem (released_db name db) = tabSalesOrderItem db
  /\ request (on_trash name) (released_db name db)
     = (Ok tt, released_db name db)
  /\ (forall (rest : M unit) e t',
        rest (mktxn (released_db name db) (released_db name db))
        = (Raise e, t') ->
        durable t' = released_db name db ->
        request (on_trash name ≫= fun _ => rest) db
        = (Raise e, released_db name db)).
Proof.
  intros Hex.
  assert (Hrun : on_trash name (mktxn db db)
                 = (Ok tt, mktxn (released_db name db) (released_db name db))).
  { now apply item_status_change_cancel_ok. }
  assert (Hidem : released_db name (released_db name db) = released_db name db).
  { unfold released_db, set_tabItem. simpl. f_equal.
    apply map_eq. intros code. rewrite !release_all_lookup.
    destruct (in_dec _ _ _); [|reflexivity].
    destruct (tabItem db !! code); simpl; [now rewrite release_idem|easy]. }
  split; [|split; [|split; [|split; [|split; [|split]]]]].
  - unfold request. now rewrite Hrun.
  - intros r Hr. destruct (Hex r Hr) as [it Hit].
    exists (release it). unfold released_db. simpl.
    rewrite release_all_lookup.
    destruct (in_dec _ _ _) as [_|Hno].
    + rewrite Hit. split; [reflexivity|apply release_not_rented].
    + exfalso. apply Hno. now apply in_map.
  - intros code it Hit Hst. unfold released_db. simpl.
    rewrite release_all_lookup, Hit. apply String.eqb_neq in Hst.
    destruct (in_dec _ _ _); [|reflexivity].
    simpl. unfold release. now rewrite Hst.
  - reflexivity.
  - reflexivity.
  - unfold request, on_trash.
    rewrite (item_status_change_cancel_ok name (released_db name db)).
    + now rewrite Hidem.
    + intros r Hr. unfold released_db. simpl. rewrite release_all_lookup.
      destruct (Hex r Hr) as [it ->]. destruct (in_dec _ _ _); simpl; eauto.
  - intros rest e t' Hrest Hdur. unfold request.
    rewrite bind_run, Hrun, Hrest, Hdur. reflexivity.
Qed.

Lemma on_trash_releases_witness :
  request (on_trash "SO-0003") closed_db
  = (Ok tt, released_db "SO-0003" closed_db)
  /\ Item.status <$> tabItem (released_db "SO-0003" closed_db) !! "DEV-9"
     = Some "Available".
Proof.
  destruct (on_trash_releases "SO-0003" closed_db) as (Hrun & _).
  - intros r [<-|[]]. exists (device "Rented Out"). reflexivity.
  - split; [exact Hrun|reflexivity].
Defined.

Lemma release_loop_missing (rows : list SalesOrderItem.t) :
  forall (dur w : DB),
    ~ (forall r, In r rows ->
         is_Some (tabItem w !! SalesOrderItem.item_code r)) ->
    exists r w',
      In r rows
      /\ tabItem w !! SalesOrderItem.item_code r = None
      /\ for_each rows (fun item =>
           item_doc ← get_doc_Item (SalesOrderItem.item_code item);
           if String.eqb (Item.status item_doc) "Rented Out"
           then save_Item (SalesOrderItem.item_code item)
                  (Item.set_status "Available" item_doc)
           else mret tt) (mktxn dur w)
         = (Raise (DoesNotExistError "Item" (SalesOrderItem.item_code r)),
            mktxn dur w').
Proof.
  induction rows as [|r rows IH]; intros dur w Hno.
  - exfalso. apply Hno. intros r [].
  - cbn [for_each]. unfold get_doc_Item, save_Item at 1. mstep.
    destruct (tabItem w !! SalesOrderItem.item_code r) as [it|] eqn:Hit;
      simpl.
    + assert (Hrest : forall w1,
                (forall k, is_Some (tabItem w !! k) -> is_Some (tabItem w1 !! k)) ->
                (forall k, tabItem w !! k = None -> tabItem w1 !! k = None) ->
                ~ (forall q, In q rows ->
                     is_Some (tabItem w1 !! SalesOrderItem.item_code q))).
      { intros w1 Hsome Hnone Hall. apply Hno. intros q [<-|Hq].
        - rewrite Hit. eauto.
        - destruct (tabItem w !! SalesOrderItem.item_code q) eqn:Hq';
            [eauto|].
          specialize (Hall q Hq). rewrite (Hnone _ Hq') in Hall.
          now destruct Hall. }
      destruct (String.eqb (Item.status it) "Rented Out") eqn:E; simpl.
      * destruct (IH dur
                    (set_tabItem
                       (<[SalesOrderItem.item_code r :=
                            Item.set_status "Available" it]> (tabItem w)) w))
          as (q & w' & Hq & Hnone & Hrun).
        { apply Hrest; simpl; intros k Hk.
          - destruct (decide (SalesOrderItem.item_code r = k)) as [<-|Hne].
            + rewrite lookup_insert_eq. eauto.
            + now rewrite lookup_insert_ne.
          - destruct (decide (SalesOrderItem.item_code r = k)) as [<-|Hne].
            + congruence.
            + now rewrite lookup_insert_ne. }
        exists q, w'. split; [now right|]. split; [|exact Hrun].
        simpl in Hnone.
        destruct (decide (SalesOrderItem.item_code r
                          = SalesOrderItem.item_code q)) as [Heq|Hne].
        -- rewrite <- Heq, lookup_insert_eq in Hnone. discriminate.
        -- now rewrite lookup_insert_ne in Hnone.
      * destruct (IH dur w) as (q & w' & Hq & Hnone & Hrun).
        { apply Hrest; auto. }
        exists q, w'. split; [now right|]. now split.
    + exists r, w. split; [now left|]. now split.
Qed.

(** Cancelling an order one of whose lines has no Item fails with
    [DoesNotExistError] for that Item and changes nothing: the devices of
    the lines before it, released in the loop, are not committed. *)
Theorem on_cancel_missing_item (ext : Collaborators) (name : string)
    (self : SalesOrder.t) (db : DB) :
  ~ (forall r, In r (rows_of name (tabSalesOrderItem db)) ->
       is_Some (tabItem db !! SalesOrderItem.item_code r)) ->
  exists r,
    In r (rows_of name (tabSalesOrderItem db))
    /\ tabItem db !! SalesOrderItem.item_code r = None
    /\ request (on_cancel ext name self) db
       = (Raise (DoesNotExistError "Item" (SalesOrderItem.item_code r)), db).
Proof.
  intros Hno.
  destruct (release_loop_missing _ db db Hno) as (r & w' & Hr & Hnone & Hrun).
  exists r. split; [exact Hr|]. split; [exact Hnone|].
  unfold request, on_cancel, item_status_change_cancel,
    get_all_SalesOrderItem.
  rewrite !bind_run. simpl. rewrite bind_run, Hrun. reflexivity.
Qed.

Lemma on_cancel_missing_item_witness :
  exists r,
    In r (rows_of "SO-0011" (tabSalesOrderItem orphan_db))
    /\ tabItem orphan_db !! SalesOrderItem.item_code r = None
    /\ request (on_cancel quiet "SO-0011" (order "Active" "" NoDate NoDate))
         orphan_db
       = (Raise (DoesNotExistError "Item" (SalesOrderItem.item_code r)),
          orphan_db).
Proof.
  apply (on_cancel_missing_item quiet "SO-0011"
           (order "Active" "" NoDate NoDate) orphan_db).
  intros H.
  destruct (H (line "L17" "SO-0011" "DEV-X" "Active")) as [it Hit].
  - right. left. reflexivity.
  - discriminate Hit.
Defined.

(** ** Header status set by hand, and cancellation *)

Lemma update_status_run (docname new_status : string) (db : DB)
    (so : SalesOrder.t) :
  tabSalesOrder db !! docname = Some so ->
  request (update_status docname new_status) db
  = (Ok true,
     set_tabSalesOrder
       (<[docname := SalesOrder.set_status new_status so]> (tabSalesOrder db))
       db).
Proof.
  intros Hso. unfold request, update_status, get_doc_SalesOrder,
    save_SalesOrder.
  mstep. now rewrite Hso.
Qed.

(** [update_status] checks no transition: it writes any status over any
    status, and [on_hold] and [close_rental_order] are its instances.
    An order closed by [close_rental_order] cannot be cancelled, and the
    same order can be cancelled again once [update_status] has given it
    any status other than "Closed". *)
Theorem manual_status_and_cancel (ext : Collaborators) (docname : string)
    (db : DB) (so : SalesOrder.t) :
  tabSalesOrder db !! docname = Some so ->
  (forall r, In r (rows_of docname (tabSalesOrderItem db)) ->
     is_Some (tabItem db !! SalesOrderItem.item_code r)) ->
  cancel_hooks_quiet ext ->
  (forall new_status,
     exists db',
       request (update_status docname new_status) db = (Ok true, db')
       /\ tabSalesOrder db' !! docname
          = Some (SalesOrder.set_status new_status so)
       /\ tabSalesOrderItem db' = tabSalesOrderItem db
       /\ tabItem db' = tabItem db)
  /\ request (on_hold docname) db = request (update_status docname "On Hold") db
  /\ request (close_rental_order docname) db
     = request (update_status docname "Closed") db
  /\ (exists db1,
        request (close_rental_order docname) db = (Ok true, db1)
        /\ request
             (on_cancel ext docname (SalesOrder.set_status "Closed" so)) db1
           = (Raise (ValidationError closed_message), released_db docname db1)
        /\ forall new_status,
             new_status <> "Closed" ->
             exists db2,
               request (update_status docname new_status) db1 = (Ok true, db2)
               /\ request
                    (on_cancel ext docname
                       (SalesOrder.set_status new_status
                          (SalesOrder.set_status "Closed" so))) db2
                  = (Ok tt, cancelled_db docname db2)).
Proof.
  intros Hso Hex Hhooks. split; [|split; [|split]].
  - intros new_status. eexists.
    split; [exact (update_status_run docname new_status db so Hso)|].
    simpl. rewrite lookup_insert_eq. auto.
  - reflexivity.
  - reflexivity.
  - eexists. split; [exact (update_status_run docname "Closed" db so Hso)|].
    split.
    + apply on_cancel_closed; [exact Hex|reflexivity|].
      apply (Hhooks (SalesOrder.set_status "Closed" so)).
    + intros new_status Hne. eexists. split.
      * apply (update_status_run docname new_status _
                 (SalesOrder.set_status "Closed" so)).
        simpl. apply lookup_insert_eq.
      * apply on_cancel_passes; [exact Hex| |apply Hhooks].
        destruct so. exact Hne.
Qed.

Lemma manual_status_and_cancel_witness :
  exists db1,
    request (close_rental_order "SO-0003") active_db = (Ok true, db1)
    /\ request
         (on_cancel quiet "SO-0003"
            (SalesOrder.set_status "Closed" (order "Active" "" NoDate NoDate)))
         db1
       = (Raise (ValidationError closed_message), released_db "SO-0003" db1).
Proof.
  destruct (manual_status_and_cancel quiet "SO-0003" active_db
              (order "Active" "" NoDate NoDate) eq_refl)
    as (_ & _ & _ & db1 & Hclose & Hcancel & _).
  - intros r [<-|[]]. exists (device "Rented Out"). reflexivity.
  - intros self. repeat split.
  - exists db1. split; [exact Hclose|exact Hcancel].
Defined.

(** ** Return of a device to the office *)

(** After [update_status_to_submitted_to_office] the Item is
    "Available" and the header is "Submitted to Office" exactly when all
    lines of the order then are, and "Partially Closed" otherwise; for an
    order with one line, that line is the one submitted whatever
    [child_name] says. *)
Theorem update_status_to_submitted_to_office_header
    (item_code submission_datetime docname child_name : string) (db : DB) :
  names_unique db ->
  is_Some (tabItem db !! item_code) ->
  is_Some (tabSalesOrder db !! docname) ->
  rows_of docname (tabSalesOrderItem db) <> [] ->
  (length (rows_of docname (tabSalesOrderItem db)) <> 1%nat ->
   In child_name (List.map SalesOrderItem.name (tabSalesOrderItem db))) ->
  exists db',
    request (update_status_to_submitted_to_office item_code
               submission_datetime docname child_name) db
    = (Ok true, db')
    /\ Item.status <$> tabItem db' !! item_code = Some "Available"
    /\ header_status docname db'
       = Some (if forallb (fun s => String.eqb s "Submitted to Office")
                    (line_statuses docname db')
               then "Submitted to Office" else "Partially Closed")
    /\ (length (rows_of docname (tabSalesOrderItem db)) = 1%nat ->
        line_statuses docname db' = ["Submitted to Office"]).
Proof.
  intros Hnd [it Hit] [so Hso] Hrows Hchild.
  unfold request, update_status_to_submitted_to_office, get_doc_Item,
    save_Item, get_all_SalesOrderItem, get_doc_SalesOrderItem,
    save_SalesOrderItem, get_doc_SalesOrder, save_SalesOrder, header_status,
    line_statuses.
  unfold names_unique in Hnd.
  mstep. rewrite Hit. simpl.
  destruct (rows_of docname (tabSalesOrderItem db)) as [|first rest] eqn:Erows;
    [congruence|].
  destruct rest as [|second rest].
  - simpl. assert (Hin : In first (tabSalesOrderItem db)).
    { apply (rows_of_In docname). rewrite Erows. now left. }
    rewrite (find_row_unique _ _ Hnd Hin). simpl. rewrite Hso. simpl.
    eexists. split; [reflexivity|]. simpl.
    rewrite !lookup_insert_eq.
    erewrite rows_of_replace_row; [|exact Hnd| |].
    + rewrite Erows. simpl. rewrite String.eqb_refl. simpl. auto.
    + simpl. now apply find_row_unique.
    + reflexivity.
  - simpl.
    destruct (find_row_is_Some child_name (tabSalesOrderItem db)) as [r0 Hr0].
    { apply Hchild. simpl. discriminate. }
    rewrite Hr0. simpl.
    erewrite rows_of_replace_row; [|exact Hnd| |].
    + rewrite Erows.
      remember (replace_row _ (first :: second :: rest)) as rows' eqn:E.
      assert (Hlen : (2 <= length rows')%nat).
      { subst rows'. unfold replace_row. simpl. lia. }
      destruct rows' as [|a [|b l]]; simpl in Hlen; try lia.
      simpl. rewrite Hso. simpl.
      eexists. split; [reflexivity|]. simpl.
      rewrite !lookup_insert_eq. simpl.
      erewrite rows_of_replace_row; [|exact Hnd| |].
      * rewrite Erows, <- E. simpl. split; [reflexivity|].
        split; [|intros H; discriminate H].
        f_equal.
        destruct (String.eqb (SalesOrderItem.child_status a) _),
          (String.eqb (SalesOrderItem.child_status b) _); simpl; try reflexivity.
        rewrite (forallb_of_map (fun s => String.eqb s "Submitted to Office")
                   SalesOrderItem.child_status).
        reflexivity.
      * simpl. rewrite <- (find_row_name _ _ _ Hr0) in Hr0. exact Hr0.
      * reflexivity.
    + simpl. rewrite <- (find_row_name _ _ _ Hr0) in Hr0. exact Hr0.
    + reflexivity.
Qed.

Lemma update_status_to_submitted_to_office_header_witness :
  names_unique two_lines_db
  /\ exists db',
       request (update_status_to_submitted_to_office "DEV-6"
                  "2024-05-01 10:00:00" "SO-0005" "L6") two_lines_db
       = (Ok true, db')
       /\ Item.status <$> tabItem db' !! "DEV-6" = Some "Available"
       /\ header_status "SO-0005" db'
          = Some (if forallb (fun s => String.eqb s "Submitted to Office")
                       (line_statuses "SO-0005" db')
                  then "Submitted to Office" else "Partially Closed")
       /\ (length (rows_of "SO-0005" (tabSalesOrderItem two_lines_db)) = 1%nat ->
           line_statuses "SO-0005" db' = ["Submitted to Office"]).
Proof.
  assert (Hnd : names_unique two_lines_db).
  { unfold names_unique. simpl.
    repeat (apply List.NoDup_cons; [simpl; intuition discriminate|]).
    apply List.NoDup_nil. }
  split; [exact Hnd|].
  apply (update_status_to_submitted_to_office_header "DEV-6"
           "2024-05-01 10:00:00" "SO-0005" "L6" two_lines_db Hnd).
  - vm_compute. eauto.
  - vm_compute. eauto.
  - vm_compute. discriminate.
  - intros _. simpl. auto.
Defined.

(** The two status handlers swallow every failure and answer [False], but
    they have saved the Item by then: with no such Item nothing is
    written; with the Item and an order without lines, or with several
    lines none of which is [child_name], the answer is [False] and the
    Item alone has changed. *)
Theorem status_handlers_failure_keeps_item_write
    (item_code submission_datetime docname child_name : string) (db : DB) :
  let pickup := request (update_status_to_pickup item_code docname child_name) db in
  let office := request (update_status_to_submitted_to_office item_code
                           submission_datetime docname child_name) db in
  let marked s it := set_tabItem (<[item_code := Item.set_status s it]> (tabItem db)) db in
  (tabItem db !! item_code = None ->
   pickup = (Ok false, db) /\ office = (Ok false, db))
  /\ (forall it, tabItem db !! item_code = Some it ->
      rows_of docname (tabSalesOrderItem db) = []
      \/ ((2 <= length (rows_of docname (tabSalesOrderItem db)))%nat
          /\ ~ In child_name (List.map SalesOrderItem.name (tabSalesOrderItem db))) ->
      pickup = (Ok false, marked "Rented Out" it)
      /\ office = (Ok false, marked "Available" it)).
Proof.
  cbv zeta. split.
  - intros Hit.
    unfold request, update_status_to_pickup,
      update_status_to_submitted_to_office, get_doc_Item.
    mstep. rewrite Hit. simpl. auto.
  - intros it Hit Hcase.
    unfold request, update_status_to_pickup,
      update_status_to_submitted_to_office, get_doc_Item, save_Item,
      get_all_SalesOrderItem, get_doc_SalesOrderItem.
    mstep. rewrite Hit. simpl.
    destruct Hcase as [Hnone | [Hlen Hchild]].
    + rewrite Hnone. simpl. auto.
    + destruct (rows_of docname (tabSalesOrderItem db)) as [|a [|b l]];
        simpl in Hlen; try lia.
      simpl.
      assert (Hfind : find_row child_name (tabSalesOrderItem db) = None).
      { destruct (find_row child_name (tabSalesOrderItem db)) as [r|] eqn:E;
          [|reflexivity].
        exfalso. apply Hchild. rewrite <- (find_row_name _ _ _ E).
        apply in_map. eapply find_row_In. exact E. }
      rewrite Hfind. simpl. auto.
Qed.

Lemma status_handlers_failure_keeps_item_write_witness :
  request (update_status_to_pickup "DEV-9" "SO-0004" "L4") pickup_db
  = (Ok false, pickup_db)
  /\ request (update_status_to_submitted_to_office "DEV-6"
                "2024-05-01 10:00:00" "SO-0005" "L9") two_lines_db
     = (Ok false,
        set_tabItem
          (<["DEV-6" := Item.set_status "Available" (device "Rented Out")]>
             (tabItem two_lines_db)) two_lines_db).
Proof.
  split.
  - apply (status_handlers_failure_keeps_item_write "DEV-9" "" "SO-0004" "L4"
             pickup_db).
    reflexivity.
  - apply (status_handlers_failure_keeps_item_write "DEV-6"
             "2024-05-01 10:00:00" "SO-0005" "L9" two_lines_db).
    + reflexivity.
    + right. split; [simpl; lia|]. simpl. intuition discriminate.
Defined.

(** ** Return of a whole order to the office *)

Lemma alter_all_lookup (g : Item.t -> Item.t) (codes : list string) :
  (forall x, g (g x) = g x) ->
  forall (items : gmap string Item.t) (code : string),
    alter_all g codes items !! code
    = if in_dec String.string_dec code codes
      then g <$> items !! code
      else items !! code.
Proof.
  intros Hg. unfold alter_all.
  induction codes as [|c codes IH]; intros items code; simpl; [reflexivity|].
  rewrite IH.
  destruct (String.string_dec c code) as [Heq|Hne].
  - subst code. rewrite lookup_alter_eq.
    destruct (in_dec _ _ _).
    + destruct (items !! c); simpl; [now rewrite Hg|reflexivity].
    + reflexivity.
  - rewrite lookup_alter_ne by done.
    destruct (in_dec _ _ _); reflexivity.
Qed.

Lemma make_available_run (code : string) (it : Item.t) (dur w : DB) :
  tabItem w !! code = Some it ->
  make_available code (mktxn dur w)
  = (Ok tt,
     mktxn dur
       (set_tabItem (alter (Item.set_status "Available") code (tabItem w)) w)).
Proof.
  intros Hit. unfold make_available, get_doc_Item, save_Item. mstep.
  rewrite Hit. simpl. do 3 f_equal.
  apply map_eq. intros k. destruct (decide (code = k)) as [<-|Hne].
  - now rewrite lookup_insert_eq, lookup_alter_eq, Hit.
  - now rewrite lookup_insert_ne, lookup_alter_ne by done.
Qed.

Lemma make_available_loop_ok (codes : list string) :
  forall (dur w : DB),
    (forall c, In c codes -> is_Some (tabItem w !! c)) ->
    for_each codes make_available (mktxn dur w)
    = (Ok tt,
       mktxn dur
         (set_tabItem
            (alter_all (Item.set_status "Available") codes (tabItem w)) w)).
Proof.
  induction codes as [|c codes IH]; intros dur w Hex.
  - simpl. mstep. now destruct w.
  - destruct (Hex c (or_introl eq_refl)) as [it Hit].
    cbn [for_each]. rewrite bind_run, (make_available_run c it dur w Hit).
    rewrite IH.
    + reflexivity.
    + intros q Hq. simpl. destruct (decide (c = q)) as [<-|Hne].
      * rewrite lookup_alter_eq, Hit. simpl. eauto.
      * rewrite lookup_alter_ne by done. apply Hex. now right.
Qed.

Lemma make_available_loop_raise (codes : list string) :
  forall (dur w : DB) (c : string),
    In c codes -> tabItem w !! c = None ->
    exists e w', for_each codes make_available (mktxn dur w)
                 = (Raise e, mktxn dur w').
Proof.
  induction codes as [|c0 codes IH]; intros dur w c Hin Hc; [destruct Hin|].
  cbn [for_each]. rewrite bind_run.
  destruct (tabItem w !! c0) as [it|] eqn:Hit.
  - rewrite (make_available_run c0 it dur w Hit).
    destruct Hin as [->|Hin]; [congruence|].
    apply (IH _ _ c Hin). simpl.
    destruct (decide (c0 = c)) as [<-|Hne]; [congruence|].
    now rewrite lookup_alter_ne by done.
  - unfold make_available, get_doc_Item. mstep. rewrite Hit. simpl. eauto.
Qed.

Lemma make_submitted_to_office_run
    (literal_eval : string -> option (list string))
    (docname item_code submitted_date : string) (db : DB)
    (codes : list string) (so : SalesOrder.t) :
  names_unique db ->
  literal_eval item_code = Some codes ->
  tabSalesOrder db !! docname = Some so ->
  (forall c, In c codes -> is_Some (tabItem db !! c)) ->
  request (make_submitted_to_office literal_eval docname item_code
             submitted_date) db
  = (Ok "Submitted to Office Success",
     submitted_db codes docname submitted_date so db).
Proof.
  intros Hnd Hlit Hso Hex.
  unfold request, make_submitted_to_office, try_except.
  rewrite Hlit. rewrite bind_run. unfold mret at 1, M_ret at 1.
  unfold get_doc_SalesOrder. rewrite !bind_run.
  unfold get_db at 1. cbn [working]. rewrite Hso.
  unfold mret at 1, M_ret at 1.
  rewrite bind_run, (make_available_loop_ok codes db db Hex).
  rewrite bind_run. unfold save_SalesOrder, modify_db at 1. cbn [working durable].
  unfold get_all_SalesOrderItem. rewrite !bind_run.
  unfold get_db at 1. cbn [working]. unfold mret at 1, M_ret at 1.
  rewrite bind_run.
  match goal with
  | |- context [for_each (rows_of docname (tabSalesOrderItem ?w)) _ _] =>
      pose proof (for_each_rows_of
        (fun d => SalesOrderItem.set_submitted_date submitted_date
                    (SalesOrderItem.set_child_status "Submitted to Office" d))
        docname db w (fun _ => eq_refl) Hnd) as Hloop
  end.
  unfold submit_row. rewrite Hloop. reflexivity.
Qed.

(** [make_submitted_to_office], when the text is a list of codes of
    existing Items and the order exists: the header and every line of the
    order become "Submitted to Office", and the Items that become
    "Available" are those of the caller's list, not those of the order's
    lines; every other Item is as it was. *)
Theorem make_submitted_to_office_effect
    (literal_eval : string -> option (list string))
    (docname item_code submitted_date : string) (db : DB)
    (codes : list string) (so : SalesOrder.t) :
  names_unique db ->
  literal_eval item_code = Some codes ->
  tabSalesOrder db !! docname = Some so ->
  (forall c, In c codes -> is_Some (tabItem db !! c)) ->
  exists db',
    request (make_submitted_to_office literal_eval docname item_code
               submitted_date) db
    = (Ok "Submitted to Office Success", db')
    /\ header_status docname db' = Some "Submitted to Office"
    /\ line_statuses docname db'
       = List.map (fun _ => "Submitted to Office")
           (rows_of docname (tabSalesOrderItem db))
    /\ (forall c, In c codes ->
          Item.status <$> tabItem db' !! c = Some "Available")
    /\ (forall c, ~ In c codes -> tabItem db' !! c = tabItem db !! c)
    /\ (forall d, d <> docname ->
          rows_of d (tabSalesOrderItem db') = rows_of d (tabSalesOrderItem db)
          /\ tabSalesOrder db' !! d = tabSalesOrder db !! d).
Proof.
  intros Hnd Hlit Hso Hex. eexists. split.
  - exact (make_submitted_to_office_run literal_eval docname item_code
             submitted_date db codes so Hnd Hlit Hso Hex).
  - unfold submitted_db, header_status, line_statuses. simpl.
    split; [now rewrite lookup_insert_eq|].
    split.
    { rewrite rows_of_update_same by reflexivity.
      rewrite List.map_map. reflexivity. }
    split; [|split].
    + intros c Hc. rewrite alter_all_lookup by reflexivity.
      destruct (in_dec _ _ _) as [_|Hn]; [|contradiction].
      destruct (Hex c Hc) as [it ->]. reflexivity.
    + intros c Hc. rewrite alter_all_lookup by reflexivity.
      destruct (in_dec _ _ _) as [Hi|_]; [contradiction|reflexivity].
    + intros d Hd. split.
      * apply rows_of_update_other; [reflexivity|exact Hd].
      * now rewrite lookup_insert_ne.
Qed.

Lemma make_submitted_to_office_effect_witness :
  exists db',
    request (make_submitted_to_office two_codes "SO-0005" "['DEV-6']"
               "2024-05-01") two_lines_db
    = (Ok "Submitted to Office Success", db')
    /\ header_status "SO-0005" db' = Some "Submitted to Office"
    /\ line_statuses "SO-0005" db'
       = List.map (fun _ => "Submitted to Office")
           (rows_of "SO-0005" (tabSalesOrderItem two_lines_db))
    /\ (forall c, In c ["DEV-6"] ->
          Item.status <$> tabItem db' !! c = Some "Available")
    /\ (forall c, ~ In c ["DEV-6"] ->
          tabItem db' !! c = tabItem two_lines_db !! c)
    /\ (forall d, d <> "SO-0005" ->
          rows_of d (tabSalesOrderItem db')
          = rows_of d (tabSalesOrderItem two_lines_db)
          /\ tabSalesOrder db' !! d = tabSalesOrder two_lines_db !! d).
Proof.
  apply (make_submitted_to_office_effect two_codes "SO-0005" "['DEV-6']"
           "2024-05-01" two_lines_db ["DEV-6"]
           (order "Active" "" NoDate NoDate)).
  - unfold names_unique. simpl.
    repeat (apply List.NoDup_cons; [simpl; intuition discriminate|]).
    apply List.NoDup_nil.
  - reflexivity.
  - reflexivity.
  - intros c [<-|[]]. vm_compute. eauto.
Defined.

(** [make_submitted_to_office] is all or nothing: when the text is no
    list, the order does not exist, or one code of the list names no Item,
    the request raises the one fixed message and the database is as it
    was, also for the Items earlier in the list. *)
Theorem make_submitted_to_office_all_or_nothing
    (literal_eval : string -> option (list string))
    (docname item_code submitted_date : string) (db : DB) :
  literal_eval item_code = None
  \/ tabSalesOrder db !! docname = None
  \/ (exists codes c, literal_eval item_code = Some codes
                      /\ In c codes /\ tabItem db !! c = None) ->
  request (make_submitted_to_office literal_eval docname item_code
             submitted_date) db
  = (Raise (ValidationError request_failed_message), db).
Proof.
  intros Hcase.
  unfold request, make_submitted_to_office, try_except.
  destruct (literal_eval item_code) as [codes|] eqn:Hlit.
  - rewrite bind_run. unfold mret at 1, M_ret at 1.
    unfold get_doc_SalesOrder. rewrite !bind_run.
    unfold get_db at 1. cbn [working].
    destruct (tabSalesOrder db !! docname) as [so|] eqn:Hso.
    + destruct Hcase as [H|[H|(codes' & c & Hl & Hin & Hc)]]; try discriminate.
      injection Hl as <-.
      unfold mret at 1, M_ret at 1.
      destruct (make_available_loop_raise codes db db c Hin Hc)
        as (e & w' & Hrun).
      rewrite bind_run, Hrun. reflexivity.
    + reflexivity.
  - reflexivity.
Qed.

Lemma make_submitted_to_office_all_or_nothing_witness :
  request (make_submitted_to_office two_codes "SO-0005" "['DEV-6', 'DEV-X']"
             "2024-05-01") two_lines_db
  = (Raise (ValidationError request_failed_message), two_lines_db).
Proof.
  apply make_submitted_to_office_all_or_nothing.
  right. right. exists ["DEV-6"; "DEV-X"], "DEV-X".
  split; [reflexivity|]. split; [simpl; auto|reflexivity].
Defined.

(** ** The replacement log *)

Lemma item_replacement_row_keeps_log (db0 : DB)
    (log : list RentalOrderReplacedItem.t)
    (item_code new_item replacement_date : string)
    (item : SalesOrderItem.t) (t : txn) (r : result unit) (t' : txn) :
  durable t = db0 /\ tabRentalOrderReplacedItem (working t) = log ->
  item_replacement_row item_code new_item replacement_date item t = (r, t') ->
  durable t' = db0 /\ tabRentalOrderReplacedItem (working t') = log.
Proof.
  intros [Hdur Hlog].
  unfold item_replacement_row, get_doc_SalesOrderItem, save_SalesOrderItem,
    get_doc_Item, save_Item.
  mstep.
  destruct (find_row _ _); simpl.
  - destruct (tabItem (working t) !! new_item); simpl;
      intros H; inversion H; subst; simpl; auto.
  - intros H; inversion H; subst; auto.
Qed.

Lemma item_replacement_run
    (item_code new_item replacement_date master_order_id docname
     old_item_status reason : string) (db : DB) :
  exists r w,
    item_replacement item_code new_item replacement_date master_order_id
      docname old_item_status reason (mktxn db db)
    = (r, mktxn db w)
    /\ ((r = Ok true
         /\ tabRentalOrderReplacedItem w
            = (tabRentalOrderReplacedItem db ++
               [RentalOrderReplacedItem.mk master_order_id docname
                  replacement_date item_code new_item reason])%list)
        \/ r = Raise (ValidationError replacement_failed_message)).
Proof.
  unfold item_replacement, try_except.
  rewrite bind_run. unfold modify_db at 1.
  rewrite bind_run. unfold get_db at 1. cbn [working durable].
  rewrite bind_run.
  match goal with
  | |- context [for_each ?l ?b ?t] =>
      destruct (for_each l b t) as [r1 t1] eqn:Hloop
  end.
  apply (for_each_keeps
           (fun t => durable t = db
                     /\ tabRentalOrderReplacedItem (working t)
                        = (tabRentalOrderReplacedItem db ++
                           [RentalOrderReplacedItem.mk master_order_id docname
                              replacement_date item_code new_item reason])%list))
    in Hloop as [Hdur Hlog]; simpl; auto.
  2:{ intros x t r t'. apply item_replacement_row_keeps_log. }
  destruct t1 as [d1 w1]. simpl in Hdur, Hlog. subst d1.
  destruct r1 as [[]|e]; [|do 2 eexists; split; [reflexivity|now right]].
  unfold get_doc_Item, save_Item, get_all_SalesOrderItem, get_doc_SalesOrder,
    save_SalesOrder.
  mstep.
  destruct (tabItem w1 !! item_code) as [oi|]; simpl;
    [|do 2 eexists; split; [reflexivity|now right]].
  destruct (existsb _ _); simpl.
  - destruct (tabSalesOrder w1 !! docname) as [so|]; simpl;
      [|do 2 eexists; split; [reflexivity|now right]].
    do 2 eexists. split; [reflexivity|]. left. split; [reflexivity|exact Hlog].
  - do 2 eexists. split; [reflexivity|]. left. split; [reflexivity|exact Hlog].
Qed.

(** [item_replacement] either goes through, and then the log has exactly
    one more entry, the one of this replacement, and [get_replaced_items]
    of the master order answers what it answered before and this entry,
    in some order; or it raises the one fixed message and the database is
    as it was, the log entry written first included. *)
Theorem item_replacement_logs_or_rolls_back
    (item_code new_item replacement_date master_order_id docname
     old_item_status reason : string) (db : DB) :
  (exists db' before after,
     request (item_replacement item_code new_item replacement_date
                master_order_id docname old_item_status reason) db
     = (Ok true, db')
     /\ tabRentalOrderReplacedItem db'
        = (tabRentalOrderReplacedItem db ++
           [RentalOrderReplacedItem.mk master_order_id docname
              replacement_date item_code new_item reason])%list
     /\ request (get_replaced_items master_order_id) db
        = (Ok (Some before), db)
     /\ request (get_replaced_items master_order_id) db'
        = (Ok (Some after), db')
     /\ Permutation after
          ((item_code, new_item, replacement_date, reason) :: before))
  \/ request (item_replacement item_code new_item replacement_date
                master_order_id docname old_item_status reason) db
     = (Raise (ValidationError replacement_failed_message), db).
Proof.
  destruct (item_replacement_run item_code new_item replacement_date
              master_order_id docname old_item_status reason db)
    as (r & w & Hrun & [[-> Hlog]| ->]).
  - left. exists w. eexists. eexists. unfold request at 1. rewrite Hrun.
    split; [reflexivity|]. split; [exact Hlog|].
    split; [reflexivity|]. split.
    + unfold request, get_replaced_items. mstep.
      rewrite Hlog, List.filter_app, List.map_app. simpl.
      rewrite String.eqb_refl. reflexivity.
    + simpl. symmetry. apply Permutation_cons_append.
  - right. unfold request. now rewrite Hrun.
Qed.

(** ** Security deposit: return and recomputation *)

Section DepositFacts.

Variable ext : Collaborators.

Lemma security_deposit_status_reads (docname : string) (db db' : DB) :
  tabSalesOrder db' = tabSalesOrder db ->
  deposit_entries docname db' = deposit_entries docname db ->
  fst (request (security_deposit_status ext docname) db')
  = fst (request (security_deposit_status ext docname) db)
  /\ tabSalesOrder (snd (request (security_deposit_status ext docname) db'))
     = tabSalesOrder (snd (request (security_deposit_status ext docname) db)).
Proof.
  intros Hso Hje.
  unfold request, security_deposit_status, get_doc_SalesOrder, save_SalesOrder,
    py_float.
  unfold deposit_entries in Hje.
  mstep. rewrite Hso.
  destruct (tabSalesOrder db !! docname) as [so|]; simpl; [|auto].
  destruct (float_of ext (SalesOrder.security_deposit so)); simpl; auto.
  fold (deposit_entries docname db') (deposit_entries docname db) in Hje.
  now rewrite Hso, Hje.
Qed.

(** [return_security_deposit] books a Journal Entry of type "Return to
    Client", which the deposit recomputation does not read: after a
    return, [security_deposit_status] answers and writes for every order
    what it did before, so the paid deposit does not go down.  A failure
    is answered with [False] and never raised: when [insert()] fails
    nothing is written; when [insert()] went through the entry is in the
    table whether [submit()] fails or not, and the answer tells which. *)
Theorem return_security_deposit_not_counted (amount_to_return : Q)
    (journal_entry_account master_order_id sales_order_id customer : string)
    (db : DB) :
  let journal_entry :=
    JournalEntry.mk sales_order_id master_order_id "Security Deposit"
      "Return to Client" "Debtors - INR" customer amount_to_return in
  let db' := set_tabJournalEntry (tabJournalEntry db ++ [journal_entry])%list db in
  (forall e, journal_entry_insert ext journal_entry db = Raise e ->
     request (return_security_deposit ext amount_to_return
                journal_entry_account master_order_id sales_order_id customer)
       db
     = (Ok false, db))
  /\ (journal_entry_insert ext journal_entry db = Ok tt ->
      request (return_security_deposit ext amount_to_return
                 journal_entry_account master_order_id sales_order_id customer)
        db
      = (match journal_entry_submit ext journal_entry db' with
         | Ok _ => Ok true
         | Raise _ => Ok false
         end, db')
      /\ forall docname,
           deposit_entries docname db' = deposit_entries docname db
           /\ fst (request (security_deposit_status ext docname) db')
              = fst (request (security_deposit_status ext docname) db)
           /\ tabSalesOrder
                (snd (request (security_deposit_status ext docname) db'))
              = tabSalesOrder
                  (snd (request (security_deposit_status ext docname) db))).
Proof.
  cbv zeta. split.
  - intros e He. unfold request, return_security_deposit. mstep.
    now rewrite He.
  - intros Hok. split.
    + unfold request, return_security_deposit. mstep. rewrite Hok. simpl.
      destruct (journal_entry_submit ext _ _) as [[]|e]; reflexivity.
    + intros docname.
      assert (Hje : deposit_entries docname
                      (set_tabJournalEntry
                         (tabJournalEntry db ++
                          [JournalEntry.mk sales_order_id master_order_id
                             "Security Deposit" "Return to Client"
                             "Debtors - INR" customer amount_to_return])%list db)
                    = deposit_entries docname db).
      { unfold deposit_entries. simpl. rewrite List.filter_app. simpl.
        rewrite andb_false_r. apply app_nil_r. }
      split; [exact Hje|].
      apply security_deposit_status_reads; [reflexivity|exact Hje].
Qed.

(** Recomputing the payment status and then the deposit status of a
    stored order, in one request, is the combined recomputation: same
    answer apart from its value, same database; and the two
    recomputations can be run in either order.  For an order that is not
    stored the combined handler raises its own message while the payment
    recomputation alone lets [DoesNotExistError] through. *)
Theorem status_recomputations_compose (docname : string) (db : DB) :
  (is_Some (tabSalesOrder db !! docname) ->
   request (validate_and_update_payment_status docname ≫= fun _ =>
            security_deposit_status ext docname) db
   = request (validate_and_update_payment_and_security_deposit_status ext
                docname) db
   /\ snd (request (security_deposit_status ext docname ≫= fun _ =>
                    validate_and_update_payment_status docname) db)
      = snd (request (validate_and_update_payment_and_security_deposit_status
                        ext docname) db))
  /\ (tabSalesOrder db !! docname = None ->
      request (validate_and_update_payment_status docname) db
      = (Raise (DoesNotExistError "Sales Order" docname), db)
      /\ request (validate_and_update_payment_and_security_deposit_status ext
                    docname) db
         = (Raise (ValidationError
                     ("Failed to update payment status. Error: " ++
                      exn_str ext (DoesNotExistError "Sales Order" docname))),
            db)).
Proof.
  split.
  - intros [so Hso].
    unfold request, validate_and_update_payment_status,
      validate_and_update_payment_and_security_deposit_status,
      security_deposit_status, get_doc_SalesOrder, save_SalesOrder, py_float,
      deposit_entries.
    mstep. rewrite Hso. simpl. rewrite !lookup_insert_eq. simpl.
    destruct (float_of ext (SalesOrder.security_deposit so)) as [x|e]; simpl.
    + rewrite !lookup_insert_eq. simpl. rewrite !insert_insert_eq.
      split; reflexivity.
    + split; reflexivity.
  - intros Hso.
    unfold request, validate_and_update_payment_status,
      validate_and_update_payment_and_security_deposit_status,
      get_doc_SalesOrder.
    mstep. rewrite Hso. simpl. split; reflexivity.
Qed.

End DepositFacts.

Lemma return_security_deposit_not_counted_witness :
  request (return_security_deposit quiet 20 "Cash - INR" "SO-0006" "SO-0006"
             "CUST-1") unpaid_db
  = (Ok true,
     set_tabJournalEntry
       (tabJournalEntry unpaid_db ++
        [JournalEntry.mk "SO-0006" "SO-0006" "Security Deposit"
           "Return to Client" "Debtors - INR" "CUST-1" 20])%list unpaid_db)
  /\ fst (request (security_deposit_status quiet "SO-0006")
            (set_tabJournalEntry
               (tabJournalEntry unpaid_db ++
                [JournalEntry.mk "SO-0006" "SO-0006" "Security Deposit"
                   "Return to Client" "Debtors - INR" "CUST-1" 20])%list
               unpaid_db))
     = fst (request (security_deposit_status quiet "SO-0006") unpaid_db).
Proof.
  destruct (return_security_deposit_not_counted quiet 20 "Cash - INR"
              "SO-0006" "SO-0006" "CUST-1" unpaid_db) as [_ Hok].
  destruct (Hok eq_refl) as [Hrun Hall].
  split; [exact Hrun|].
  destruct (Hall "SO-0006") as (_ & Hfst & _). exact Hfst.
Defined.

(** A return whose submission the ledger refuses: the answer is [False]
    and the entry that was inserted is in the table. *)
Example return_security_deposit_submit_refused :
  request (return_security_deposit submit_refused 20 "Cash - INR" "SO-0006"
             "SO-0006" "CUST-1") unpaid_db
  = (Ok false,
     set_tabJournalEntry
       (tabJournalEntry unpaid_db ++
        [JournalEntry.mk "SO-0006" "SO-0006" "Security Deposit"
           "Return to Client" "Debtors - INR" "CUST-1" 20])%list unpaid_db).
Proof. reflexivity. Qed.

Lemma status_recomputations_compose_witness :
  request (validate_and_update_payment_status "SO-0006" ≫= fun _ =>
           security_deposit_status quiet "SO-0006") unpaid_db
  = request (validate_and_update_payment_and_security_deposit_status quiet
               "SO-0006") unpaid_db.
Proof.
  destruct (status_recomputations_compose quiet "SO-0006" unpaid_db)
    as [Hok _].
  destruct Hok as [Hrun _]; [|exact Hrun].
  exists unpaid_order. reflexivity.
Defined.

(** ** Booking a payment *)

Section Booking.

Variable ext : Collaborators.

Lemma float_if_truthy_pos (v : pynum) (x : Q) (t : txn) :
  float_of ext v = Ok x -> (0 < x)%Q ->
  (if truthy_num v then py_float ext v else mret 0%Q) t = (Ok x, t).
Proof.
  intros Hv Hx. unfold py_float. destruct v as [|y|s]; simpl in *.
  - discriminate.
  - inversion Hv. subst y.
    destruct (Qeq_bool x 0) eqn:E; simpl; [|reflexivity].
    apply Qeq_bool_iff in E. exfalso. lra.
  - unfold truthy_str. destruct (String.eqb s "") eqn:E; [discriminate|].
    simpl. now rewrite Hv.
Qed.

Lemma create_journal_entry_run (customer : string) (amount : Q)
    (sales_order_name master_order_id account : string) (t : txn) :
  journal_entry_insert_submit ext
    (JournalEntry.mk sales_order_name master_order_id "Security Deposit"
       "Cash Received From Client" account customer amount) (working t)
  = Ok tt ->
  create_security_deposit_journal_entry_payment ext customer amount
    sales_order_name master_order_id account t
  = (Ok tt,
     mktxn (durable t)
       (set_tabJournalEntry
          (tabJournalEntry (working t) ++
           [JournalEntry.mk sales_order_name master_order_id
              "Security Deposit" "Cash Received From Client" account customer
              amount])%list (working t))).
Proof.
  intros Hok. unfold create_security_deposit_journal_entry_payment.
  mstep. now rewrite Hok.
Qed.

Lemma create_payment_entry_run (amount : Q)
    (mode_of_payment sales_order_name customer payment_account
     master_order_id : string) (t : txn) (r : result unit) :
  payment_entry_insert_submit ext
    (PaymentEntry.mk master_order_id sales_order_name customer
       mode_of_payment payment_account amount) (working t)
  = r ->
  create_rental_payment_entry ext amount mode_of_payment sales_order_name
    customer payment_account master_order_id t
  = match r with
    | Ok _ =>
        (Ok tt,
         mktxn (durable t)
           (set_tabPaymentEntry
              (tabPaymentEntry (working t) ++
               [PaymentEntry.mk master_order_id sales_order_name customer
                  mode_of_payment payment_account amount])%list (working t)))
    | Raise e =>
        (Raise (ValidationError
           ("Failed to create Rental Payment Entry. Please try again later. Error: "
            ++ exn_str ext e)), t)
    end.
Proof.
  intros Hr. unfold create_rental_payment_entry.
  mstep. rewrite Hr. destruct r as [[]|e]; reflexivity.
Qed.

Ltac Qcmp :=
  repeat match goal with
  | H : Qltb _ _ = true |- _ => apply Qltb_lt in H
  | H : Qltb _ _ = false |- _ => apply Qltb_ge in H
  end.

Lemma process_payment_run
    (balance_amount outstanding_security_deposit_amount : pynum)
    (rental_payment_amount security_deposit_payment_amount : pynum)
    (a : PaymentArgs) (t : txn) (b o r d : Q) :
  float_of ext balance_amount = Ok b ->
  float_of ext outstanding_security_deposit_amount = Ok o ->
  float_of ext rental_payment_amount = Ok r ->
  float_of ext security_deposit_payment_amount = Ok d ->
  (0 <= r <= b)%Q -> (0 <= d <= o)%Q ->
  process_payment ext balance_amount outstanding_security_deposit_amount
    rental_payment_amount security_deposit_payment_amount a t
  = try_except
      ((if Qltb 0 d
        then create_security_deposit_journal_entry_payment ext
               (customer_name a) d (sales_order_name a) (master_order_id a)
               (security_deposit_account a)
        else mret tt);;
       (if Qltb 0 r
        then create_rental_payment_entry ext r (mode_of_payment a)
               (sales_order_name a) (customer a) (payment_account a)
               (master_order_id a)
        else mret tt);;
       mret (Qltb 0 d || Qltb 0 r))
      (fun e => throw ("Failed to process payment: " ++ exn_str ext e)) t.
Proof.
  intros Hb Ho Hr Hd [Hr0 Hrb] [Hd0 Hdo].
  unfold process_payment, try_except.
  rewrite bind_run. unfold py_float at 1. rewrite Hb.
  rewrite bind_run. unfold py_float at 1. rewrite Ho.
  rewrite bind_run. unfold py_float at 1. rewrite Hr.
  rewrite bind_run.
  assert (Hrneg : Qltb r 0 = false) by now apply Qltb_ge.
  assert (Hdneg : Qltb d 0 = false) by now apply Qltb_ge.
  assert (Hbneg : Qltb b 0 = false) by (apply Qltb_ge; lra).
  assert (Honeg : Qltb o 0 = false) by (apply Qltb_ge; lra).
  rewrite Hrneg. rewrite bind_run. unfold py_float at 1. rewrite Hd.
  unfold mret at 1, M_ret at 1. rewrite Hdneg, Hbneg, Honeg. cbn [orb].
  rewrite bind_run.
  destruct (Qltb 0 r) eqn:Hrpos; destruct (Qltb 0 d) eqn:Hdpos; Qcmp.
  - rewrite (float_if_truthy_pos rental_payment_amount r t Hr Hrpos).
    rewrite bind_run.
    rewrite (float_if_truthy_pos security_deposit_payment_amount d t Hd
               Hdpos).
    assert (H1 : Qltb 0 d = true) by now apply Qltb_lt.
    assert (H2 : Qltb 0 r = true) by now apply Qltb_lt.
    assert (H3 : Qltb o d = false) by now apply Qltb_ge.
    assert (H4 : Qltb b r = false) by now apply Qltb_ge.
    rewrite H1, H2, H3, H4. reflexivity.
  - rewrite (float_if_truthy_pos rental_payment_amount r t Hr Hrpos).
    rewrite bind_run.
    destruct (float_if_truthy ext security_deposit_payment_amount d t Hd)
      as (d' & -> & Ed).
    assert (H1 : Qltb 0 d' = false) by (apply Qltb_ge; lra).
    assert (H2 : Qltb 0 r = true) by now apply Qltb_lt.
    assert (H4 : Qltb b r = false) by now apply Qltb_ge.
    rewrite H1, H2, H4. cbn [andb].
    unfold mret, M_ret, mbind, M_bind.
    destruct (create_rental_payment_entry _ _ _ _ _ _ _ t) as [[[]|e] t'];
      reflexivity.
  - destruct (float_if_truthy ext rental_payment_amount r t Hr)
      as (r' & -> & Er).
    rewrite bind_run.
    rewrite (float_if_truthy_pos security_deposit_payment_amount d t Hd
               Hdpos).
    assert (H1 : Qltb 0 d = true) by now apply Qltb_lt.
    assert (H2 : Qltb 0 r' = false) by (apply Qltb_ge; lra).
    assert (H3 : Qltb o d = false) by now apply Qltb_ge.
    rewrite H1, H2, H3. cbn [andb].
    unfold mret, M_ret, mbind, M_bind.
    destruct (create_security_deposit_journal_entry_payment _ _ _ _ _ _ t)
      as [[[]|e] t']; reflexivity.
  - destruct (float_if_truthy ext rental_payment_amount r t Hr)
      as (r' & -> & Er).
    rewrite bind_run.
    destruct (float_if_truthy ext security_deposit_payment_amount d t Hd)
      as (d' & -> & Ed).
    assert (H1 : Qltb 0 d' = false) by (apply Qltb_ge; lra).
    assert (H2 : Qltb 0 r' = false) by (apply Qltb_ge; lra).
    rewrite H1, H2. reflexivity.
Qed.

End Booking.


Section BookingFacts.

Variable ext : Collaborators.

(** [process_payment] with amounts within their bounds books one Journal
    Entry when the deposit amount is positive and one Payment Entry when
    the rental amount is, in this order and with exactly these amounts,
    and answers whether it booked anything; it touches nothing else.  When
    the ledger refuses the Payment Entry the request raises and the
    Journal Entry booked just before is gone as well. *)
Theorem process_payment_books
    (balance_amount outstanding_security_deposit_amount : pynum)
    (rental_payment_amount security_deposit_payment_amount : pynum)
    (a : PaymentArgs) (db : DB) (b o r d : Q) :
  let journal_entry :=
    JournalEntry.mk (sales_order_name a) (master_order_id a)
      "Security Deposit" "Cash Received From Client"
      (security_deposit_account a) (customer_name a) d in
  let payment_entry :=
    PaymentEntry.mk (master_order_id a) (sales_order_name a) (customer a)
      (mode_of_payment a) (payment_account a) r in
  let db1 :=
    if Qltb 0 d
    then set_tabJournalEntry (tabJournalEntry db ++ [journal_entry])%list db
    else db in
  let db2 :=
    if Qltb 0 r
    then set_tabPaymentEntry (tabPaymentEntry db1 ++ [payment_entry])%list db1
    else db1 in
  float_of ext balance_amount = Ok b ->
  float_of ext outstanding_security_deposit_amount = Ok o ->
  float_of ext rental_payment_amount = Ok r ->
  float_of ext security_deposit_payment_amount = Ok d ->
  (0 <= r <= b)%Q -> (0 <= d <= o)%Q ->
  ((0 < d)%Q -> journal_entry_insert_submit ext journal_entry db = Ok tt) ->
  (((0 < r)%Q -> payment_entry_insert_submit ext payment_entry db1 = Ok tt) ->
   request
     (process_payment ext balance_amount outstanding_security_deposit_amount
        rental_payment_amount security_deposit_payment_amount a) db
   = (Ok (Qltb 0 d || Qltb 0 r), db2))
  /\ (forall e, (0 < r)%Q ->
        payment_entry_insert_submit ext payment_entry db1 = Raise e ->
        request
          (process_payment ext balance_amount
             outstanding_security_deposit_amount rental_payment_amount
             security_deposit_payment_amount a) db
        = (Raise (ValidationError
             ("Failed to process payment: " ++
              exn_str ext (ValidationError
                ("Failed to create Rental Payment Entry. Please try again later. Error: "
                 ++ exn_str ext e)))), db)).
Proof.
  cbv zeta. intros Hb Ho Hr Hd Hrb Hdo Hje.
  unfold request.
  rewrite (process_payment_run ext _ _ _ _ a (mktxn db db) b o r d Hb Ho Hr Hd
             Hrb Hdo).
  unfold try_except. rewrite bind_run.
  assert (Hfirst :
    (if Qltb 0 d
     then create_security_deposit_journal_entry_payment ext (customer_name a)
            d (sales_order_name a) (master_order_id a)
            (security_deposit_account a)
     else mret tt) (mktxn db db)
    = (Ok tt,
       mktxn db
         (if Qltb 0 d
          then set_tabJournalEntry
                 (tabJournalEntry db ++
                  [JournalEntry.mk (sales_order_name a) (master_order_id a)
                     "Security Deposit" "Cash Received From Client"
                     (security_deposit_account a) (customer_name a) d])%list db
          else db))).
  { destruct (Qltb 0 d) eqn:Hpos; [|reflexivity].
    apply Qltb_lt in Hpos.
    now rewrite create_journal_entry_run by (apply Hje, Hpos). }
  rewrite Hfirst. rewrite bind_run.
  split.
  - intros Hpe. destruct (Qltb 0 r) eqn:Hpos.
    + rewrite (create_payment_entry_run ext _ _ _ _ _ _ _ (Ok tt))
        by (apply Hpe; now apply Qltb_lt).
      reflexivity.
    + reflexivity.
  - intros e Hpos Hpe. apply Qltb_lt in Hpos. rewrite Hpos.
    now rewrite (create_payment_entry_run ext _ _ _ _ _ _ _ (Raise e)).
Qed.


End BookingFacts.

Lemma process_payment_books_witness :
  request
    (process_payment quiet (PNum 100) (PNum 30) (PNum 50) (PNum 10)
       payment_args) unpaid_db
  = (Ok true,
     set_tabPaymentEntry
       [PaymentEntry.mk "SO-0006" "SO-0006" "CUST-1" "Cash"
          "Bank Account - INR" 50]
       (set_tabJournalEntry
          (tabJournalEntry unpaid_db ++
           [JournalEntry.mk "SO-0006" "SO-0006" "Security Deposit"
              "Cash Received From Client"
              "Kotak Bank Security Deposit Received - INR" "Asha Rao" 10])%list
          unpaid_db)).
Proof.
  destruct (process_payment_books quiet (PNum 100) (PNum 30) (PNum 50)
              (PNum 10) payment_args unpaid_db 100 30 50 10
              eq_refl eq_refl eq_refl eq_refl) as [Hrun _].
  - split; discriminate.
  - split; discriminate.
  - reflexivity.
  - apply Hrun. reflexivity.
Defined.


(** ** Material Request *)

Lemma requested_fold (sales_order name : string)
    (l : list MaterialRequestItem.t) :
  forall m : gmap string (Q * Q),
    let sel := fun d =>
      Z.eqb (MaterialRequestItem.docstatus d) 1
      && String.eqb (MaterialRequestItem.sales_order d) sales_order
      && String.eqb (MaterialRequestItem.sales_order_item d) name in
    let res :=
      fold_left
        (fun result d =>
           if Z.eqb (MaterialRequestItem.docstatus d) 1
              && String.eqb (MaterialRequestItem.sales_order d) sales_order
           then
             let '(q, r) :=
               default (0, 0)%Q
                 (result !! MaterialRequestItem.sales_order_item d) in
             <[MaterialRequestItem.sales_order_item d :=
                 (q + MaterialRequestItem.qty d,
                  r + MaterialRequestItem.received_qty d)%Q]> result
           else result) l m in
    requested_qty res name
    = fold_left Qplus (List.map MaterialRequestItem.qty (List.filter sel l))
        (requested_qty m name)
    /\ requested_received_qty res name
       = fold_left Qplus
           (List.map MaterialRequestItem.received_qty (List.filter sel l))
           (requested_received_qty m name).
Proof.
  cbv zeta. induction l as [|d l IH]; intros m; [split; reflexivity|].
  cbn [fold_left List.filter].
  destruct (Z.eqb (MaterialRequestItem.docstatus d) 1
            && String.eqb (MaterialRequestItem.sales_order d) sales_order)
    eqn:Hsel; cbn [andb].
  - destruct (String.eqb (MaterialRequestItem.sales_order_item d) name) eqn:Hk.
    + apply String.eqb_eq in Hk.
      match goal with
      | |- context [fold_left _ l ?m'] => destruct (IH m') as [IH1 IH2]
      end.
      rewrite IH1, IH2. cbn [List.map fold_left].
      unfold requested_qty, requested_received_qty. rewrite Hk.
      destruct (m !! name) as [[q r]|]; simpl; rewrite lookup_insert_eq;
        split; reflexivity.
    + apply String.eqb_neq in Hk.
      match goal with
      | |- context [fold_left _ l ?m'] => destruct (IH m') as [IH1 IH2]
      end.
      rewrite IH1, IH2.
      unfold requested_qty, requested_received_qty.
      destruct (default _ _) as [q r].
      rewrite lookup_insert_ne by done. split; reflexivity.
  - destruct (IH m) as [IH1 IH2]. rewrite IH1, IH2. split; reflexivity.
Qed.

(** What [get_requested_item_qty] holds for a line of an order is the sum
    over the submitted Material Request Items of that order and line, of
    the quantity and of the received quantity; rows of draft or cancelled
    requests, of other orders and of other lines do not enter, and a line
    without such rows counts as zero. *)
Theorem requested_qty_is_sum (sales_order name : string) (db : DB) :
  (requested_qty (get_requested_item_qty sales_order db) name
   == Qsum (List.map MaterialRequestItem.qty
                (requested_rows sales_order name db)))%Q
  /\ (requested_received_qty (get_requested_item_qty sales_order db) name
      == Qsum (List.map MaterialRequestItem.received_qty
                   (requested_rows sales_order name db)))%Q
  /\ (requested_rows sales_order name db = [] ->
      forall (so_item : SalesOrderItem.t),
        SalesOrderItem.name so_item = name ->
        get_remaining_qty (get_requested_item_qty sales_order db) so_item
        = (SalesOrderItem.qty so_item - 0
           - Qmax (SalesOrderItem.delivered_qty so_item - 0) 0)%Q).
Proof.
  destruct (requested_fold sales_order name (tabMaterialRequestItem db) ∅)
    as [H1 H2].
  split; [unfold get_requested_item_qty, requested_rows; now rewrite H1|].
  split; [unfold get_requested_item_qty, requested_rows; now rewrite H2|].
  intros Hnone so_item Hname. unfold get_remaining_qty. simpl.
  rewrite Hname.
  unfold get_requested_item_qty. rewrite H1, H2.
  unfold requested_rows in Hnone. rewrite Hnone. reflexivity.
Qed.



(** On that order: the line of 5 of which 3 were requested on a submitted
    request is mapped with 2, the 4 of the draft request not counting;
    the bundle line is left out; its packed item, of which 6 of 4 were
    delivered, is mapped with the negative quantity -2. *)
Example make_material_request_example :
  exists doc,
    request (make_material_request "SO-0012" None) requested_db
    = (Ok doc, requested_db)
    /\ List.map (fun r => (MaterialRequestRow.item_code r,
                           MaterialRequestRow.sales_order_item r,
                           Qred (MaterialRequestRow.qty r)))
         (MaterialRequest.items doc)
       = [("ITEM-A", "L18", 2%Q); ("PART-1", "", (-2)%Q)].
Proof. eexists. split; vm_compute; reflexivity. Qed.

Lemma requested_qty_is_sum_witness :
  get_remaining_qty (get_requested_item_qty "SO-0012" requested_db)
    (SalesOrderItem.mk "L19" "SO-0012" "KIT-1" 2 100 100 0 0 1 0 0 ""
       "" "" "" "")
  = (2 - 0 - Qmax (0 - 0) 0)%Q.
Proof.
  destruct (requested_qty_is_sum "SO-0012" "L19" requested_db)
    as (_ & _ & Hnone).
  apply (Hnone eq_refl
           (SalesOrderItem.mk "L19" "SO-0012" "KIT-1" 2 100 100 0 0 1 0 0 ""
              "" "" "" "")).
  reflexivity.
Defined.

(** ** Pick List: the packed items *)

(** [create_pick_list] on a submitted order without reserved stock: a
    packed item whose bundle line has quantity 0 makes the whole call fail
    with a division by zero; otherwise every packed item gets a row,
    whatever is left to pick of its bundle line, with the component's
    quantity times the pending share of that line. *)
Theorem create_pick_list_packed_items (ext : Collaborators)
    (source_name : string) (target_doc : option PickList.t) (db : DB)
    (so : SalesOrder.t) :
  tabSalesOrder db !! source_name = Some so ->
  SalesOrder.docstatus so = 1%Z ->
  (forall item, In item (items_of db source_name) ->
     ~ (0 < SalesOrderItem.stock_reserved_qty item)%Q) ->
  ((exists p item,
      In p (packed_items_of db source_name)
      /\ find_row (PackedItem.parent_detail_docname p)
           (items_of db source_name) = Some item
      /\ (SalesOrderItem.qty item == 0)%Q) ->
   request (create_pick_list ext source_name target_doc) db
   = (Raise ZeroDivisionError, db))
  /\ ((forall p item,
         In p (packed_items_of db source_name) ->
         find_row (PackedItem.parent_detail_docname p)
           (items_of db source_name) = Some item ->
         ~ (SalesOrderItem.qty item == 0)%Q) ->
      exists rows,
        create_pick_list_draft source_name target_doc (mktxn db db)
        = (Ok (PickList.mk "Delivery"
                 (match target_doc with
                  | Some d => PickList.locations d
                  | None => []
                  end
                  ++ List.map update_item_quantity
                       (List.filter (should_pick_order_item db)
                          (items_of db source_name))
                  ++ rows)%list),
           mktxn db db)
        /\ Forall2 (packed_row (items_of db source_name))
             (packed_items_of db source_name) rows).
Proof.
  intros Hso Hdoc Hno. apply Z.eqb_eq in Hdoc. split.
  - intros Hz.
    unfold request, create_pick_list, create_pick_list_draft,
      validate_sales_order, get_doc_SalesOrder, get_mapped_source.
    rewrite !bind_run. unfold get_db at 1. cbn [working].
    rewrite Hso. unfold mret at 1, M_ret at 1.
    rewrite bind_run. unfold get_db at 1. cbn [working].
    rewrite (validate_loop_passes source_name _ _ Hno).
    unfold get_doc_SalesOrder. mstep. rewrite Hso. simpl.
    rewrite Hdoc. simpl.
    now rewrite (map_packed_items_zero _ _ (mktxn db db) Hz).
  - intros Hq.
    destruct (map_packed_items_rows (items_of db source_name)
                (packed_items_of db source_name) (mktxn db db) Hq)
      as (rows & Hrun & Hrows).
    exists rows. split; [|exact Hrows].
    unfold create_pick_list_draft, validate_sales_order,
      get_doc_SalesOrder, get_mapped_source.
    rewrite !bind_run. unfold get_db at 1. cbn [working].
    rewrite Hso. unfold mret at 1, M_ret at 1.
    rewrite bind_run. unfold get_db at 1. cbn [working].
    rewrite (validate_loop_passes source_name _ _ Hno).
    unfold get_doc_SalesOrder. mstep. rewrite Hso. simpl.
    rewrite Hdoc. simpl. now rewrite Hrun.
Qed.

Lemma create_pick_list_packed_items_witness :
  request (create_pick_list quiet "SO-0013" None) zero_bundle_db
  = (Raise ZeroDivisionError, zero_bundle_db).
Proof.
  apply (create_pick_list_packed_items quiet "SO-0013" None zero_bundle_db
           (order "To Deliver and Bill" "" NoDate NoDate) eq_refl eq_refl).
  - intros item [<-|[<-|[]]]; simpl; intros H; discriminate H.
  - exists (PackedItem.mk "P3" "SO-0013" "L20" "PART-1" 4 0 1 0),
      (SalesOrderItem.mk "L20" "SO-0013" "KIT-1" 0 100 100 0 0 1 0 0 ""
         "" "" "" "").
    split; [left; reflexivity|]. split; reflexivity.
Defined.

(** ** Delivery Note against reserved stock *)

Lemma dn_condition_reserved (fl : Flags.t) (sre_details : gset string)
    (doc : SalesOrderItem.t) :
  no_date_filters fl ->
  dn_condition fl sre_details doc
  = if decide (SalesOrderItem.name doc ∈ sre_details)
    then (false, sre_details ∖ {[SalesOrderItem.name doc]})
    else (undeliveredb doc, sre_details).
Proof.
  unfold no_date_filters, dn_condition. intros Hfl.
  destruct (decide _); [reflexivity|].
  destruct (Flags.args fl) as [a|]; [destruct Hfl as [-> ->]|]; reflexivity.
Qed.

Lemma dn_map_items_reserved (fl : Flags.t) (rows : list SalesOrderItem.t) :
  no_date_filters fl ->
  List.NoDup (List.map SalesOrderItem.name rows) ->
  forall sre_details : gset string,
    dn_map_items fl sre_details rows
    = (List.map dn_update_item
         (List.filter
            (fun l => bool_decide (SalesOrderItem.name l ∉ sre_details)
                      && undeliveredb l) rows),
       sre_details ∖ list_to_set (List.map SalesOrderItem.name rows)).
Proof.
  intros Hfl. induction rows as [|doc rows IH]; intros Hnd S.
  - simpl. f_equal. symmetry. apply difference_empty_L.
  - apply List.NoDup_cons_iff in Hnd as [Hfresh Hnd].
    cbn [dn_map_items]. rewrite (dn_condition_reserved fl S doc Hfl).
    destruct (decide (SalesOrderItem.name doc ∈ S)) as [Hin|Hout].
    + rewrite (IH Hnd). cbn [List.filter List.map].
      rewrite bool_decide_eq_false_2 by (intros H; now apply H).
      cbn [andb]. f_equal.
      * f_equal. apply filter_ext_in. intros l Hl. f_equal.
        apply bool_decide_ext. split.
        -- intros H1 H2. apply H1. apply elem_of_difference. split; [exact H2|].
           intros Heq. apply elem_of_singleton in Heq.
           apply Hfresh. rewrite <- Heq. now apply in_map.
        -- intros H1 H2. apply H1. now apply elem_of_difference in H2 as [H2 _].
      * simpl. apply difference_difference_l_L.
    + rewrite (IH Hnd). cbn [List.filter List.map].
      rewrite bool_decide_eq_true_2 by exact Hout.
      assert (Hset : S ∖ list_to_set (List.map SalesOrderItem.name rows)
                     = S ∖ list_to_set
                             (SalesOrderItem.name doc
                              :: List.map SalesOrderItem.name rows)).
      { simpl. rewrite <- difference_difference_l_L. f_equal.
        symmetry. apply difference_disjoint_L.
        now apply disjoint_singleton_r. }
      cbn [andb]. destruct (undeliveredb doc); simpl; now rewrite Hset.
Qed.

Lemma dn_reserved_items_run (fl : Flags.t) (sre_details : gset string)
    (so_items : list SalesOrderItem.t)
    (sre_list : list StockReservationEntry.t) (dur w : DB) :
  no_date_filters fl ->
  (forall l, In l so_items -> SalesOrderItem.name l ∉ sre_details) ->
  (forall l, In l so_items ->
     find_row (SalesOrderItem.name l) (tabSalesOrderItem w) = Some l) ->
  (forall sre, In sre sre_list ->
     is_Some (find_row (StockReservationEntry.voucher_detail_no sre)
                so_items)) ->
  dn_reserved_items fl sre_details so_items sre_list (mktxn dur w)
  = (Ok (reserved_rows so_items sre_list), mktxn dur w).
Proof.
  intros Hfl Hout Htab. induction sre_list as [|sre rest IH]; intros Hkeys.
  - reflexivity.
  - destruct (Hkeys sre (or_introl eq_refl)) as [line Hline].
    cbn [dn_reserved_items]. unfold reserved_rows. cbn [flat_map].
    rewrite Hline.
    pose proof (find_row_In _ _ _ Hline) as Hin.
    pose proof (find_row_name _ _ _ Hline) as Hname.
    rewrite (dn_condition_reserved fl sre_details line Hfl).
    destruct (decide _) as [Hbad|_]; [now apply Hout in Hbad|].
    fold (reserved_rows so_items rest).
    destruct (undeliveredb line).
    + unfold get_doc_SalesOrderItem. rewrite bind_run.
      unfold get_db at 1. rewrite bind_run. cbn [working].
      unfold mret at 1, M_ret at 1.
      rewrite <- Hname, (Htab line Hin).
      unfold mret at 1, M_ret at 1.
      rewrite bind_run, IH by (intros s Hs; apply Hkeys; now right).
      reflexivity.
    + rewrite IH by (intros s Hs; apply Hkeys; now right). reflexivity.
Qed.

Lemma dn_reserved_items_key_error (fl : Flags.t) (sre_details : gset string)
    (so_items : list SalesOrderItem.t)
    (sre_list : list StockReservationEntry.t) (dur w : DB) :
  no_date_filters fl ->
  (forall l, In l so_items -> SalesOrderItem.name l ∉ sre_details) ->
  (forall l, In l so_items ->
     find_row (SalesOrderItem.name l) (tabSalesOrderItem w) = Some l) ->
  ~ (forall sre, In sre sre_list ->
       is_Some (find_row (StockReservationEntry.voucher_detail_no sre)
                  so_items)) ->
  exists sre,
    In sre sre_list
    /\ find_row (StockReservationEntry.voucher_detail_no sre) so_items = None
    /\ dn_reserved_items fl sre_details so_items sre_list (mktxn dur w)
       = (Raise (KeyError (StockReservationEntry.voucher_detail_no sre)),
          mktxn dur w).
Proof.
  intros Hfl Hout Htab. induction sre_list as [|sre rest IH]; intros Hno.
  - exfalso. apply Hno. intros s [].
  - cbn [dn_reserved_items].
    destruct (find_row (StockReservationEntry.voucher_detail_no sre) so_items)
      as [line|] eqn:Hline.
    + destruct IH as (s & Hs & Hnone & Hrun).
      { intros Hall. apply Hno. intros s [<-|Hs]; [rewrite Hline; eauto|auto]. }
      exists s. split; [now right|]. split; [exact Hnone|].
      pose proof (find_row_In _ _ _ Hline) as Hin.
      pose proof (find_row_name _ _ _ Hline) as Hname.
      rewrite (dn_condition_reserved fl sre_details line Hfl).
      destruct (decide _) as [Hbad|_]; [now apply Hout in Hbad|].
      destruct (undeliveredb line).
      * unfold get_doc_SalesOrderItem. rewrite bind_run.
        unfold get_db at 1. rewrite bind_run. cbn [working].
        unfold mret at 1, M_ret at 1.
        rewrite <- Hname, (Htab line Hin).
        unfold mret at 1, M_ret at 1.
        rewrite bind_run, Hrun. reflexivity.
      * exact Hrun.
    + exists sre. split; [now left|]. split; [exact Hline|reflexivity].
Qed.

(** [make_delivery_note] against reserved stock, for a submitted order
    and without date filters: a line that has reservations gets no
    ordinary row; every reservation entry whose line is not yet delivered
    gets a row of its own, with the reserved quantity times the conversion
    factor as quantity; the other lines are mapped as usual.  A
    reservation entry whose line carries no reserved quantity makes the
    call fail with a [KeyError]; nothing is written either way. *)
Theorem make_delivery_note_reserved (ext : Collaborators) (fl : Flags.t)
    (source_name : string) (target_doc : option DeliveryNote.t)
    (kwargs : option Kwargs.t) (db : DB) (so : SalesOrder.t) :
  let reserved := get_sre_reserved_qty_details_for_voucher ext source_name db in
  let sre_list := get_sre_details_for_voucher ext source_name db in
  let so_items := lines_with_reserved_stock db source_name in
  let items :=
    (match target_doc with
     | Some d => DeliveryNote.items d
     | None => []
     end
     ++ List.map dn_update_item
          (List.filter
             (fun l => bool_decide (SalesOrderItem.name l ∉ reserved)
                       && undeliveredb l)
             (items_of db source_name))
     ++ reserved_rows so_items sre_list)%list in
  names_unique db ->
  tabSalesOrder db !! source_name = Some so ->
  SalesOrder.docstatus so = 1%Z ->
  no_date_filters fl ->
  Kwargs.for_reserved_stock (default_kwargs fl kwargs) = true ->
  Kwargs.skip_item_mapping (default_kwargs fl kwargs) = false ->
  ((forall sre, In sre sre_list ->
      is_Some (find_row (StockReservationEntry.voucher_detail_no sre)
                 so_items)) ->
   make_delivery_note_draft ext fl source_name target_doc kwargs
     (mktxn db db)
   = (Ok (if Flags.bulk_transaction fl
             && match items with [] => true | _ => false end
          then None else Some (DeliveryNote.mk items)),
      mktxn db db))
  /\ (~ (forall sre, In sre sre_list ->
           is_Some (find_row (StockReservationEntry.voucher_detail_no sre)
                      so_items)) ->
      exists sre,
        In sre sre_list
        /\ find_row (StockReservationEntry.voucher_detail_no sre) so_items
           = None
        /\ request (make_delivery_note ext fl source_name target_doc kwargs)
             db
           = (Raise (KeyError (StockReservationEntry.voucher_detail_no sre)),
              db)).
Proof.
  cbv zeta. intros Hnd Hso Hdoc Hfl Hres Hskip.
  apply Z.eqb_eq in Hdoc.
  assert (Hrows : List.NoDup
                    (List.map SalesOrderItem.name (items_of db source_name))).
  { unfold items_of, rows_of. now apply NoDup_map_filter. }
  assert (Hout : forall l,
    In l (lines_with_reserved_stock db source_name) ->
    SalesOrderItem.name l
    ∉ get_sre_reserved_qty_details_for_voucher ext source_name db
      ∖ list_to_set (List.map SalesOrderItem.name (items_of db source_name))).
  { intros l Hl H. apply elem_of_difference in H as [_ H]. apply H.
    apply elem_of_list_to_set, list_elem_of_In, in_map.
    unfold lines_with_reserved_stock in Hl.
    now apply filter_In in Hl as [Hl _]. }
  assert (Htab : forall l,
    In l (lines_with_reserved_stock db source_name) ->
    find_row (SalesOrderItem.name l) (tabSalesOrderItem db) = Some l).
  { intros l Hl. apply find_row_unique; [exact Hnd|].
    unfold lines_with_reserved_stock in Hl.
    apply filter_In in Hl as [Hl _]. now apply rows_of_In in Hl. }
  split.
  - intros Hkeys.
    pose proof (dn_reserved_items_run fl _ _ _ db db Hfl Hout Htab Hkeys)
      as Hrun.
    pose proof (dn_map_items_reserved fl _ Hfl Hrows
                  (get_sre_reserved_qty_details_for_voucher ext source_name db))
      as Hmap.
    unfold make_delivery_note_draft, get_mapped_source, get_doc_SalesOrder.
    rewrite Hres, Hskip.
    unfold mbind, M_bind, mret, M_ret, get_db. cbn [working].
    rewrite Hso. cbn beta iota. cbn [working]. rewrite Hso. cbn beta iota.
    rewrite Hdoc. cbn beta iota. rewrite Hmap. cbn [negb andb].
    fold (lines_with_reserved_stock db source_name).
    rewrite Hrun.
    destruct (Flags.bulk_transaction fl); cbn [negb andb];
      [destruct (_ ++ _)%list|]; reflexivity.
  - intros Hno.
    destruct (dn_reserved_items_key_error fl _ _ _ db db Hfl Hout Htab Hno)
      as (sre & Hin & Hnone & Hrun).
    exists sre. split; [exact Hin|]. split; [exact Hnone|].
    pose proof (dn_map_items_reserved fl _ Hfl Hrows
                  (get_sre_reserved_qty_details_for_voucher ext source_name db))
      as Hmap.
    unfold request, make_delivery_note, make_delivery_note_draft,
      get_mapped_source, get_doc_SalesOrder.
    rewrite Hres, Hskip.
    unfold mbind, M_bind, mret, M_ret, get_db. cbn [working].
    rewrite Hso. cbn beta iota. cbn [working]. rewrite Hso. cbn beta iota.
    rewrite Hdoc. cbn beta iota. rewrite Hmap. cbn [negb andb].
    fold (lines_with_reserved_stock db source_name).
    rewrite Hrun. reflexivity.
Qed.

Lemma make_delivery_note_reserved_witness :
  make_delivery_note_draft reserved_L12 no_flags "SO-0008" None
    (Some (Kwargs.mk true false)) (mktxn reserved_db reserved_db)
  = (Ok (Some (DeliveryNote.mk
           ([] ++ List.map dn_update_item
                    (List.filter
                       (fun l =>
                          bool_decide (SalesOrderItem.name l
                                       ∉ ({[ "L12" ]} : gset string))
                          && undeliveredb l)
                       (items_of reserved_db "SO-0008"))
            ++ reserved_rows (lines_with_reserved_stock reserved_db "SO-0008")
                 [StockReservationEntry.mk "L12" 2])%list)),
     mktxn reserved_db reserved_db)
  /\ exists sre,
       In sre [StockReservationEntry.mk "L11" 1]
       /\ find_row (StockReservationEntry.voucher_detail_no sre)
            (lines_with_reserved_stock reserved_db "SO-0008") = None
       /\ request (make_delivery_note reserved_L11 no_flags "SO-0008" None
                     (Some (Kwargs.mk true false))) reserved_db
          = (Raise (KeyError (StockReservationEntry.voucher_detail_no sre)),
             reserved_db).
Proof.
  assert (Hnd : names_unique reserved_db).
  { unfold names_unique. simpl.
    repeat (apply List.NoDup_cons; [simpl; intuition discriminate|]).
    apply List.NoDup_nil. }
  split.
  - apply (make_delivery_note_reserved reserved_L12 no_flags "SO-0008" None
             (Some (Kwargs.mk true false)) reserved_db
             (order "To Deliver and Bill" "" NoDate NoDate) Hnd eq_refl eq_refl
             I eq_refl eq_refl).
    intros sre [<-|[]]. vm_compute. eauto.
  - apply (make_delivery_note_reserved reserved_L11 no_flags "SO-0008" None
             (Some (Kwargs.mk true false)) reserved_db
             (order "To Deliver and Bill" "" NoDate NoDate) Hnd eq_refl eq_refl
             I eq_refl eq_refl).
    intros Hall. destruct (Hall (StockReservationEntry.mk "L11" 1)) as [l Hl].
    + now left.
    + vm_compute in Hl. discriminate Hl.
Defined.

(** On that order, of which the second line of 2 units is reserved: the
    first line is mapped with its 5 units, the second through its
    reservation entry. *)
Example make_delivery_note_reserved_example :
  exists dn,
    request (make_delivery_note reserved_L12 no_flags "SO-0008" None
               (Some (Kwargs.mk true false))) reserved_db
    = (Ok (Some dn), reserved_db)
    /\ List.map (fun r => (DeliveryNoteItem.so_detail r,
                           Qred (DeliveryNoteItem.qty r)))
         (DeliveryNote.items dn)
       = [("L11", 5%Q); ("L12", 2%Q)].
Proof. eexists. split; vm_compute; reflexivity. Qed.

(** ** Approval of all lines *)

Lemma replace_row_update_named (f : SalesOrderItem.t -> SalesOrderItem.t)
    (r : SalesOrderItem.t) (rows : list SalesOrderItem.t) :
  (forall x, SalesOrderItem.name (f x) = SalesOrderItem.name x) ->
  List.NoDup (List.map SalesOrderItem.name rows) ->
  In r rows ->
  replace_row (f r) rows = update_named f [SalesOrderItem.name r] rows.
Proof.
  intros Hf Hnd Hin. unfold replace_row, update_named.
  apply map_ext_in. intros x Hx. simpl. rewrite Hf, orb_false_r.
  destruct (String.eqb (SalesOrderItem.name x) (SalesOrderItem.name r)) eqn:E;
    [|reflexivity].
  apply String.eqb_eq in E. now rewrite (unique_name _ x r Hnd Hx Hin E).
Qed.

Lemma update_named_cons (f : SalesOrderItem.t -> SalesOrderItem.t)
    (n : string) (names : list string) (rows : list SalesOrderItem.t) :
  (forall x, SalesOrderItem.name (f x) = SalesOrderItem.name x) ->
  ~ In n names ->
  update_named f names (update_named f [n] rows)
  = update_named f (n :: names) rows.
Proof.
  intros Hf Hfresh. unfold update_named. rewrite List.map_map.
  apply List.map_ext. intros x. simpl.
  destruct (String.eqb (SalesOrderItem.name x) n) eqn:E; simpl;
    [|reflexivity].
  rewrite Hf.
  destruct (existsb _ names) eqn:E2; [|reflexivity].
  exfalso. apply Hfresh. apply existsb_eqb_In in E2.
  apply String.eqb_eq in E. now rewrite <- E.
Qed.

Lemma approved_db_step (docname : string) (p : SalesOrderItem.t)
    (pre : list SalesOrderItem.t) (w : DB) (it : Item.t) (so : SalesOrder.t) :
  names_unique w ->
  In p (tabSalesOrderItem w) ->
  ~ In (SalesOrderItem.name p) (List.map SalesOrderItem.name pre) ->
  tabItem w !! SalesOrderItem.item_code p = Some it ->
  tabSalesOrder w !! docname = Some so ->
  approved_db docname pre
    (set_tabSalesOrder
       (<[docname := SalesOrder.set_status "Approved" so]> (tabSalesOrder w))
       (set_tabSalesOrderItem
          (replace_row (SalesOrderItem.set_child_status "Approved" p)
             (tabSalesOrderItem w))
          (set_tabItem
             (<[SalesOrderItem.item_code p := Item.set_status "Reserved" it]>
                (tabItem w)) w)))
  = approved_db docname (p :: pre) w.
Proof.
  intros Hnd Hin Hfresh Hit Hso.
  assert (H1 : <[SalesOrderItem.item_code p := Item.set_status "Reserved" it]>
                 (tabItem w)
               = alter (Item.set_status "Reserved") (SalesOrderItem.item_code p)
                   (tabItem w)).
  { apply map_eq. intros k.
    destruct (decide (SalesOrderItem.item_code p = k)) as [<-|Hne].
    - now rewrite lookup_insert_eq, lookup_alter_eq, Hit.
    - now rewrite lookup_insert_ne, lookup_alter_ne by done. }
  assert (H2 : update_named (SalesOrderItem.set_child_status "Approved")
                 (List.map SalesOrderItem.name pre)
                 (replace_row (SalesOrderItem.set_child_status "Approved" p)
                    (tabSalesOrderItem w))
               = update_named (SalesOrderItem.set_child_status "Approved")
                   (List.map SalesOrderItem.name (p :: pre))
                   (tabSalesOrderItem w)).
  { rewrite (replace_row_update_named
               (SalesOrderItem.set_child_status "Approved") p _
               (fun _ => eq_refl) Hnd Hin).
    now apply update_named_cons. }
  assert (H3 : match pre with
               | [] => <[docname := SalesOrder.set_status "Approved" so]>
                         (tabSalesOrder w)
               | _ => alter (SalesOrder.set_status "Approved") docname
                        (<[docname := SalesOrder.set_status "Approved" so]>
                           (tabSalesOrder w))
               end
               = alter (SalesOrder.set_status "Approved") docname
                   (tabSalesOrder w)).
  { apply map_eq. intros k. destruct pre.
    - destruct (decide (docname = k)) as [<-|Hne].
      + now rewrite lookup_insert_eq, lookup_alter_eq, Hso.
      + now rewrite lookup_insert_ne, lookup_alter_ne by done.
    - destruct (decide (docname = k)) as [<-|Hne].
      + now rewrite !lookup_alter_eq, lookup_insert_eq, Hso.
      + now rewrite !lookup_alter_ne, lookup_insert_ne by done. }
  unfold approved_db.
  cbn [tabItem tabSalesOrder tabSalesOrderItem set_tabItem set_tabSalesOrder
       set_tabSalesOrderItem].
  rewrite H1, H2, H3. reflexivity.
Qed.

Lemma make_approved_loop_all (docname : string) (pre : list SalesOrderItem.t) :
  forall (dur w : DB),
    names_unique w ->
    (forall p, In p pre -> In p (tabSalesOrderItem w)) ->
    (forall p, In p pre ->
       exists it, tabItem w !! SalesOrderItem.item_code p = Some it
                  /\ Item.status it = "Available") ->
    List.NoDup (List.map SalesOrderItem.item_code pre) ->
    (pre <> [] -> is_Some (tabSalesOrder w !! docname)) ->
    make_approved_loop docname pre (mktxn dur w)
    = (Ok tt, mktxn dur (approved_db docname pre w)).
Proof.
  induction pre as [|p pre IH]; intros dur w Hnd Hrows Havail Hcodes Hord.
  - simpl. unfold approved_db, update_named, alter_all. simpl.
    rewrite List.map_id. now destruct w.
  - destruct (Havail p (or_introl eq_refl)) as (it & Hit & Hst).
    destruct Hord as [so Hso]; [discriminate|].
    apply List.NoDup_cons_iff in Hcodes as [Hfresh Hcodes].
    pose proof (Hrows p (or_introl eq_refl)) as Hp.
    assert (Hname : ~ In (SalesOrderItem.name p)
                      (List.map SalesOrderItem.name pre)).
    { intros Hin. apply in_map_iff in Hin as (q & Hq & Hin).
      apply Hfresh.
      rewrite <- (unique_name _ q p Hnd (Hrows q (or_intror Hin)) Hp Hq).
      now apply in_map. }
    rewrite <- (approved_db_step docname p pre w it so Hnd Hp Hname Hit Hso).
    rewrite <- IH.
    + simpl.
      unfold get_doc_Item, get_doc_SalesOrderItem, get_doc_SalesOrder,
        save_Item, save_SalesOrderItem, save_SalesOrder.
      mstep. rewrite Hit. simpl. rewrite Hst. simpl.
      rewrite (find_row_unique _ p Hnd Hp). simpl. rewrite Hso. simpl.
      reflexivity.
    + unfold names_unique. simpl. rewrite replace_row_names. exact Hnd.
    + intros q Hq. simpl.
      rewrite (replace_row_update_named
                 (SalesOrderItem.set_child_status "Approved") p _
                 (fun _ => eq_refl) Hnd Hp).
      unfold update_named. apply in_map_iff.
      exists q. split; [|apply Hrows; now right].
      simpl. rewrite orb_false_r.
      destruct (String.eqb (SalesOrderItem.name q) (SalesOrderItem.name p))
        eqn:E; [|reflexivity].
      exfalso. apply Hname. apply String.eqb_eq in E. rewrite <- E.
      now apply in_map.
    + intros q Hq. simpl.
      destruct (Havail q (or_intror Hq)) as (it' & Hit' & Hst').
      exists it'. split; [|exact Hst'].
      rewrite lookup_insert_ne; [exact Hit'|].
      intros Heq. apply Hfresh. rewrite Heq. now apply in_map.
    + exact Hcodes.
    + intros _. simpl. rewrite lookup_insert_eq. eauto.
Qed.

(** [make_approved] on an order all of whose lines hold distinct Items
    that are "Available": every line becomes "Approved", every Item of the
    order "Reserved", the header "Approved"; rows of other orders and Items
    not on the order stay as they were.  A second call answers
    "Approved Success" again and changes nothing, since it stops at the
    first line, whose Item is no longer "Available". *)
Theorem make_approved_all_lines (docname : string) (db : DB)
    (so : SalesOrder.t) :
  names_unique db ->
  tabSalesOrder db !! docname = Some so ->
  rows_of docname (tabSalesOrderItem db) <> [] ->
  (forall p, In p (rows_of docname (tabSalesOrderItem db)) ->
     exists it, tabItem db !! SalesOrderItem.item_code p = Some it
                /\ Item.status it = "Available") ->
  List.NoDup (List.map SalesOrderItem.item_code
                (rows_of docname (tabSalesOrderItem db))) ->
  exists db',
    request (make_approved docname) db = (Ok "Approved Success", db')
    /\ line_statuses docname db'
       = List.map (fun _ => "Approved") (rows_of docname (tabSalesOrderItem db))
    /\ (forall p, In p (rows_of docname (tabSalesOrderItem db)) ->
          Item.status <$> tabItem db' !! SalesOrderItem.item_code p
          = Some "Reserved")
    /\ header_status docname db' = Some "Approved"
    /\ (forall code,
          ~ In code (List.map SalesOrderItem.item_code
                       (rows_of docname (tabSalesOrderItem db))) ->
          tabItem db' !! code = tabItem db !! code)
    /\ (forall d, d <> docname ->
          rows_of d (tabSalesOrderItem db') = rows_of d (tabSalesOrderItem db)
          /\ tabSalesOrder db' !! d = tabSalesOrder db !! d)
    /\ request (make_approved docname) db' = (Ok "Approved Success", db').
Proof.
  intros Hnd Hso Hne Havail Hcodes.
  pose proof (make_approved_loop_all docname
                (rows_of docname (tabSalesOrderItem db)) db db Hnd
                (fun p => rows_of_In docname _ p) Havail Hcodes
                (fun _ => ex_intro _ so Hso)) as Hrun.
  exists (approved_db docname (rows_of docname (tabSalesOrderItem db)) db).
  assert (Hrows' :
    rows_of docname
      (tabSalesOrderItem
         (approved_db docname (rows_of docname (tabSalesOrderItem db)) db))
    = List.map (SalesOrderItem.set_child_status "Approved")
        (rows_of docname (tabSalesOrderItem db))).
  { unfold approved_db. simpl.
    rewrite (update_named_rows_of _ docname _ Hnd).
    now apply rows_of_update_same. }
  assert (Hitems : forall p,
    In p (rows_of docname (tabSalesOrderItem db)) ->
    Item.status
      <$> tabItem (approved_db docname
                     (rows_of docname (tabSalesOrderItem db)) db)
          !! SalesOrderItem.item_code p
    = Some "Reserved").
  { intros p Hp. unfold approved_db. simpl.
    rewrite alter_all_lookup by reflexivity.
    destruct (in_dec _ _ _) as [_|Hn]; [|exfalso; apply Hn; now apply in_map].
    destruct (Havail p Hp) as (it & -> & _). reflexivity. }
  split; [|split; [|split; [|split; [|split; [|split]]]]].
  - unfold request, make_approved, get_all_SalesOrderItem, try_except.
    rewrite !bind_run. unfold get_db at 1. cbn [working].
    unfold mret at 1, M_ret at 1. rewrite bind_run, Hrun. reflexivity.
  - unfold line_statuses. rewrite Hrows', List.map_map. reflexivity.
  - exact Hitems.
  - unfold header_status, approved_db. simpl.
    destruct (rows_of docname (tabSalesOrderItem db)); [congruence|].
    now rewrite lookup_alter_eq, Hso.
  - intros code Hcode. unfold approved_db. simpl.
    rewrite alter_all_lookup by reflexivity.
    destruct (in_dec _ _ _) as [Hi|_]; [contradiction|reflexivity].
  - intros d Hd. unfold approved_db. simpl. split.
    + rewrite (update_named_rows_of _ docname _ Hnd).
      apply rows_of_update_other; [reflexivity|exact Hd].
    + destruct (rows_of docname (tabSalesOrderItem db)); [reflexivity|].
      now rewrite lookup_alter_ne.
  - unfold request, make_approved, get_all_SalesOrderItem, try_except.
    rewrite !bind_run. unfold get_db at 1. cbn [working].
    unfold mret at 1, M_ret at 1. rewrite bind_run, Hrows'.
    destruct (rows_of docname (tabSalesOrderItem db)) as [|first rest] eqn:E;
      [congruence|].
    cbn [List.map].
    pose proof (Hitems first (or_introl eq_refl)) as Hfirst.
    destruct (tabItem _ !! SalesOrderItem.item_code first) as [it'|] eqn:Hit';
      [|discriminate].
    simpl in Hfirst. inversion Hfirst as [Hst].
    rewrite (make_approved_loop_break docname _ _ _ it').
    + reflexivity.
    + exact Hit'.
    + rewrite Hst. discriminate.
Qed.

Lemma make_approved_all_lines_witness :
  exists db',
    request (make_approved "SO-0014") pending_db = (Ok "Approved Success", db')
    /\ line_statuses "SO-0014" db' = ["Approved"; "Approved"]
    /\ header_status "SO-0014" db' = Some "Approved"
    /\ request (make_approved "SO-0014") db' = (Ok "Approved Success", db').
Proof.
  destruct (make_approved_all_lines "SO-0014" pending_db
              (order "Pending" "" NoDate NoDate))
    as (db' & Hrun & Hlines & _ & Hhead & _ & _ & Hagain).
  - unfold names_unique. simpl.
    repeat (apply List.NoDup_cons; [simpl; intuition discriminate|]).
    apply List.NoDup_nil.
  - reflexivity.
  - discriminate.
  - intros p [<-|[<-|[]]]; exists (device "Available"); split; reflexivity.
  - simpl. repeat (apply List.NoDup_cons; [simpl; intuition discriminate|]).
    apply List.NoDup_nil.
  - exists db'. auto.
Defined.

(** ** Line status set without a vote *)

Ltac line_status_cases :=
  intros item_code docname child_name db Hnd;
  unfold request, get_all_SalesOrderItem, get_doc_SalesOrderItem,
    save_SalesOrderItem, get_doc_SalesOrder, save_SalesOrder;
  mstep;
  repeat split.

(** [update_status_to_active] and [update_status_back_to_ready_for_pickup]
    set the status of one line and, only on an order of a single line,
    that of the header: on an order of several lines the header is left as
    it is, no vote being taken, and a [child_name] that names no row
    raises instead of being answered with [False]. *)
Theorem line_status_without_vote :
  sets_line_status update_status_to_active "Active"
  /\ sets_line_status update_status_back_to_ready_for_pickup
       "Ready for Pickup".
Proof.
  split.
  - unfold sets_line_status, update_status_to_active. line_status_cases.
    + intros ->. reflexivity.
    + intros r so Hrows Hso. rewrite Hrows. simpl.
      assert (Hin : In r (tabSalesOrderItem db)).
      { apply (rows_of_In docname). rewrite Hrows. now left. }
      assert (Hp : SalesOrderItem.parent r = docname).
      { assert (H : In r (rows_of docname (tabSalesOrderItem db)))
          by (rewrite Hrows; now left).
        unfold rows_of in H. apply filter_In in H as [_ H].
        now apply String.eqb_eq. }
      rewrite (find_row_unique _ _ Hnd Hin). simpl.
      rewrite Hp, Hso. reflexivity.
    + intros r Hlen Hr.
      destruct (rows_of docname (tabSalesOrderItem db)) as [|a [|b l]];
        simpl in Hlen; try lia.
      simpl. rewrite Hr. reflexivity.
    + intros Hlen Hr.
      destruct (rows_of docname (tabSalesOrderItem db)) as [|a [|b l]];
        simpl in Hlen; try lia.
      simpl. rewrite Hr. reflexivity.
  - unfold sets_line_status, update_status_back_to_ready_for_pickup.
    line_status_cases.
    + intros ->. reflexivity.
    + intros r so Hrows Hso. rewrite Hrows. simpl.
      assert (Hin : In r (tabSalesOrderItem db)).
      { apply (rows_of_In docname). rewrite Hrows. now left. }
      assert (Hp : SalesOrderItem.parent r = docname).
      { assert (H : In r (rows_of docname (tabSalesOrderItem db)))
          by (rewrite Hrows; now left).
        unfold rows_of in H. apply filter_In in H as [_ H].
        now apply String.eqb_eq. }
      rewrite (find_row_unique _ _ Hnd Hin). simpl.
      rewrite Hp, Hso. reflexivity.
    + intros r Hlen Hr.
      destruct (rows_of docname (tabSalesOrderItem db)) as [|a [|b l]];
        simpl in Hlen; try lia.
      simpl. rewrite Hr. reflexivity.
    + intros Hlen Hr.
      destruct (rows_of docname (tabSalesOrderItem db)) as [|a [|b l]];
        simpl in Hlen; try lia.
      simpl. rewrite Hr. reflexivity.
Qed.

Lemma line_status_without_vote_witness :
  request (update_status_to_active "DEV-7" "SO-0005" "L7") two_lines_db
  = (Ok true,
     set_tabSalesOrderItem
       (replace_row
          (SalesOrderItem.set_child_status "Active"
             (line "L7" "SO-0005" "DEV-7" "Submitted to Office"))
          (tabSalesOrderItem two_lines_db)) two_lines_db)
  /\ request (update_status_back_to_ready_for_pickup "DEV-7" "SO-0005" "L9")
       two_lines_db
     = (Raise (DoesNotExistError "Sales Order Item" "L9"), two_lines_db).
Proof.
  assert (Hnd : names_unique two_lines_db).
  { unfold names_unique. simpl.
    repeat (apply List.NoDup_cons; [simpl; intuition discriminate|]).
    apply List.NoDup_nil. }
  destruct line_status_without_vote as [Hactive Hback].
  split.
  - destruct (Hactive "DEV-7" "SO-0005" "L7" two_lines_db Hnd)
      as (_ & _ & Hmany & _).
    apply Hmany; [simpl; lia|reflexivity].
  - destruct (Hback "DEV-7" "SO-0005" "L9" two_lines_db Hnd)
      as (_ & _ & _ & Hnone).
    apply Hnone; [simpl; lia|reflexivity].
Defined.

(** [item_replacement] does not ask that the old Item be on the order:
    when no line of the order holds it the call still answers [True],
    writes the log entry and sets the status and reason of the old Item;
    no row changes, and the new Item is neither needed nor touched. *)
Theorem item_replacement_without_line
    (item_code new_item replacement_date master_order_id docname
     old_item_status reason : string) (db : DB) (old : Item.t) :
  List.filter (fun r => String.eqb (SalesOrderItem.item_code r) item_code)
    (rows_of docname (tabSalesOrderItem db)) = [] ->
  tabItem db !! item_code = Some old ->
  is_Some (tabSalesOrder db !! docname) ->
  exists db',
    request (item_replacement item_code new_item replacement_date
               master_order_id docname old_item_status reason) db
    = (Ok true, db')
    /\ tabSalesOrderItem db' = tabSalesOrderItem db
    /\ tabItem db'
       = <[item_code := Item.set_replaced_reason reason
                          (Item.set_status old_item_status old)]> (tabItem db)
    /\ tabRentalOrderReplacedItem db'
       = (tabRentalOrderReplacedItem db ++
          [RentalOrderReplacedItem.mk master_order_id docname
             replacement_date item_code new_item reason])%list.
Proof.
  intros Hnone Hold [so Hso].
  unfold request, item_replacement, try_except.
  rewrite bind_run. unfold modify_db at 1.
  rewrite bind_run. unfold get_db at 1. cbn [working durable].
  cbn [tabSalesOrderItem set_tabRentalOrderReplacedItem].
  rewrite Hnone. cbn [for_each].
  unfold get_doc_Item, save_Item, get_all_SalesOrderItem, get_doc_SalesOrder,
    save_SalesOrder.
  mstep. rewrite Hold. simpl.
  destruct (existsb _ _); simpl.
  - rewrite Hso. simpl. eexists. split; [reflexivity|]. simpl. auto.
  - eexists. split; [reflexivity|]. simpl. auto.
Qed.

Lemma item_replacement_without_line_witness :
  exists db',
    request (item_replacement "DEV-8" "DEV-0" "2024-05-01 10:00:00" "SO-0005"
               "SO-0005" "Under Repair" "Faulty") two_lines_db
    = (Ok true, db')
    /\ tabSalesOrderItem db' = tabSalesOrderItem two_lines_db
    /\ tabItem db'
       = <["DEV-8" := Item.set_replaced_reason "Faulty"
                        (Item.set_status "Under Repair" (device "Available"))]>
           (tabItem two_lines_db)
    /\ tabRentalOrderReplacedItem db'
       = (tabRentalOrderReplacedItem two_lines_db ++
          [RentalOrderReplacedItem.mk "SO-0005" "SO-0005"
             "2024-05-01 10:00:00" "DEV-8" "DEV-0" "Faulty"])%list.
Proof.
  apply (item_replacement_without_line "DEV-8" "DEV-0" "2024-05-01 10:00:00"
           "SO-0005" "SO-0005" "Under Repair" "Faulty" two_lines_db
           (device "Available")).
  - reflexivity.
  - reflexivity.
  - vm_compute. eauto.
Defined.
